(** * SyncScript backend: energy matching and scoring

    A shallow embedding of the scoring code of the SyncScript backend
    ([src/models/Task.ts], [src/models/Energy.ts] and the two controllers
    that call them), and the properties of it that the specification
    states.

    Conventions of the embedding:
    - JavaScript numbers that hold SQL [INTEGER] columns are [Z]; numbers
      that may be fractional (multipliers, scores, averages, confidences)
      are [Q].  The multipliers are dyadic and every product is far below
      2^53, so the products and roundings of the code are exact.  An
      [AVG] is the exact rational.  The program holds the double that
      JavaScript reads from the decimal digits PostgreSQL returns for it,
      sixteen of them after the point for a mean of 1..5; what is stated
      below of an average is a bound, an order, a comparison of the
      returned value itself, or holds to within 10^-15.
    - [undefined] and SQL [NULL] are [None].
    - A table is the list of its rows; a query is a function of that
      list; a statement that writes returns the new list.
    - [Date] values and SQL timestamps are milliseconds as [Z]; [NOW()],
      [new Date()] and generated primary keys are arguments. *)

From Stdlib Require Import ZArith QArith Qround Bool List String Sorted Permutation Lia.
From Stdlib Require Import DecimalString Qabs Lqa.
Import ListNotations.

Local Open Scope Z_scope.

(** ** JavaScript helpers *)

Module Js.

(** [Math.round]: nearest integer, ties towards +infinity. *)
Definition Math_round (x : Q) : Z := Qfloor (x + (1 # 2)).

(** [o[k]] on an object literal with integer keys. *)
Fixpoint obj_get {V : Type} (o : list (Z * V)) (k : Z) : option V :=
  match o with
  | [] => None
  | (k', v) :: o' => if k' =? k then Some v else obj_get o' k
  end.

(** Truthiness of a [number | undefined]. *)
Definition truthyZ (v : option Z) : bool :=
  match v with Some z => negb (z =? 0) | None => false end.

(** Truthiness of a [string | undefined]. *)
Definition truthyS (v : option string) : bool :=
  match v with Some s => negb (String.eqb s EmptyString) | None => false end.

(** [v || d] at the types the code uses it. *)
Definition orZ (v : option Z) (d : Z) : Z :=
  match v with Some z => if z =? 0 then d else z | None => d end.

Definition orQ (v : option Q) (d : Q) : Q :=
  match v with Some q => if Qeq_bool q 0 then d else q | None => d end.

(** [v || null] *)
Definition orNullZ (v : option Z) : option Z :=
  if truthyZ v then v else None.

Definition orNullS (v : option string) : option string :=
  if truthyS v then v else None.

(** [a.slice(0, n)] and [a.slice(-n)] for a positive [n]. *)
Definition slice_first {A : Type} (n : nat) (a : list A) : list A := firstn n a.

Definition slice_last {A : Type} (n : nat) (a : list A) : list A :=
  skipn (List.length a - n) a.

(** [String(z)] for an integer. *)
Definition string_of_Z (z : Z) : string := NilZero.string_of_int (Z.to_int z).

(** [a.join(sep)] on an array of integers. *)
Fixpoint join (sep : string) (a : list Z) : string :=
  match a with
  | [] => EmptyString
  | [x] => string_of_Z x
  | x :: a' => (string_of_Z x ++ sep ++ join sep a')%string
  end.

End Js.

(** ** SQL helpers *)

Module Sql.

Section OrderBy.
Context {A : Type}.
Variable cmp : A -> A -> comparison.

(** [a] may stand before [b] in the output of [ORDER BY]. *)
Definition leb (a b : A) : bool :=
  match cmp a b with Gt => false | _ => true end.

Fixpoint insert (a : A) (l : list A) : list A :=
  match l with
  | [] => [a]
  | b :: l' => if leb a b then a :: l else b :: insert a l'
  end.

(** [ORDER BY]: the rows reordered so that the keys do not decrease.
    PostgreSQL leaves the order of rows with equal keys open; this
    model keeps them in the order of the input, which is one of the
    orders the database may choose.  The theorems below do not depend
    on that choice. *)
Fixpoint order_by (l : list A) : list A :=
  match l with
  | [] => []
  | a :: l' => insert a (order_by l')
  end.
End OrderBy.

(** Combining sort keys: the next key decides only on a tie. *)
Definition lex (c1 c2 : comparison) : comparison :=
  match c1 with Eq => c2 | _ => c1 end.

Definition desc_Z (a b : Z) : comparison := b ?= a.
Definition desc_Q (a b : Q) : comparison := (b ?= a)%Q.

(** [ASC NULLS LAST] on a nullable timestamp. *)
Definition asc_nulls_last (a b : option Z) : comparison :=
  match a, b with
  | Some x, Some y => x ?= y
  | Some _, None => Lt
  | None, Some _ => Gt
  | None, None => Eq
  end.

(** pg-promise's [db.one]: exactly one row, or the promise rejects. *)
Definition one {A : Type} (rows : list A) : option A :=
  match rows with [r] => Some r | _ => None end.

(** [SUM] and [AVG] of an integer column over a non-empty group; the
    average is the exact quotient, see the conventions above. *)
Definition sum (l : list Z) : Z := fold_right Z.add 0 l.

Definition avg (l : list Z) : Q := inject_Z (sum l) / inject_Z (Z.of_nat (List.length l)).

End Sql.

(** ** [src/models/Task.ts] *)

Module TaskModel.

Record Tag := { tag_id : string; label : string; color : string }.

Record Task := {
  id : string;
  user_id : string;
  project_id : option string;
  title : string;
  description : option string;
  energy_requirement : Z;
  priority : Z;
  status : string;
  due_date : option Z;
  completed_at : option Z;
  estimated_duration : option Z;
  actual_duration : option Z;
  points : Z;
  tags : list Tag;
  created_at : Z;
  updated_at : Z
}.

(** The fields of [CreateTaskData] carry the prefix [c_], those of its
    [Partial] the prefix [u_], those of [filters] the prefix [f_]; an
    optional member is an [option]. *)
Record CreateTaskData := {
  c_user_id : string;
  c_project_id : option string;
  c_title : string;
  c_description : option string;
  c_energy_requirement : option Z;
  c_priority : option Z;
  c_due_date : option Z;
  c_estimated_duration : option Z;
  c_tags : option (list Tag)
}.

(** [Partial<CreateTaskData>], the argument of [update]. *)
Record PartialCreateTaskData := {
  u_user_id : option string;
  u_project_id : option string;
  u_title : option string;
  u_description : option string;
  u_energy_requirement : option Z;
  u_priority : option Z;
  u_due_date : option Z;
  u_estimated_duration : option Z;
  u_tags : option (list Tag)
}.

(** [TaskWithEnergyMatch extends Task]: [task] holds the members of
    [Task]. *)
Record TaskWithEnergyMatch := {
  task : Task;
  energy_match : bool;
  energy_match_score : Q;
  bonus_points : Z
}.

Record Filters := {
  f_status : option string;
  f_project_id : option string;
  f_priority : option Z
}.

(** What [complete] resolves to: [{ task, points_earned, bonus_points }]. *)
Record Completion := {
  completed_task : Task;
  points_earned : Z;
  result_bonus_points : Z
}.

(** What a rejected promise of the model carries. *)
Inductive Error :=
| TaskNotFound        (* [new Error('Task not found')] *)
| QueryResultError    (* [db.one] did not get exactly one row *)
| ConstraintViolation (* a [CHECK] or the primary key of [tasks] *)
| SyntaxError.        (* the statement does not parse *)

Inductive Result (A : Type) :=
| Ok (a : A)
| Rejected (e : Error).
Arguments Ok {A} a.
Arguments Rejected {A} e.

(** The table [tasks]. *)
Definition Table := list Task.

(** The column constraints of [tasks] in the schema:
    [energy_requirement] and [priority] are [BETWEEN 1 AND 5]. *)
Definition check_row (t : Task) : bool :=
  (1 <=? energy_requirement t) && (energy_requirement t <=? 5) &&
  (1 <=? priority t) && (priority t <=? 5).

Definition has_id (i : string) (t : Task) : bool := String.eqb (id t) i.

Definition owned (i u : string) (t : Task) : bool :=
  String.eqb (id t) i && String.eqb (user_id t) u.

(** [SET column = v] on one row. *)
Definition set_title (v : string) (t : Task) : Task :=
  {| id := id t; user_id := user_id t; project_id := project_id t; title := v;
     description := description t; energy_requirement := energy_requirement t;
     priority := priority t; status := status t; due_date := due_date t;
     completed_at := completed_at t; estimated_duration := estimated_duration t;
     actual_duration := actual_duration t; points := points t; tags := tags t;
     created_at := created_at t; updated_at := updated_at t |}.

Definition set_description (v : option string) (t : Task) : Task :=
  {| id := id t; user_id := user_id t; project_id := project_id t; title := title t;
     description := v; energy_requirement := energy_requirement t;
     priority := priority t; status := status t; due_date := due_date t;
     completed_at := completed_at t; estimated_duration := estimated_duration t;
     actual_duration := actual_duration t; points := points t; tags := tags t;
     created_at := created_at t; updated_at := updated_at t |}.

Definition set_energy_requirement (v : Z) (t : Task) : Task :=
  {| id := id t; user_id := user_id t; project_id := project_id t; title := title t;
     description := description t; energy_requirement := v; priority := priority t;
     status := status t; due_date := due_date t; completed_at := completed_at t;
     estimated_duration := estimated_duration t; actual_duration := actual_duration t;
     points := points t; tags := tags t; created_at := created_at t;
     updated_at := updated_at t |}.

Definition set_priority (v : Z) (t : Task) : Task :=
  {| id := id t; user_id := user_id t; project_id := project_id t; title := title t;
     description := description t; energy_requirement := energy_requirement t;
     priority := v; status := status t; due_date := due_date t;
     completed_at := completed_at t; estimated_duration := estimated_duration t;
     actual_duration := actual_duration t; points := points t; tags := tags t;
     created_at := created_at t; updated_at := updated_at t |}.

Definition set_points (v : Z) (t : Task) : Task :=
  {| id := id t; user_id := user_id t; project_id := project_id t; title := title t;
     description := description t; energy_requirement := energy_requirement t;
     priority := priority t; status := status t; due_date := due_date t;
     completed_at := completed_at t; estimated_duration := estimated_duration t;
     actual_duration := actual_duration t; points := v; tags := tags t;
     created_at := created_at t; updated_at := updated_at t |}.

Definition set_due_date (v : option Z) (t : Task) : Task :=
  {| id := id t; user_id := user_id t; project_id := project_id t; title := title t;
     description := description t; energy_requirement := energy_requirement t;
     priority := priority t; status := status t; due_date := v;
     completed_at := completed_at t; estimated_duration := estimated_duration t;
     actual_duration := actual_duration t; points := points t; tags := tags t;
     created_at := created_at t; updated_at := updated_at t |}.

Definition set_estimated_duration (v : option Z) (t : Task) : Task :=
  {| id := id t; user_id := user_id t; project_id := project_id t; title := title t;
     description := description t; energy_requirement := energy_requirement t;
     priority := priority t; status := status t; due_date := due_date t;
     completed_at := completed_at t; estimated_duration := v;
     actual_duration := actual_duration t; points := points t; tags := tags t;
     created_at := created_at t; updated_at := updated_at t |}.

Definition set_project_id (v : option string) (t : Task) : Task :=
  {| id := id t; user_id := user_id t; project_id := v; title := title t;
     description := description t; energy_requirement := energy_requirement t;
     priority := priority t; status := status t; due_date := due_date t;
     completed_at := completed_at t; estimated_duration := estimated_duration t;
     actual_duration := actual_duration t; points := points t; tags := tags t;
     created_at := created_at t; updated_at := updated_at t |}.

Definition set_tags (v : list Tag) (t : Task) : Task :=
  {| id := id t; user_id := user_id t; project_id := project_id t; title := title t;
     description := description t; energy_requirement := energy_requirement t;
     priority := priority t; status := status t; due_date := due_date t;
     completed_at := completed_at t; estimated_duration := estimated_duration t;
     actual_duration := actual_duration t; points := points t; tags := v;
     created_at := created_at t; updated_at := updated_at t |}.

Definition set_status (v : string) (t : Task) : Task :=
  {| id := id t; user_id := user_id t; project_id := project_id t; title := title t;
     description := description t; energy_requirement := energy_requirement t;
     priority := priority t; status := v; due_date := due_date t;
     completed_at := completed_at t; estimated_duration := estimated_duration t;
     actual_duration := actual_duration t; points := points t; tags := tags t;
     created_at := created_at t; updated_at := updated_at t |}.

Definition set_completed_at (v : option Z) (t : Task) : Task :=
  {| id := id t; user_id := user_id t; project_id := project_id t; title := title t;
     description := description t; energy_requirement := energy_requirement t;
     priority := priority t; status := status t; due_date := due_date t;
     completed_at := v; estimated_duration := estimated_duration t;
     actual_duration := actual_duration t; points := points t; tags := tags t;
     created_at := created_at t; updated_at := updated_at t |}.

Definition set_actual_duration (v : option Z) (t : Task) : Task :=
  {| id := id t; user_id := user_id t; project_id := project_id t; title := title t;
     description := description t; energy_requirement := energy_requirement t;
     priority := priority t; status := status t; due_date := due_date t;
     completed_at := completed_at t; estimated_duration := estimated_duration t;
     actual_duration := v; points := points t; tags := tags t;
     created_at := created_at t; updated_at := updated_at t |}.

Definition set_updated_at (v : Z) (t : Task) : Task :=
  {| id := id t; user_id := user_id t; project_id := project_id t; title := title t;
     description := description t; energy_requirement := energy_requirement t;
     priority := priority t; status := status t; due_date := due_date t;
     completed_at := completed_at t; estimated_duration := estimated_duration t;
     actual_duration := actual_duration t; points := points t; tags := tags t;
     created_at := created_at t; updated_at := v |}.

Definition priorityMultiplier_table : list (Z * Q) :=
  [(1, 10%Q); (2, 20%Q); (3, 40%Q); (4, 80%Q); (5, 150%Q)].

Definition energyMultiplier_table : list (Z * Q) :=
  [(1, 1 # 2); (2, 3 # 4); (3, 1%Q); (4, 5 # 4); (5, 3 # 2)].

Definition calculateBasePoints (priority energyRequirement : Z) : Z :=
  let priorityMultiplier := Js.orQ (Js.obj_get priorityMultiplier_table priority) 40 in
  let energyMultiplier := Js.orQ (Js.obj_get energyMultiplier_table energyRequirement) 1 in
  Js.Math_round (priorityMultiplier * energyMultiplier).

(** [INSERT INTO tasks ... RETURNING *]; [new_id] is the key the
    database generates, [now] its clock.  Of the constraints of the
    table the primary key and the two [CHECK]s are here.  The foreign
    keys of [user_id] and [project_id], the length of [title] and the
    range of the [INTEGER] columns are not: the database rejects every
    row that is rejected here, and some that are stored here, so what is
    stated below of an accepted [create] holds of the program, and what
    is stated of a rejected one is stated from conditions the database
    rejects as well. *)
Definition create (db : Table) (new_id : string) (now : Z) (data : CreateTaskData)
  : Table * Result Task :=
  let basePoints :=
    calculateBasePoints (Js.orZ (c_priority data) 3) (Js.orZ (c_energy_requirement data) 3) in
  let row := {|
    id := new_id;
    user_id := c_user_id data;
    project_id := Js.orNullS (c_project_id data);
    title := c_title data;
    description := Js.orNullS (c_description data);
    energy_requirement := Js.orZ (c_energy_requirement data) 3;
    priority := Js.orZ (c_priority data) 3;
    status := "pending";
    due_date := c_due_date data;
    completed_at := None;
    estimated_duration := Js.orNullZ (c_estimated_duration data);
    actual_duration := None;
    points := basePoints;
    tags := match c_tags data with Some l => l | None => [] end;
    created_at := now;
    updated_at := now |} in
  if existsb (has_id new_id) db || negb (check_row row)
  then (db, Rejected ConstraintViolation)
  else (db ++ [row], Ok row).

Definition findById (db : Table) (i u : string) : option Task :=
  Sql.one (filter (owned i u) db).

(** The [WHERE] clause as the list of its conjuncts, in the order the
    code appends them to the query. *)
Definition holds (conditions : list (Task -> bool)) (t : Task) : bool :=
  forallb (fun c => c t) conditions.

Definition eq_string_column (column : option string) (v : string) : bool :=
  match column with Some c => String.eqb c v | None => false end.

Definition filter_project_id (filters : option Filters) : option string :=
  match filters with Some f => f_project_id f | None => None end.

Definition filter_priority (filters : option Filters) : option Z :=
  match filters with Some f => f_priority f | None => None end.

Definition filter_status (filters : option Filters) : option string :=
  match filters with Some f => f_status f | None => None end.

(** The row type of the query of [getTasksWithEnergyMatch]: [t.*] and the
    two computed columns.  The [project] column of the join is left out:
    [projects.id] is a key, so the join neither adds nor drops a task. *)
Record MatchRow := {
  row_task : Task;
  row_energy_match : bool;
  row_energy_match_score : Q
}.

Definition select_match (currentEnergyLevel : Z) (t : Task) : MatchRow :=
  {| row_task := t;
     row_energy_match :=
       if energy_requirement t =? currentEnergyLevel then true else false;
     row_energy_match_score :=
       if energy_requirement t =? currentEnergyLevel then 1
       else if Z.abs (energy_requirement t - currentEnergyLevel) =? 1 then 1 # 2
       else 0 |}.

(** [ORDER BY energy_match_score DESC, t.priority DESC, t.due_date ASC NULLS LAST] *)
Definition match_order (a b : MatchRow) : comparison :=
  Sql.lex (Sql.desc_Q (row_energy_match_score a) (row_energy_match_score b))
    (Sql.lex (Sql.desc_Z (priority (row_task a)) (priority (row_task b)))
       (Sql.asc_nulls_last (due_date (row_task a)) (due_date (row_task b)))).

Definition match_conditions (userId : string) (filters : option Filters)
  : list (Task -> bool) :=
  [ (fun t => String.eqb (user_id t) userId);
    (fun t => String.eqb (status t) "pending") ]
  ++ (if Js.truthyS (filter_project_id filters)
      then match filter_project_id filters with
           | Some p => [fun t => eq_string_column (project_id t) p]
           | None => []
           end
      else [])
  ++ (if Js.truthyZ (filter_priority filters)
      then match filter_priority filters with
           | Some p => [fun t => priority t =? p]
           | None => []
           end
      else []).

Definition getTasksWithEnergyMatch (db : Table) (userId : string)
    (currentEnergyLevel : Z) (filters : option Filters) : list TaskWithEnergyMatch :=
  let tasks :=
    Sql.order_by match_order
      (map (select_match currentEnergyLevel)
         (filter (holds (match_conditions userId filters)) db)) in
  map (fun r =>
         {| task := row_task r;
            energy_match := row_energy_match r;
            energy_match_score := row_energy_match_score r;
            bonus_points :=
              if row_energy_match r
              then Js.Math_round (inject_Z (points (row_task r)) * (1 # 4))
              else 0 |})
      tasks.

(** [ORDER BY t.priority DESC, t.due_date ASC NULLS LAST] *)
Definition task_order (a b : Task) : comparison :=
  Sql.lex (Sql.desc_Z (priority a) (priority b))
    (Sql.asc_nulls_last (due_date a) (due_date b)).

Definition user_conditions (userId : string) (filters : option Filters)
  : list (Task -> bool) :=
  [ (fun t => String.eqb (user_id t) userId) ]
  ++ (if Js.truthyS (filter_status filters)
      then match filter_status filters with
           | Some s => [fun t => String.eqb (status t) s]
           | None => []
           end
      else [])
  ++ (if Js.truthyS (filter_project_id filters)
      then match filter_project_id filters with
           | Some p => [fun t => eq_string_column (project_id t) p]
           | None => []
           end
      else [])
  ++ (if Js.truthyZ (filter_priority filters)
      then match filter_priority filters with
           | Some p => [fun t => priority t =? p]
           | None => []
           end
      else []).

(** [LIMIT] and [OFFSET] are taken as naturals: the statement with a
    negative one is outside the model. *)
Definition getUserTasks (db : Table) (userId : string) (filters : option Filters)
    (limit offset : nat) : list Task :=
  firstn limit
    (skipn offset
       (Sql.order_by task_order (filter (holds (user_conditions userId filters)) db))).

(** The [SET] list that [update] assembles in [fields] and [values]. *)
Inductive Assignment :=
| SetTitle (v : string)
| SetDescription (v : string)
| SetEnergyRequirement (v : Z)
| SetPriority (v : Z)
| SetPoints (v : Z)
| SetDueDate (v : Z)
| SetEstimatedDuration (v : Z)
| SetProjectId (v : string)
| SetTags (v : list Tag).

Definition push_if {A : Type} (v : option A) (f : A -> list Assignment) : list Assignment :=
  match v with Some a => f a | None => [] end.

Definition update_fields (data : PartialCreateTaskData) : list Assignment :=
  push_if (u_title data) (fun v => [SetTitle v])
  ++ push_if (u_description data) (fun v => [SetDescription v])
  ++ push_if (u_energy_requirement data) (fun v => [SetEnergyRequirement v])
  ++ push_if (u_priority data) (fun v =>
       (* Recalculate points if priority changed *)
       let energyReq := Js.orZ (u_energy_requirement data) 3 in
       let newPoints := calculateBasePoints v energyReq in
       [SetPriority v; SetPoints newPoints])
  ++ push_if (u_due_date data) (fun v => [SetDueDate v])
  ++ push_if (u_estimated_duration data) (fun v => [SetEstimatedDuration v])
  ++ push_if (u_project_id data) (fun v => [SetProjectId v])
  ++ push_if (u_tags data) (fun v => [SetTags v]).

Definition assign (t : Task) (a : Assignment) : Task :=
  match a with
  | SetTitle v => set_title v t
  | SetDescription v => set_description (Some v) t
  | SetEnergyRequirement v => set_energy_requirement v t
  | SetPriority v => set_priority v t
  | SetPoints v => set_points v t
  | SetDueDate v => set_due_date (Some v) t
  | SetEstimatedDuration v => set_estimated_duration (Some v) t
  | SetProjectId v => set_project_id (Some v) t
  | SetTags v => set_tags v t
  end.

(** [UPDATE tasks SET ... WHERE id = i AND user_id = u]: the rows the
    statement writes, with the [updated_at] trigger of the schema. *)
Definition update_where (i u : string) (now : Z) (f : Task -> Task) (db : Table) : Table :=
  map (fun t => if owned i u t then set_updated_at now (f t) else t) db.

Definition update (db : Table) (i userId : string) (data : PartialCreateTaskData)
    (now : Z) : Table * Result Task :=
  let fields := update_fields data in
  match fields with
  | [] => (db, Rejected SyntaxError)
  | _ =>
    let db' := update_where i userId now (fun t => fold_left assign fields t) db in
    let returning := filter (owned i userId) db' in
    if negb (forallb check_row returning)
    then (db, Rejected ConstraintViolation)
    else match Sql.one returning with
         | Some t => (db', Ok t)
         | None => (db', Rejected QueryResultError)
         end
  end.

Definition complete (db : Table) (i userId : string) (actualDuration : option Z)
    (currentEnergyLevel : option Z) (now : Z) : Table * Result Completion :=
  match findById db i userId with
  | None => (db, Rejected TaskNotFound)
  | Some task =>
    (* Calculate bonus points for energy match *)
    let bonusPoints :=
      match currentEnergyLevel with
      | Some level =>
        if Js.truthyZ currentEnergyLevel && (energy_requirement task =? level)
        then Js.Math_round (inject_Z (points task) * (1 # 4))
        else 0
      | None => 0
      end in
    let totalPoints := points task + bonusPoints in
    let db' :=
      update_where i userId now
        (fun t => set_actual_duration (Js.orNullZ actualDuration)
                    (set_completed_at (Some now) (set_status "completed" t)))
        db in
    match Sql.one (filter (owned i userId) db') with
    | Some completedTask =>
      (db', Ok {| completed_task := completedTask;
                  points_earned := totalPoints;
                  result_bonus_points := bonusPoints |})
    | None => (db', Rejected QueryResultError)
    end
  end.

(** [DELETE FROM tasks WHERE id = i AND user_id = u]; the answer is
    [rowCount > 0].  The function has no [try]: a statement that the
    database rejects, as it does an [i] that is not in the format of the
    [UUID] column, rejects the promise and leaves the table as it is.
    That rejection is not here, so the theorems on [delete] speak of the
    statement the database has carried out. *)
Definition delete (db : Table) (i userId : string) : Table * Result bool :=
  (filter (fun t => negb (owned i userId t)) db,
   Ok (0 <? Z.of_nat (List.length (filter (owned i userId) db)))).

(** The row of [getTaskStats]; [SUM] and [AVG] over no row are [NULL]. *)
Record TaskStats := {
  pending_count : Z;
  completed_count : Z;
  completed_this_week : Z;
  total_points : option Z;
  avg_duration : option Q
}.

Definition is_pending (t : Task) : bool := String.eqb (status t) "pending".
Definition is_completed (t : Task) : bool := String.eqb (status t) "completed".

(** [completed_at > NOW() - INTERVAL '7 days']; a [NULL] never compares. *)
Definition completed_since (since : Z) (t : Task) : bool :=
  match completed_at t with Some c => since <? c | None => false end.

(** The values of a nullable column that are not [NULL]. *)
Fixpoint not_null (l : list (option Z)) : list Z :=
  match l with
  | [] => []
  | Some z :: l' => z :: not_null l'
  | None :: l' => not_null l'
  end.

Definition count_where (f : Task -> bool) (rows : list Task) : Z :=
  Z.of_nat (List.length (filter f rows)).

(** [getTaskStats]: one row of aggregates over the tasks of the user. *)
Definition getTaskStats (db : Table) (userId : string) (now : Z) : TaskStats :=
  let rows := filter (fun t => String.eqb (user_id t) userId) db in
  let completed := filter is_completed rows in
  let durations := not_null (map actual_duration completed) in
  {| pending_count := count_where is_pending rows;
     completed_count := count_where is_completed rows;
     completed_this_week :=
       count_where (fun t => is_completed t && completed_since (now - 7 * 86400000) t) rows;
     total_points :=
       match completed with
       | [] => None
       | _ => Some (Sql.sum (map points completed))
       end;
     avg_duration :=
       match durations with
       | [] => None
       | _ => Some (Sql.avg durations)
       end |}.

End TaskModel.

(** ** [src/models/Energy.ts] *)

Module EnergyModel.

Record EnergyLog := {
  id : string;
  user_id : string;
  energy_level : Z;     (* 1=LOW, 2=MEDIUM-LOW, 3=MEDIUM, 4=HIGH, 5=PEAK *)
  mood_tags : option (list string);
  notes : option string;
  logged_at : Z;
  predicted_at : option Z
}.

Record CreateEnergyLog := {
  c_user_id : string;
  c_energy_level : Z;
  c_mood_tags : option (list string);
  c_notes : option string
}.

(** A row of the hourly query: [hour], [avg_energy], [count]. *)
Record HourlyEnergy := {
  hour : Z;
  avg_energy : Q;
  count : Z
}.

Record Patterns := {
  total_logs : Z;
  hourly_data : list HourlyEnergy
}.

Record EnergyPattern := {
  p_user_id : string;
  average_energy : Q;
  peak_hours : list Z;
  low_hours : list Z;
  patterns : option Patterns    (* [None] is the empty object [{}] *)
}.

Record Insight := {
  type : string;
  message : string;
  confidence : Q
}.

Record Insights := {
  pattern : EnergyPattern;
  latest : option EnergyLog;
  insights : list Insight
}.

(** The table [energy_logs]. *)
Definition Table := list EnergyLog.

(** [INSERT INTO energy_logs ... RETURNING *]; [logged_at] defaults to
    [NOW()].  [data.mood_tags || null] keeps every array, an array being
    truthy.  This is the insert that the database accepts: the [CHECK] of
    [energy_level] and the foreign key of [user_id], by which it rejects
    others, are not here, so the theorems speak of a log that the handler
    reports as stored. *)
Definition logEnergy (db : Table) (new_id : string) (now : Z) (data : CreateEnergyLog)
  : Table * EnergyLog :=
  let row := {|
    id := new_id;
    user_id := c_user_id data;
    energy_level := c_energy_level data;
    mood_tags := c_mood_tags data;
    notes := Js.orNullS (c_notes data);
    logged_at := now;
    predicted_at := None |} in
  (db ++ [row], row).

Definition by_logged_at_desc (a b : EnergyLog) : comparison :=
  Sql.desc_Z (logged_at a) (logged_at b).

(** [... ORDER BY logged_at DESC LIMIT 1] through [db.one], [null] when
    the promise rejects. *)
Definition getLatestEnergy (db : Table) (userId : string) : option EnergyLog :=
  Sql.one
    (firstn 1
       (Sql.order_by by_logged_at_desc
          (filter (fun l => String.eqb (user_id l) userId) db))).

Definition ms_per_hour : Z := 3600000.
Definition ms_per_day : Z := 24 * ms_per_hour.

(** [EXTRACT(HOUR FROM logged_at)] *)
Definition extract_hour (t : Z) : Z := (t / ms_per_hour) mod 24.

(** [WHERE user_id = $1 AND logged_at > NOW() - INTERVAL '30 days'] *)
Definition in_window (userId : string) (now : Z) (l : EnergyLog) : bool :=
  String.eqb (user_id l) userId && (now - 30 * ms_per_day <? logged_at l).

(** The keys of a [GROUP BY]: each value once. *)
Definition group_keys (keys : list Z) : list Z := nodup Z.eq_dec keys.

Definition from_hour (h : Z) (l : EnergyLog) : bool := extract_hour (logged_at l) =? h.

(** The hourly query: one row for each hour that has a log in the
    window, best average first. *)
Definition hourly_order (a b : HourlyEnergy) : comparison :=
  Sql.desc_Q (avg_energy a) (avg_energy b).

Definition hourlyEnergy (db : Table) (userId : string) (now : Z) : list HourlyEnergy :=
  let rows := filter (in_window userId now) db in
  Sql.order_by hourly_order
    (map (fun h =>
            let g := filter (from_hour h) rows in
            {| hour := h;
               avg_energy := Sql.avg (map energy_level g);
               count := Z.of_nat (List.length g) |})
         (group_keys (map (fun l => extract_hour (logged_at l)) rows))).

Definition calculateEnergyPattern (db : Table) (userId : string) (now : Z) : EnergyPattern :=
  let rows := filter (in_window userId now) db in
  (* [db.oneOrNone] of a query grouped by the user: a row iff the user
     has a log in the window *)
  match rows with
  | [] =>
    {| p_user_id := userId;
       average_energy := 3;
       peak_hours := [];
       low_hours := [];
       patterns := None |}
  | _ =>
    let result_average_energy := Sql.avg (map energy_level rows) in
    let result_total_logs := Z.of_nat (List.length rows) in
    let hourlyEnergy := hourlyEnergy db userId now in
    let peakHours :=
      Js.slice_first 3
        (map hour (filter (fun h => Qle_bool 4 (avg_energy h)) hourlyEnergy)) in
    let lowHours :=
      Js.slice_last 3
        (map hour (filter (fun h => Qle_bool (avg_energy h) 2) hourlyEnergy)) in
    {| p_user_id := userId;
       average_energy := result_average_energy;
       peak_hours := peakHours;
       low_hours := lowHours;
       patterns := Some {| total_logs := result_total_logs;
                           hourly_data := hourlyEnergy |} |}
  end.

(** [a.includes(x)] *)
Definition includes (a : list Z) (x : Z) : bool := existsb (Z.eqb x) a.

(** The three rules of [getEnergyInsights], each pushing onto [insights]. *)
Definition push_peak_hours (p : EnergyPattern) (acc : list Insight) : list Insight :=
  if (0 <? Z.of_nat (List.length (peak_hours p)))
  then acc ++ [ {| type := "peak_hours";
                   message := ("Your peak energy hours are: "
                               ++ Js.join ", " (peak_hours p) ++ ":00")%string;
                   confidence := 85 # 100 |} ]
  else acc.

Definition push_energy_mismatch (p : EnergyPattern) (latest : option EnergyLog)
    (currentHour : Z) (acc : list Insight) : list Insight :=
  match latest with
  | Some l =>
    let isPeakTime := includes (peak_hours p) currentHour in
    if isPeakTime && (energy_level l <? 4)
    then acc ++ [ {| type := "energy_mismatch";
                     message := "This is usually your peak time, but your energy is lower than expected";
                     confidence := 75 # 100 |} ]
    else acc
  | None => acc
  end.

Definition push_low_average (p : EnergyPattern) (acc : list Insight) : list Insight :=
  if negb (Qle_bool 3 (average_energy p))
  then acc ++ [ {| type := "low_average";
                   message := "Your average energy has been low recently. Consider adjusting your schedule or taking breaks.";
                   confidence := 8 # 10 |} ]
  else acc.

Definition insights_for (p : EnergyPattern) (latest : option EnergyLog) (currentHour : Z)
  : list Insight :=
  push_low_average p (push_energy_mismatch p latest currentHour (push_peak_hours p [])).

(** [now] is the database clock, [currentHour] is [new Date().getHours()]. *)
Definition getEnergyInsights (db : Table) (userId : string) (now currentHour : Z) : Insights :=
  let pattern := calculateEnergyPattern db userId now in
  let latest := getLatestEnergy db userId in
  {| pattern := pattern;
     latest := latest;
     insights := insights_for pattern latest currentHour |}.

(** [getUserEnergyLogs]: the logs of the user, newest first, one page of
    them.  [limit] and [offset] are naturals, as in [getUserTasks]. *)
Definition getUserEnergyLogs (db : Table) (userId : string) (limit offset : nat)
  : list EnergyLog :=
  firstn limit
    (skipn offset
       (Sql.order_by by_logged_at_desc
          (filter (fun l => String.eqb (user_id l) userId) db))).

Definition by_logged_at_asc (a b : EnergyLog) : comparison :=
  logged_at a ?= logged_at b.

(** [getEnergyByDateRange]: [logged_at >= $2 AND logged_at <= $3], oldest
    first. *)
Definition in_range (userId : string) (startDate endDate : Z) (l : EnergyLog) : bool :=
  String.eqb (user_id l) userId && (startDate <=? logged_at l) && (logged_at l <=? endDate).

Definition getEnergyByDateRange (db : Table) (userId : string) (startDate endDate : Z)
  : list EnergyLog :=
  Sql.order_by by_logged_at_asc (filter (in_range userId startDate endDate) db).

(** [cleanupOldLogs]: pg-promise writes the number into the statement,
    which then reads [logged_at < NOW() - INTERVAL 'n days'] and deletes
    for every user.  The answer is [rowCount]. *)
Definition is_old (now daysToKeep : Z) (l : EnergyLog) : bool :=
  logged_at l <? now - daysToKeep * ms_per_day.

Definition cleanupOldLogs (db : Table) (now daysToKeep : Z) : Table * Z :=
  (filter (fun l => negb (is_old now daysToKeep l)) db,
   Z.of_nat (List.length (filter (is_old now daysToKeep) db))).

End EnergyModel.

(** ** Request bodies and their validation *)

Module Zod.

(** A parsed JSON value, as [req.body] holds it. *)
#[warnings="-register-all"]
Inductive Json :=
| JNull
| JBool (b : bool)
| JNumber (q : Q)
| JString (s : string)
| JArray (items : list Json)
| JObject (fields : list (string * Json)).

(** [body[key]]; [None] is [undefined]. *)
Fixpoint get (fields : list (string * Json)) (key : string) : option Json :=
  match fields with
  | [] => None
  | (k, v) :: fields' => if String.eqb k key then Some v else get fields' key
  end.

(** The outcome of [schema.parse]: the data, or the paths of the issues
    of the [ZodError] it throws. *)
Inductive Parsed (A : Type) :=
| Valid (a : A)
| Invalid (issues : list string).
Arguments Valid {A} a.
Arguments Invalid {A} issues.

Definition issues_of {A : Type} (p : Parsed A) : list string :=
  match p with Valid _ => [] | Invalid i => i end.

(** [Number.isInteger] *)
Definition is_integer (q : Q) : bool := Qeq_bool (inject_Z (Qfloor q)) q.

(** [z.number().int().min(lo).max(hi)] *)
Definition number_int_min_max (lo hi : Z) (path : string) (v : option Json) : Parsed Z :=
  match v with
  | Some (JNumber q) =>
    if is_integer q && Qle_bool (inject_Z lo) q && Qle_bool q (inject_Z hi)
    then Valid (Qfloor q)
    else Invalid [path]
  | _ => Invalid [path]
  end.

Definition as_string (v : Json) : option string :=
  match v with JString s => Some s | _ => None end.

Fixpoint all_strings (items : list Json) : option (list string) :=
  match items with
  | [] => Some []
  | v :: items' =>
    match as_string v, all_strings items' with
    | Some s, Some l => Some (s :: l)
    | _, _ => None
    end
  end.

(** [z.array(z.string()).optional()] *)
Definition array_string_optional (path : string) (v : option Json)
  : Parsed (option (list string)) :=
  match v with
  | None => Valid None
  | Some (JArray items) =>
    match all_strings items with
    | Some l => Valid (Some l)
    | None => Invalid [path]
    end
  | Some _ => Invalid [path]
  end.

(** [z.string().max(n).optional()] *)
Definition string_max_optional (n : nat) (path : string) (v : option Json)
  : Parsed (option string) :=
  match v with
  | None => Valid None
  | Some (JString s) =>
    if Nat.leb (String.length s) n then Valid (Some s) else Invalid [path]
  | Some _ => Invalid [path]
  end.

(** [z.number().int().min(lo).max(hi).optional()] *)
Definition number_int_min_max_optional (lo hi : Z) (path : string) (v : option Json)
  : Parsed (option Z) :=
  match v with
  | None => Valid None
  | Some _ =>
    match number_int_min_max lo hi path v with
    | Valid n => Valid (Some n)
    | Invalid issues => Invalid issues
    end
  end.

(** [z.string().min(lo).max(hi)] *)
Definition string_min_max (lo hi : nat) (path : string) (v : option Json) : Parsed string :=
  match v with
  | Some (JString s) =>
    if Nat.leb lo (String.length s) && Nat.leb (String.length s) hi
    then Valid s
    else Invalid [path]
  | _ => Invalid [path]
  end.

(** [z.string().uuid().optional()] and [z.string().datetime().optional()]:
    a string that passes the format check of the library, which is the
    argument [format]. *)
Definition string_format_optional (format : string -> bool) (path : string)
    (v : option Json) : Parsed (option string) :=
  match v with
  | None => Valid None
  | Some (JString s) => if format s then Valid (Some s) else Invalid [path]
  | Some _ => Invalid [path]
  end.

(** [z.number().int().positive().optional()] *)
Definition number_int_positive_optional (path : string) (v : option Json)
  : Parsed (option Z) :=
  match v with
  | None => Valid None
  | Some (JNumber q) =>
    if is_integer q && negb (Qle_bool q 0)
    then Valid (Some (Qfloor q))
    else Invalid [path]
  | Some _ => Invalid [path]
  end.

End Zod.

(** ** The energy controller *)

Module EnergyController.

Import Zod.

Record LogEnergyInput := {
  energy_level : Z;
  mood_tags : option (list string);
  notes : option string
}.

(** [logEnergySchema.parse]: every field is checked and the issues of all
    of them are reported together. *)
Definition logEnergySchema (body : Json) : Parsed LogEnergyInput :=
  match body with
  | JObject fields =>
    let e := number_int_min_max 1 5 "energy_level" (get fields "energy_level") in
    let m := array_string_optional "mood_tags" (get fields "mood_tags") in
    let n := string_max_optional 500 "notes" (get fields "notes") in
    match e, m, n with
    | Valid e', Valid m', Valid n' =>
      Valid {| energy_level := e'; mood_tags := m'; notes := n' |}
    | _, _, _ => Invalid (issues_of e ++ issues_of m ++ issues_of n)
    end
  | _ => Invalid [EmptyString]
  end.

Record Request := {
  userId : option string;
  body : Json
}.

Inductive Response :=
| AuthenticationRequired                 (* 401 *)
| EnergyLogged (energy_log : EnergyModel.EnergyLog)   (* 201 *)
| ValidationFailed (details : list string).           (* 400 *)

Definition status (r : Response) : Z :=
  match r with
  | AuthenticationRequired => 401
  | EnergyLogged _ => 201
  | ValidationFailed _ => 400
  end.

(** What a call of the handler leaves behind: the response, the table,
    and the statements it sent to the database. *)
Record Outcome := {
  response : Response;
  table : EnergyModel.Table;
  statements : list EnergyModel.CreateEnergyLog
}.

(** [EnergyController.logEnergy].  The 500 answer to an insert that the
    database rejects has no counterpart: the insert of the model always
    goes through. *)
Definition logEnergy (db : EnergyModel.Table) (new_id : string) (now : Z) (req : Request)
  : Outcome :=
  match userId req with
  | Some u =>
    if negb (Js.truthyS (userId req))
    then {| response := AuthenticationRequired; table := db; statements := [] |}
    else
      match logEnergySchema (body req) with
      | Invalid details =>
        {| response := ValidationFailed details; table := db; statements := [] |}
      | Valid validatedData =>
        let data := {| EnergyModel.c_user_id := u;
                       EnergyModel.c_energy_level := energy_level validatedData;
                       EnergyModel.c_mood_tags := mood_tags validatedData;
                       EnergyModel.c_notes := notes validatedData |} in
        let '(db', energyLog) := EnergyModel.logEnergy db new_id now data in
        {| response := EnergyLogged energyLog; table := db'; statements := [data] |}
      end
  | None => {| response := AuthenticationRequired; table := db; statements := [] |}
  end.

End EnergyController.

(** ** The task controller *)

Module TaskController.

(** [req.query] after [parseInt]: a number that is absent or not a number
    is [None], both being falsy and never compared. *)
Record Query := {
  energy_level : option Z;
  status : option string;
  project_id : option string;
  priority : option Z;
  limit : nat;
  offset : nat
}.

Inductive Tasks :=
| Matched (tasks : list TaskModel.TaskWithEnergyMatch)
| Plain (tasks : list TaskModel.Task).

Inductive Response :=
| AuthenticationRequired
| TaskList (tasks : Tasks) (count : nat) (energy_matched : bool) (filters : Query).

Definition count_of (t : Tasks) : nat :=
  match t with Matched l => List.length l | Plain l => List.length l end.

(** [TaskController.getTasks] *)
Definition getTasks (db : TaskModel.Table) (userId : option string) (q : Query) : Response :=
  match userId with
  | Some u =>
    if negb (Js.truthyS userId) then AuthenticationRequired
    else
      let filters := Some {| TaskModel.f_status := status q;
                             TaskModel.f_project_id := project_id q;
                             TaskModel.f_priority := priority q |} in
      let tasks :=
        match energy_level q with
        | Some energyLevel =>
          if Js.truthyZ (energy_level q)
          then Matched (TaskModel.getTasksWithEnergyMatch db u energyLevel filters)
          else Plain (TaskModel.getUserTasks db u filters (limit q) (offset q))
        | None => Plain (TaskModel.getUserTasks db u filters (limit q) (offset q))
        end in
      TaskList tasks (count_of tasks) (Js.truthyZ (energy_level q)) q
  | None => AuthenticationRequired
  end.

(** The [tasks] member of the answer, when there is one. *)
Definition tasks_of (r : Response) : option Tasks :=
  match r with
  | AuthenticationRequired => None
  | TaskList tasks _ _ _ => Some tasks
  end.

Definition with_status (s : option string) (q : Query) : Query :=
  {| energy_level := energy_level q;
     status := s;
     project_id := project_id q;
     priority := priority q;
     limit := limit q;
     offset := offset q |}.

(** The handlers that address one task. *)
Record CompleteTaskInput := {
  actual_duration : option Z;
  current_energy_level : option Z
}.

(** [completeTaskSchema.parse] *)
Definition completeTaskSchema (body : Zod.Json) : Zod.Parsed CompleteTaskInput :=
  match body with
  | Zod.JObject fields =>
    let d := Zod.number_int_positive_optional "actual_duration"
               (Zod.get fields "actual_duration") in
    let e := Zod.number_int_min_max_optional 1 5 "current_energy_level"
               (Zod.get fields "current_energy_level") in
    match d, e with
    | Zod.Valid d', Zod.Valid e' =>
      Zod.Valid {| actual_duration := d'; current_energy_level := e' |}
    | _, _ => Zod.Invalid (Zod.issues_of d ++ Zod.issues_of e)
    end
  | _ => Zod.Invalid [EmptyString]
  end.

(** [req.userId], [req.params.id] and [req.body]. *)
Record TaskRequest := {
  userId : option string;
  param_id : string;
  body : Zod.Json
}.

Inductive Reply :=
| NeedsAuthentication                 (* 401 *)
| NotFound                            (* 404, 'Task not found' *)
| Found (task : TaskModel.Task)       (* 200 *)
| Created (task : TaskModel.Task)     (* 201 *)
| Deleted                             (* 200 *)
| Completed (task : TaskModel.Task) (points_earned bonus_points : Z)
    (energy_match_bonus : bool)       (* 200 *)
| ValidationFailed (details : list string)   (* 400 *)
| Failed (error : string).            (* 500 *)

Definition reply_status (r : Reply) : Z :=
  match r with
  | NeedsAuthentication => 401
  | NotFound => 404
  | Found _ | Deleted | Completed _ _ _ _ => 200
  | Created _ => 201
  | ValidationFailed _ => 400
  | Failed _ => 500
  end.

(** [TaskController.getById] *)
Definition getById (db : TaskModel.Table) (req : TaskRequest) : Reply :=
  match userId req with
  | Some u =>
    if negb (Js.truthyS (userId req)) then NeedsAuthentication
    else match TaskModel.findById db (param_id req) u with
         | Some task => Found task
         | None => NotFound
         end
  | None => NeedsAuthentication
  end.

(** [TaskController.complete]: every rejection of [TaskModel.complete],
    'Task not found' among them, is answered 500. *)
Definition complete (db : TaskModel.Table) (now : Z) (req : TaskRequest)
  : Reply * TaskModel.Table :=
  match userId req with
  | Some u =>
    if negb (Js.truthyS (userId req)) then (NeedsAuthentication, db)
    else
      match completeTaskSchema (body req) with
      | Zod.Invalid details => (ValidationFailed details, db)
      | Zod.Valid validatedData =>
        match TaskModel.complete db (param_id req) u (actual_duration validatedData)
                (current_energy_level validatedData) now with
        | (db', TaskModel.Ok result) =>
          (Completed (TaskModel.completed_task result) (TaskModel.points_earned result)
             (TaskModel.result_bonus_points result)
             (0 <? TaskModel.result_bonus_points result),
           db')
        | (db', TaskModel.Rejected _) => (Failed "Failed to complete task", db')
        end
      end
  | None => (NeedsAuthentication, db)
  end.

(** [TaskController.delete] *)
Definition delete (db : TaskModel.Table) (req : TaskRequest) : Reply * TaskModel.Table :=
  match userId req with
  | Some u =>
    if negb (Js.truthyS (userId req)) then (NeedsAuthentication, db)
    else
      match TaskModel.delete db (param_id req) u with
      | (db', TaskModel.Ok deleted) => if deleted then (Deleted, db') else (NotFound, db')
      | (db', TaskModel.Rejected _) => (Failed "Failed to delete task", db')
      end
  | None => (NeedsAuthentication, db)
  end.

Record CreateTaskInput := {
  in_title : string;
  in_description : option string;
  in_energy_requirement : option Z;
  in_priority : option Z;
  in_project_id : option string;
  in_due_date : option string;
  in_estimated_duration : option Z
}.

Section CreateHandler.

(** The format checks of [z.string().uuid()] and [z.string().datetime()]
    and the reading of a date by [new Date(s)] belong to the libraries. *)
Variable is_uuid : string -> bool.
Variable is_datetime : string -> bool.
Variable Date_parse : string -> Z.

(** [createTaskSchema.parse] *)
Definition createTaskSchema (body : Zod.Json) : Zod.Parsed CreateTaskInput :=
  match body with
  | Zod.JObject fields =>
    let t := Zod.string_min_max 1 500 "title" (Zod.get fields "title") in
    let d := Zod.string_max_optional 2000 "description" (Zod.get fields "description") in
    let e := Zod.number_int_min_max_optional 1 5 "energy_requirement"
               (Zod.get fields "energy_requirement") in
    let p := Zod.number_int_min_max_optional 1 5 "priority" (Zod.get fields "priority") in
    let j := Zod.string_format_optional is_uuid "project_id" (Zod.get fields "project_id") in
    let u := Zod.string_format_optional is_datetime "due_date" (Zod.get fields "due_date") in
    let n := Zod.number_int_positive_optional "estimated_duration"
               (Zod.get fields "estimated_duration") in
    match t, d, e, p, j, u, n with
    | Zod.Valid t', Zod.Valid d', Zod.Valid e', Zod.Valid p', Zod.Valid j', Zod.Valid u',
      Zod.Valid n' =>
      Zod.Valid {| in_title := t'; in_description := d'; in_energy_requirement := e';
                   in_priority := p'; in_project_id := j'; in_due_date := u';
                   in_estimated_duration := n' |}
    | _, _, _, _, _, _, _ =>
      Zod.Invalid (Zod.issues_of t ++ Zod.issues_of d ++ Zod.issues_of e ++ Zod.issues_of p
                   ++ Zod.issues_of j ++ Zod.issues_of u ++ Zod.issues_of n)
    end
  | _ => Zod.Invalid [EmptyString]
  end.

(** [TaskController.create]; [param_id] of the request is not read. *)
Definition create (db : TaskModel.Table) (new_id : string) (now : Z) (req : TaskRequest)
  : Reply * TaskModel.Table :=
  match userId req with
  | Some u =>
    if negb (Js.truthyS (userId req)) then (NeedsAuthentication, db)
    else
      match createTaskSchema (body req) with
      | Zod.Invalid details => (ValidationFailed details, db)
      | Zod.Valid validatedData =>
        let data :=
          {| TaskModel.c_user_id := u;
             TaskModel.c_project_id := in_project_id validatedData;
             TaskModel.c_title := in_title validatedData;
             TaskModel.c_description := in_description validatedData;
             TaskModel.c_energy_requirement := in_energy_requirement validatedData;
             TaskModel.c_priority := in_priority validatedData;
             TaskModel.c_due_date :=
               match in_due_date validatedData with
               | Some s => if Js.truthyS (Some s) then Some (Date_parse s) else None
               | None => None
               end;
             TaskModel.c_estimated_duration := in_estimated_duration validatedData;
             TaskModel.c_tags := None |} in
        match TaskModel.create db new_id now data with
        | (db', TaskModel.Ok task) => (Created task, db')
        | (db', TaskModel.Rejected _) => (Failed "Failed to create task", db')
        end
      end
  | None => (NeedsAuthentication, db)
  end.

End CreateHandler.

End TaskController.

(** ** The operations on a task *)

Module TaskOperations.

(** The calls of [TaskModel] that write to [tasks]. *)
Inductive Operation :=
| Create (new_id : string) (data : TaskModel.CreateTaskData)
| Update (i userId : string) (data : TaskModel.PartialCreateTaskData)
| Complete (i userId : string) (actualDuration currentEnergyLevel : option Z)
| Delete (i userId : string).

(** The table after one call made at time [now]. *)
Definition run (now : Z) (db : TaskModel.Table) (op : Operation) : TaskModel.Table :=
  match op with
  | Create new_id data => fst (TaskModel.create db new_id now data)
  | Update i userId data => fst (TaskModel.update db i userId data now)
  | Complete i userId actualDuration currentEnergyLevel =>
    fst (TaskModel.complete db i userId actualDuration currentEnergyLevel now)
  | Delete i userId => fst (TaskModel.delete db i userId)
  end.

(** The row that [complete] writes over [t]. *)
Definition completing (actualDuration : option Z) (now : Z) (t : TaskModel.Task)
  : TaskModel.Task :=
  TaskModel.set_updated_at now
    (TaskModel.set_actual_duration (Js.orNullZ actualDuration)
       (TaskModel.set_completed_at (Some now) (TaskModel.set_status "completed" t))).

(** The user in whose name a call is made. *)
Definition caller (op : Operation) : string :=
  match op with
  | Create _ data => TaskModel.c_user_id data
  | Update _ userId _ => userId
  | Complete _ userId _ _ => userId
  | Delete _ userId => userId
  end.

End TaskOperations.

(** ** Example data *)

Module Fixtures.

Definition new_task (user title : string) (priority energy_requirement due_date : option Z)
  : TaskModel.CreateTaskData :=
  {| TaskModel.c_user_id := user;
     TaskModel.c_project_id := None;
     TaskModel.c_title := title;
     TaskModel.c_description := None;
     TaskModel.c_energy_requirement := energy_requirement;
     TaskModel.c_priority := priority;
     TaskModel.c_due_date := due_date;
     TaskModel.c_estimated_duration := None;
     TaskModel.c_tags := None |}.

Definition change (priority energy_requirement : option Z) : TaskModel.PartialCreateTaskData :=
  {| TaskModel.u_user_id := None;
     TaskModel.u_project_id := None;
     TaskModel.u_title := None;
     TaskModel.u_description := None;
     TaskModel.u_energy_requirement := energy_requirement;
     TaskModel.u_priority := priority;
     TaskModel.u_due_date := None;
     TaskModel.u_estimated_duration := None;
     TaskModel.u_tags := None |}.

(** A stored task of priority 3 that asks for energy 3 and is worth 40. *)
Definition sample_task : TaskModel.Task :=
  {| TaskModel.id := "t0";
     TaskModel.user_id := "u1";
     TaskModel.project_id := None;
     TaskModel.title := "sample";
     TaskModel.description := None;
     TaskModel.energy_requirement := 3;
     TaskModel.priority := 3;
     TaskModel.status := "pending";
     TaskModel.due_date := None;
     TaskModel.completed_at := None;
     TaskModel.estimated_duration := None;
     TaskModel.actual_duration := None;
     TaskModel.points := 40;
     TaskModel.tags := [];
     TaskModel.created_at := 0;
     TaskModel.updated_at := 0 |}.

Definition today : Z := 1762128000000.
Definition tomorrow : Z := today + 86400000.

(** One task of priority 3 that asks for energy 5. *)
Definition one_task : TaskModel.Table :=
  Eval vm_compute in
  fst (TaskModel.create [] "t1" today (new_task "u1" "report" (Some 3) (Some 5) None)).

(** The three tasks of the ranking scenario, all asking for energy 3. *)
Definition three_tasks : TaskModel.Table :=
  Eval vm_compute in
  let db0 := [] in
  let db1 := fst (TaskModel.create db0 "A" today (new_task "u1" "a" (Some 5) (Some 3) None)) in
  let db2 := fst (TaskModel.create db1 "B" today (new_task "u1" "b" (Some 5) (Some 3) (Some tomorrow))) in
  fst (TaskModel.create db2 "C" today (new_task "u1" "c" (Some 3) (Some 3) (Some today))).

(** Keys in the format of the [UUID] columns: two users, and two tasks
    of the first of them. *)
Definition user_a : string := "7b0e6a52-3c1d-4f8a-9e2b-5d4c3b2a1f00".
Definition user_b : string := "c4a1d9e8-6f27-4b35-8a90-1e2d3c4b5a69".
Definition task_a : string := "0f9d8c7b-6a5e-4d3c-8b2a-190817263544".
Definition task_b : string := "3e2d1c0b-9a8f-4e7d-b6c5-a4b3c2d1e0f9".
Definition task_c : string := "5a4b3c2d-1e0f-4a9b-8c7d-6e5f4a3b2c1d".

Definition keyed_tasks : TaskModel.Table :=
  Eval vm_compute in
  let db1 := fst (TaskModel.create [] task_a today (new_task user_a "draft" (Some 4) (Some 2) None)) in
  fst (TaskModel.create db1 task_b today (new_task user_a "review" None None (Some tomorrow))).

Definition filters_with_status (s : option string) : TaskModel.Filters :=
  {| TaskModel.f_status := s; TaskModel.f_project_id := None; TaskModel.f_priority := None |}.

Definition ranking_scenario : list TaskModel.TaskWithEnergyMatch :=
  TaskModel.getTasksWithEnergyMatch three_tasks "u1" 3 None.

(** The first task of [three_tasks], completed. *)
Definition one_completed : TaskModel.Table :=
  Eval vm_compute in
  fst (TaskModel.complete three_tasks "A" "u1" None (Some 3) tomorrow).

Definition query (energy_level : option Z) (status : option string) : TaskController.Query :=
  {| TaskController.energy_level := energy_level;
     TaskController.status := status;
     TaskController.project_id := None;
     TaskController.priority := None;
     TaskController.limit := 100;
     TaskController.offset := 0 |}.

Definition log (i user : string) (level logged : Z) : EnergyModel.EnergyLog :=
  {| EnergyModel.id := i;
     EnergyModel.user_id := user;
     EnergyModel.energy_level := level;
     EnergyModel.mood_tags := None;
     EnergyModel.notes := None;
     EnergyModel.logged_at := logged;
     EnergyModel.predicted_at := None |}.

Definition hours (h : Z) : Z := h * EnergyModel.ms_per_hour.

(** [today] is midnight; the logs of one user over the last two days, and
    one log of another user. *)
Definition energy_logs : EnergyModel.Table :=
  [ log "l1" "u1" 5 (today + hours 9);
    log "l2" "u1" 4 (today - hours 15);
    log "l3" "u1" 5 (today + hours 10);
    log "l4" "u1" 4 (today + hours 11);
    log "l5" "u1" 5 (today + hours 8);
    log "l6" "u1" 2 (today + hours 14);
    log "l7" "u1" 1 (today + hours 15);
    log "l8" "u1" 2 (today + hours 16);
    log "l9" "u1" 1 (today + hours 17);
    log "l10" "u1" 3 (today + hours 13);
    log "l11" "u2" 1 (today + hours 9);
    log "l12" "u1" 1 (today - hours 24 * 40 + hours 9) ].

Definition minutes (m : Z) : Z := m * 60000.

(** The logs of the first user over nine hours of one day, with nine
    different means, from 5 at 8:00 down to 1 at 17:00; four of them reach
    4 and four stay at or below 2.  The mean of the seventeen logs is 3.
    The second user has no log. *)
Definition ranked_logs : EnergyModel.Table :=
  [ log "r1" user_a 5 (today + hours 8);
    log "r2" user_a 5 (today + hours 9);
    log "r3" user_a 5 (today + hours 9 + minutes 10);
    log "r4" user_a 5 (today + hours 9 + minutes 20);
    log "r5" user_a 4 (today + hours 9 + minutes 30);
    log "r6" user_a 5 (today + hours 10);
    log "r7" user_a 4 (today + hours 10 + minutes 10);
    log "r8" user_a 4 (today + hours 11);
    log "r9" user_a 3 (today + hours 13);
    log "r10" user_a 2 (today + hours 14);
    log "r11" user_a 2 (today + hours 15);
    log "r12" user_a 1 (today + hours 15 + minutes 10);
    log "r13" user_a 1 (today + hours 16);
    log "r14" user_a 1 (today + hours 16 + minutes 10);
    log "r15" user_a 1 (today + hours 16 + minutes 20);
    log "r16" user_a 2 (today + hours 16 + minutes 30);
    log "r17" user_a 1 (today + hours 17) ].

(** Two logs, of levels 2 and 3, at different hours: the average is 2.5
    and no hour reaches 4. *)
Definition low_logs : EnergyModel.Table :=
  [ log "l1" "u3" 2 (today + hours 9);
    log "l2" "u3" 3 (today + hours 10) ].

Definition low_pattern : EnergyModel.EnergyPattern :=
  {| EnergyModel.p_user_id := "u3";
     EnergyModel.average_energy := 5 # 2;
     EnergyModel.peak_hours := [];
     EnergyModel.low_hours := [];
     EnergyModel.patterns := None |}.

(** One log of the first user, in the morning of [today]. *)
Definition log_a : string := "9c8b7a6f-5e4d-4c3b-a291-807f6e5d4c3b".
Definition log_b : string := "2b3c4d5e-6f70-4819-a2b3-c4d5e6f70819".

Definition keyed_logs : EnergyModel.Table := [ log log_a user_a 2 (today + hours 9) ].

Definition energy_body (level : Q) : Zod.Json :=
  Zod.JObject [("energy_level"%string, Zod.JNumber level)].

Definition energy_request (user : option string) (level : Q) : EnergyController.Request :=
  {| EnergyController.userId := user; EnergyController.body := energy_body level |}.

End Fixtures.

(** ** Specification-side vocabulary

    The definitions of this part follow the words of the specification;
    the theorems below compare the code with them. *)

Module Spec.

(** Priority multiplier lookup: {1:10, 2:20, 3:40, 4:80, 5:150}; any value
    outside this set defaults to 40. *)
Definition priorityMultiplier (priority : Z) : Q :=
  match priority with
  | 1 => 10 | 2 => 20 | 3 => 40 | 4 => 80 | 5 => 150
  | _ => 40
  end.

(** Energy multiplier lookup: {1:0.5, 2:0.75, 3:1.0, 4:1.25, 5:1.5}; any
    value outside this set defaults to 1.0. *)
Definition energyMultiplier (energy_requirement : Z) : Q :=
  match energy_requirement with
  | 1 => 1 # 2 | 2 => 3 # 4 | 3 => 1 | 4 => 5 # 4 | 5 => 3 # 2
  | _ => 1
  end.

(** [r] is [x] rounded to the nearest integer, a half going up. *)
Definition round_half_up (x : Q) (r : Z) : Prop :=
  (inject_Z r - (1 # 2) <= x)%Q /\ (x < inject_Z r + (1 # 2))%Q.

(** Due date ascending, tasks having no due date last. *)
Definition due_before (a b : option Z) : Prop :=
  match a, b with
  | Some x, Some y => x <= y
  | Some _, None => True
  | None, Some _ => False
  | None, None => True
  end.

(** The ranking of the key triples (score, priority, due date): score
    descending, then priority descending, then due date ascending with no
    due date last. *)
Definition ranks_before (a b : Q * Z * option Z) : Prop :=
  let '(score_a, priority_a, due_a) := a in
  let '(score_b, priority_b, due_b) := b in
  (score_b < score_a)%Q
  \/ ((score_a == score_b)%Q
      /\ (priority_b < priority_a
          \/ (priority_a = priority_b /\ due_before due_a due_b))).

(** The same keys on a row of the query, before the bonus is added. *)
Definition row_key (r : TaskModel.MatchRow) : Q * Z * option Z :=
  (TaskModel.row_energy_match_score r,
   TaskModel.priority (TaskModel.row_task r),
   TaskModel.due_date (TaskModel.row_task r)).

(** The invariant of the data model: [points] is the base points of the
    task's priority and energy requirement. *)
Definition points_invariant (t : TaskModel.Task) : Prop :=
  TaskModel.points t
  = TaskModel.calculateBasePoints (TaskModel.priority t) (TaskModel.energy_requirement t).

(** The constraints the schema puts on [tasks]: [id] is the primary key,
    and the [CHECK]s of the columns hold. *)
Definition valid_table (db : TaskModel.Table) : Prop :=
  NoDup (map TaskModel.id db) /\ Forall (fun t => TaskModel.check_row t = true) db.








(** The type and the confidence of an insight. *)
Definition kind (i : EnergyModel.Insight) : string * Q :=
  (EnergyModel.type i, EnergyModel.confidence i).

(** The body carries an [energy_level] that is an integer of 1..5. *)
Definition valid_energy_level (body : Zod.Json) : Prop :=
  exists fields q n,
    body = Zod.JObject fields
    /\ Zod.get fields "energy_level" = Some (Zod.JNumber q)
    /\ (q == inject_Z n)%Q
    /\ 1 <= n <= 5.

Definition rank_key (r : TaskModel.TaskWithEnergyMatch) : Q * Z * option Z :=
  (TaskModel.energy_match_score r,
   TaskModel.priority (TaskModel.task r),
   TaskModel.due_date (TaskModel.task r)).

Definition ranked (a b : TaskModel.TaskWithEnergyMatch) : Prop :=
  ranks_before (rank_key a) (rank_key b).

(** [energy_match_score] = 1.0 if equal; 0.5 if absolute difference = 1;
    else 0.0. *)
Definition energy_match_score (requirement level : Z) : Q :=
  if Z.eq_dec requirement level then 1
  else if Z.eq_dec (Z.abs (requirement - level)) 1 then 1 # 2
  else 0.

(** The payload of an [update] names no column: none of title,
    description, energy_requirement, priority, due_date,
    estimated_duration, project_id and tags is there. *)
Definition names_no_column (data : TaskModel.PartialCreateTaskData) : Prop :=
  TaskModel.u_title data = None
  /\ TaskModel.u_description data = None
  /\ TaskModel.u_energy_requirement data = None
  /\ TaskModel.u_priority data = None
  /\ TaskModel.u_due_date data = None
  /\ TaskModel.u_estimated_duration data = None
  /\ TaskModel.u_project_id data = None
  /\ TaskModel.u_tags data = None.

(** A task with this id and owner is stored. *)
Definition stored (db : TaskModel.Table) (i u : string) : Prop :=
  exists t, In t db /\ TaskModel.id t = i /\ TaskModel.user_id t = u.

(** Priority descending, then due date ascending with no due date last. *)
Definition task_ranked (a b : TaskModel.Task) : Prop :=
  TaskModel.priority b < TaskModel.priority a
  \/ (TaskModel.priority a = TaskModel.priority b
      /\ due_before (TaskModel.due_date a) (TaskModel.due_date b)).

(** The CHECK of [energy_logs]: the level is one of 1..5. *)
Definition valid_logs (db : EnergyModel.Table) : Prop :=
  Forall (fun l => 1 <= EnergyModel.energy_level l <= 5) db.

End Spec.

(** ** Facts about the helpers *)

Section MathRound.

Lemma Math_round_half_up (x : Q) : Spec.round_half_up x (Js.Math_round x).
Proof.
  unfold Spec.round_half_up, Js.Math_round.
  pose proof (Qfloor_le (x + (1 # 2))) as Hlo.
  pose proof (Qlt_floor (x + (1 # 2))) as Hhi.
  rewrite inject_Z_plus in Hhi.
  split.
  - apply Qplus_le_l with (z := 1 # 2). ring_simplify. ring_simplify in Hlo. exact Hlo.
  - apply Qplus_lt_l with (z := 1 # 2).
    setoid_replace (inject_Z (Qfloor (x + (1 # 2))) + (1 # 2) + (1 # 2))%Q
      with (inject_Z (Qfloor (x + (1 # 2))) + inject_Z 1)%Q by ring.
    exact Hhi.
Qed.

Lemma round_half_up_unique (x : Q) (r r' : Z) :
  Spec.round_half_up x r -> Spec.round_half_up x r' -> r = r'.
Proof.
  unfold Spec.round_half_up. intros [Hlo Hhi] [Hlo' Hhi'].
  assert (H1 : (inject_Z r - (1 # 2) < inject_Z r' + (1 # 2))%Q)
    by (eapply Qle_lt_trans; eassumption).
  assert (H2 : (inject_Z r' - (1 # 2) < inject_Z r + (1 # 2))%Q)
    by (eapply Qle_lt_trans; eassumption).
  unfold Qlt, Qminus, Qplus, inject_Z in H1, H2. simpl in H1, H2. lia.
Qed.

(** A quarter of an integer, rounded: the bonus of the code. *)
Lemma Math_round_quarter (n : Z) :
  Js.Math_round (inject_Z n * (1 # 4)) = (n + 2) / 4.
Proof.
  unfold Js.Math_round, Qfloor, Qmult, Qplus, inject_Z. simpl.
  replace ((n * 1 * 2 + 4) / 8) with ((2 * (n + 2)) / (2 * 4)) by (f_equal; lia).
  rewrite Z.div_mul_cancel_l by lia. reflexivity.
Qed.

End MathRound.

(** ** Points calculation *)

Section BasePoints.

Lemma priorityMultiplier_lookup (priority : Z) :
  Js.orQ (Js.obj_get TaskModel.priorityMultiplier_table priority) 40
  = Spec.priorityMultiplier priority.
Proof.
  unfold TaskModel.priorityMultiplier_table. simpl.
  repeat match goal with
         | |- context [?k =? priority] => destruct (Z.eqb_spec k priority); [subst; reflexivity |]
         end.
  destruct priority as [| [[[]|[]|]|[[]|[]|]|] |]; try reflexivity; lia.
Qed.

Lemma energyMultiplier_lookup (energyRequirement : Z) :
  Js.orQ (Js.obj_get TaskModel.energyMultiplier_table energyRequirement) 1
  = Spec.energyMultiplier energyRequirement.
Proof.
  unfold TaskModel.energyMultiplier_table. simpl.
  repeat match goal with
         | |- context [?k =? energyRequirement] =>
           destruct (Z.eqb_spec k energyRequirement); [subst; reflexivity |]
         end.
  destruct energyRequirement as [| [[[]|[]|]|[[]|[]|]|] |]; try reflexivity; lia.
Qed.

Lemma calculateBasePoints_eq (priority energyRequirement : Z) :
  TaskModel.calculateBasePoints priority energyRequirement
  = Js.Math_round (Spec.priorityMultiplier priority * Spec.energyMultiplier energyRequirement).
Proof.
  unfold TaskModel.calculateBasePoints.
  rewrite priorityMultiplier_lookup, energyMultiplier_lookup. reflexivity.
Qed.

(** C2. For all integers [priority] and [energyRequirement],
    [calculateBasePoints] is the product of the two multipliers of the
    lookup tables (40 and 1.0 outside 1..5) rounded to the nearest integer
    with a half going up; (3,3) gives 40, (5,5) gives 225, (1,1) gives 5
    and (99,99) gives 40.  The function is total and depends on its two
    arguments only. *)
Theorem calculateBasePoints_spec :
  (forall priority energyRequirement : Z,
      Spec.round_half_up
        (Spec.priorityMultiplier priority * Spec.energyMultiplier energyRequirement)
        (TaskModel.calculateBasePoints priority energyRequirement))
  /\ TaskModel.calculateBasePoints 3 3 = 40
  /\ TaskModel.calculateBasePoints 5 5 = 225
  /\ TaskModel.calculateBasePoints 1 1 = 5
  /\ TaskModel.calculateBasePoints 99 99 = 40.
Proof.
  split; [| repeat split; reflexivity].
  intros priority energyRequirement.
  rewrite calculateBasePoints_eq. apply Math_round_half_up.
Qed.

(** The whole table, and the bound the other proofs use. *)
Lemma calculateBasePoints_table :
  map (fun p => map (TaskModel.calculateBasePoints p) [1; 2; 3; 4; 5]) [1; 2; 3; 4; 5]
  = [ [5; 8; 10; 13; 15];
      [10; 15; 20; 25; 30];
      [20; 30; 40; 50; 60];
      [40; 60; 80; 100; 120];
      [75; 113; 150; 188; 225] ].
Proof. reflexivity. Qed.

End BasePoints.

(** ** [ORDER BY] *)

Section OrderByFacts.

Context {A : Type}.
Variable cmp : A -> A -> comparison.

Lemma insert_perm (a : A) (l : list A) : Permutation (Sql.insert cmp a l) (a :: l).
Proof.
  induction l as [| b l IH]; simpl.
  - reflexivity.
  - destruct (Sql.leb cmp a b).
    + reflexivity.
    + rewrite IH. apply perm_swap.
Qed.

Lemma order_by_perm (l : list A) : Permutation (Sql.order_by cmp l) l.
Proof.
  induction l as [| a l IH]; simpl.
  - reflexivity.
  - rewrite insert_perm. now apply perm_skip.
Qed.

Lemma order_by_In (l : list A) (a : A) : In a (Sql.order_by cmp l) <-> In a l.
Proof.
  split; apply Permutation_in; [| symmetry]; apply order_by_perm.
Qed.

Hypothesis le_total : forall a b, Sql.leb cmp a b = false -> Sql.leb cmp b a = true.
Hypothesis le_trans :
  forall a b c, Sql.leb cmp a b = true -> Sql.leb cmp b c = true -> Sql.leb cmp a c = true.

Lemma insert_sorted (a : A) (l : list A) :
  StronglySorted (fun x y => Sql.leb cmp x y = true) l ->
  StronglySorted (fun x y => Sql.leb cmp x y = true) (Sql.insert cmp a l).
Proof.
  induction 1 as [| b l Hl IH Hb]; simpl.
  - repeat constructor.
  - destruct (Sql.leb cmp a b) eqn:Hab.
    + constructor; [constructor; assumption |].
      constructor; [exact Hab |].
      eapply Forall_impl; [| exact Hb]. intros c Hbc. now apply le_trans with b.
    + constructor; [exact IH |].
      apply (Permutation_Forall (x := a :: l)); [symmetry; apply insert_perm |].
      constructor; [now apply le_total | exact Hb].
Qed.

Lemma order_by_sorted (l : list A) :
  StronglySorted (fun x y => Sql.leb cmp x y = true) (Sql.order_by cmp l).
Proof.
  induction l as [| a l IH]; simpl.
  - constructor.
  - now apply insert_sorted.
Qed.

End OrderByFacts.

Lemma StronglySorted_map {A B : Type} (R : B -> B -> Prop) (g : A -> B) (l : list A) :
  StronglySorted (fun a b => R (g a) (g b)) l -> StronglySorted R (map g l).
Proof.
  induction 1 as [| a l Hl IH Ha]; simpl; constructor.
  - exact IH.
  - apply Forall_map. exact Ha.
Qed.

Lemma StronglySorted_weaken {A : Type} (R R' : A -> A -> Prop) (l : list A) :
  (forall a b, R a b -> R' a b) -> StronglySorted R l -> StronglySorted R' l.
Proof.
  intros HR. induction 1 as [| a l Hl IH Ha]; constructor.
  - exact IH.
  - eapply Forall_impl; [| exact Ha]. intros b. apply HR.
Qed.

(** ** Energy match scoring and ranking *)

Section EnergyMatch.

Lemma asc_nulls_last_due_before (a b : option Z) :
  Sql.asc_nulls_last a b <> Gt <-> Spec.due_before a b.
Proof.
  destruct a as [x |], b as [y |]; simpl.
  - unfold Z.le. tauto.
  - split; [trivial | discriminate].
  - split; [congruence | tauto].
  - split; [trivial | discriminate].
Qed.

Lemma match_order_ranks (a b : TaskModel.MatchRow) :
  Sql.leb TaskModel.match_order a b = true <-> Spec.ranks_before (Spec.row_key a) (Spec.row_key b).
Proof.
  unfold Sql.leb, TaskModel.match_order, Sql.lex, Sql.desc_Q, Sql.desc_Z, Spec.row_key,
    Spec.ranks_before.
  set (sa := TaskModel.row_energy_match_score a).
  set (sb := TaskModel.row_energy_match_score b).
  set (pa := TaskModel.priority (TaskModel.row_task a)).
  set (pb := TaskModel.priority (TaskModel.row_task b)).
  pose proof (asc_nulls_last_due_before
                (TaskModel.due_date (TaskModel.row_task a))
                (TaskModel.due_date (TaskModel.row_task b))) as Hd.
  destruct (Qcompare_spec sb sa) as [Hs | Hs | Hs].
  - destruct (Z.compare_spec pb pa) as [Hp | Hp | Hp].
    + destruct (Sql.asc_nulls_last _ _); split; intros H;
        try reflexivity; try discriminate.
      * right. split; [symmetry; exact Hs |]. right. split; [congruence |].
        apply Hd. discriminate.
      * right. split; [symmetry; exact Hs |]. right. split; [congruence |].
        apply Hd. discriminate.
      * exfalso. destruct H as [H | [_ [H | [_ H]]]]; [lra | lia |].
        apply Hd in H. congruence.
    + split; [| reflexivity]. intros _. right. split; [symmetry; exact Hs |]. now left.
    + split; [discriminate |]. intros [H | [_ [H | [H _]]]]; [lra | lia | lia].
  - split; [| reflexivity]. intros _. now left.
  - split; [discriminate |]. intros [H | [H _]]; lra.
Qed.

Lemma ranks_before_total (a b : Q * Z * option Z) :
  ~ Spec.ranks_before a b -> Spec.ranks_before b a.
Proof.
  destruct a as [[sa pa] da], b as [[sb pb] db]. unfold Spec.ranks_before. intros H.
  destruct (Qlt_le_dec sb sa) as [Hs | Hs]; [tauto |].
  destruct (Qlt_le_dec sa sb) as [Hs' | Hs']; [tauto |].
  assert (Heq : (sa == sb)%Q) by lra.
  right. split; [symmetry; exact Heq |].
  destruct (Z_lt_le_dec pb pa) as [Hp | Hp]; [tauto |].
  destruct (Z_lt_le_dec pa pb) as [Hp' | Hp']; [tauto |].
  assert (pa = pb) by lia. subst pb.
  right. split; [reflexivity |].
  destruct da as [x |], db as [y |]; simpl in *; try tauto.
  destruct (Z_le_gt_dec x y); [tauto | lia].
Qed.

Lemma ranks_before_trans (a b c : Q * Z * option Z) :
  Spec.ranks_before a b -> Spec.ranks_before b c -> Spec.ranks_before a c.
Proof.
  destruct a as [[sa pa] da], b as [[sb pb] db], c as [[sc pc] dc].
  unfold Spec.ranks_before.
  intros [H1 | [E1 H1]] [H2 | [E2 H2]].
  - left. lra.
  - left. lra.
  - left. lra.
  - right. split; [lra |].
    destruct H1 as [H1 | [P1 D1]], H2 as [H2 | [P2 D2]]; try (left; lia).
    right. split; [lia |].
    destruct da, db, dc; simpl in *; try tauto; lia.
Qed.

Lemma match_order_total (a b : TaskModel.MatchRow) :
  Sql.leb TaskModel.match_order a b = false -> Sql.leb TaskModel.match_order b a = true.
Proof.
  intros H. apply match_order_ranks, ranks_before_total.
  rewrite <- match_order_ranks. congruence.
Qed.

Lemma match_order_trans (a b c : TaskModel.MatchRow) :
  Sql.leb TaskModel.match_order a b = true ->
  Sql.leb TaskModel.match_order b c = true ->
  Sql.leb TaskModel.match_order a c = true.
Proof.
  rewrite !match_order_ranks. apply ranks_before_trans.
Qed.

(** Every row of the answer comes from a row of the table that passes the
    [WHERE] clause. *)
Lemma getTasksWithEnergyMatch_In db userId level filters r :
  In r (TaskModel.getTasksWithEnergyMatch db userId level filters) ->
  exists t, In t db
    /\ TaskModel.holds (TaskModel.match_conditions userId filters) t = true
    /\ TaskModel.task r = t
    /\ TaskModel.energy_match r = TaskModel.row_energy_match (TaskModel.select_match level t)
    /\ TaskModel.energy_match_score r
       = TaskModel.row_energy_match_score (TaskModel.select_match level t)
    /\ TaskModel.bonus_points r
       = if TaskModel.row_energy_match (TaskModel.select_match level t)
         then Js.Math_round (inject_Z (TaskModel.points t) * (1 # 4))
         else 0.
Proof.
  unfold TaskModel.getTasksWithEnergyMatch. intros H.
  apply in_map_iff in H. destruct H as [row [<- H]].
  apply order_by_In in H. apply in_map_iff in H. destruct H as [t [<- H]].
  apply filter_In in H. destruct H as [Hin Hc].
  exists t. simpl. repeat split; assumption.
Qed.

(** C3. For every task that [getTasksWithEnergyMatch] returns for a queried
    level: [energy_match] is true iff the task's [energy_requirement]
    equals the level; [energy_match_score] is 1.0 if equal, 0.5 if the
    absolute difference is 1 and 0.0 otherwise; [bonus_points] is
    [points * 0.25] rounded half up if [energy_match] is true and 0
    otherwise.  It holds for every integer level, those of 1..5 among
    them. *)
Theorem getTasksWithEnergyMatch_fields db userId level filters :
  Forall (fun r =>
            let t := TaskModel.task r in
            (TaskModel.energy_match r = true <-> TaskModel.energy_requirement t = level)
            /\ TaskModel.energy_match_score r
               = Spec.energy_match_score (TaskModel.energy_requirement t) level
            /\ (TaskModel.energy_match r = true ->
                Spec.round_half_up (inject_Z (TaskModel.points t) * (1 # 4))
                  (TaskModel.bonus_points r))
            /\ (TaskModel.energy_match r = false -> TaskModel.bonus_points r = 0))
         (TaskModel.getTasksWithEnergyMatch db userId level filters).
Proof.
  apply Forall_forall. intros r Hr.
  apply getTasksWithEnergyMatch_In in Hr.
  destruct Hr as [t [_ [_ [Ht [Hm [Hs Hb]]]]]].
  cbv zeta. rewrite Ht, Hm, Hs, Hb. simpl.
  unfold Spec.energy_match_score.
  destruct (Z.eqb_spec (TaskModel.energy_requirement t) level) as [He | He];
    destruct (Z.eq_dec (TaskModel.energy_requirement t) level) as [He' | He'];
    try contradiction.
  - split; [tauto |]. split; [reflexivity |].
    split; [intros _; apply Math_round_half_up | discriminate].
  - split; [split; [discriminate | contradiction] |].
    split; [| split; [discriminate | reflexivity]].
    destruct (Z.eqb_spec (Z.abs (TaskModel.energy_requirement t - level)) 1) as [Ha | Ha];
      destruct (Z.eq_dec (Z.abs (TaskModel.energy_requirement t - level)) 1) as [Ha' | Ha'];
      try contradiction; reflexivity.
Qed.

Lemma getTasksWithEnergyMatch_fields_witness :
  exists r rest,
    Fixtures.ranking_scenario = r :: rest
    /\ TaskModel.id (TaskModel.task r) = "B"%string
    /\ TaskModel.energy_match r = true
    /\ TaskModel.points (TaskModel.task r) = 150
    /\ Spec.round_half_up (150 # 4) (TaskModel.bonus_points r)
    /\ TaskModel.bonus_points r = 38.
Proof.
  pose proof (getTasksWithEnergyMatch_fields Fixtures.three_tasks "u1" 3 None) as H.
  fold Fixtures.ranking_scenario in H.
  destruct Fixtures.ranking_scenario as [| r rest] eqn:Hs; [discriminate Hs |].
  apply Forall_inv in H. cbv zeta in H. destruct H as [Hm [_ [Hb _]]].
  assert (Hr : r = hd r Fixtures.ranking_scenario) by (rewrite Hs; reflexivity).
  exists r, rest. split; [reflexivity |].
  assert (He : TaskModel.energy_requirement (TaskModel.task r) = 3)
    by (rewrite Hr; reflexivity).
  assert (Hp : TaskModel.points (TaskModel.task r) = 150) by (rewrite Hr; reflexivity).
  apply Hm in He. specialize (Hb He). rewrite Hp in Hb.
  split; [rewrite Hr; reflexivity |]. split; [exact He |]. split; [exact Hp |].
  split; [exact Hb |].
  rewrite Hr. reflexivity.
Defined.

(** The scoring examples of the specification: requirement 3 against the
    levels 3, 4 and 5. *)
Example select_match_examples :
  map (fun level =>
         let r := TaskModel.select_match level Fixtures.sample_task in
         (TaskModel.row_energy_match r, TaskModel.row_energy_match_score r))
      [3; 4; 5]
  = [(true, 1%Q); (false, 1 # 2); (false, 0%Q)].
Proof. reflexivity. Qed.

(** C4. The list that [getTasksWithEnergyMatch] returns is sorted by
    [energy_match_score] descending, then [priority] descending, then
    [due_date] ascending with the tasks that have no due date last: every
    task of the list ranks before every later one.  For the three pending
    tasks A (priority 5, no due date), B (priority 5, due tomorrow) and
    C (priority 3, due today), all of score 1.0, the order is B, A, C. *)
Theorem getTasksWithEnergyMatch_sorted :
  (forall db userId level filters,
      StronglySorted Spec.ranked
        (TaskModel.getTasksWithEnergyMatch db userId level filters))
  /\ map (fun r => (TaskModel.id (TaskModel.task r), TaskModel.energy_match_score r))
       Fixtures.ranking_scenario
     = [("B", 1%Q); ("A", 1%Q); ("C", 1%Q)]%string.
Proof.
  split; [| reflexivity].
  intros db userId level filters. unfold TaskModel.getTasksWithEnergyMatch.
  apply StronglySorted_map.
  eapply StronglySorted_weaken;
    [| apply (order_by_sorted TaskModel.match_order match_order_total match_order_trans)].
  intros a b Hab. apply match_order_ranks in Hab. exact Hab.
Qed.

(** The scenario holds the three tasks as the claim describes them. *)
Example ranking_scenario_tasks :
  map (fun t => (TaskModel.id t, TaskModel.priority t, TaskModel.due_date t,
                 TaskModel.status t))
      Fixtures.three_tasks
  = [ ("A", 5, None, "pending");
      ("B", 5, Some Fixtures.tomorrow, "pending");
      ("C", 3, Some Fixtures.today, "pending") ]%string.
Proof. reflexivity. Qed.

(** C10. Every task that [getTasksWithEnergyMatch] returns has status
    'pending', whatever [filters.status] is: the status filter is never
    applied, so two calls that differ in [filters.status] only return the
    same list, and so do two requests to the controller's [getTasks] that
    carry an energy level and differ in [status] only. *)
Theorem getTasksWithEnergyMatch_ignores_status :
  (forall db userId level filters,
      Forall (fun r => TaskModel.status (TaskModel.task r) = "pending"%string)
        (TaskModel.getTasksWithEnergyMatch db userId level filters))
  /\ (forall db userId level status1 status2 project_id priority,
         TaskModel.getTasksWithEnergyMatch db userId level
           (Some {| TaskModel.f_status := status1;
                    TaskModel.f_project_id := project_id;
                    TaskModel.f_priority := priority |})
         = TaskModel.getTasksWithEnergyMatch db userId level
             (Some {| TaskModel.f_status := status2;
                      TaskModel.f_project_id := project_id;
                      TaskModel.f_priority := priority |}))
  /\ (forall db userId q status1 status2,
         Js.truthyZ (TaskController.energy_level q) = true ->
         TaskController.tasks_of
           (TaskController.getTasks db userId (TaskController.with_status status1 q))
         = TaskController.tasks_of
             (TaskController.getTasks db userId (TaskController.with_status status2 q))).
Proof.
  split; [| split].
  - intros db userId level filters. apply Forall_forall. intros r Hr.
    apply getTasksWithEnergyMatch_In in Hr.
    destruct Hr as [t [_ [Hc [Ht _]]]]. rewrite Ht.
    unfold TaskModel.holds, TaskModel.match_conditions in Hc.
    simpl in Hc. apply andb_prop in Hc. destruct Hc as [_ Hc].
    apply andb_prop in Hc. destruct Hc as [Hc _].
    now apply String.eqb_eq in Hc.
  - reflexivity.
  - intros db userId q status1 status2 Hlevel.
    unfold TaskController.getTasks.
    destruct userId as [u |]; [| reflexivity].
    destruct (negb (Js.truthyS (Some u))); [reflexivity |].
    simpl. destruct (TaskController.energy_level q) as [level |]; [| discriminate].
    rewrite Hlevel. reflexivity.
Qed.

Lemma getTasksWithEnergyMatch_ignores_status_witness :
  TaskController.tasks_of
    (TaskController.getTasks Fixtures.one_completed (Some "u1"%string)
       (Fixtures.query (Some 3) (Some "completed"%string)))
  = TaskController.tasks_of
      (TaskController.getTasks Fixtures.one_completed (Some "u1"%string)
         (Fixtures.query (Some 3) (Some "pending"%string))).
Proof.
  apply (proj2 (proj2 getTasksWithEnergyMatch_ignores_status)
           Fixtures.one_completed (Some "u1"%string) (Fixtures.query (Some 3) None)
           (Some "completed"%string) (Some "pending"%string)).
  reflexivity.
Defined.

(** Asking for the completed tasks together with an energy level still
    answers with the pending ones; without the level the filter works. *)
Example status_filter_example :
  match TaskController.tasks_of
          (TaskController.getTasks Fixtures.one_completed (Some "u1"%string)
             (Fixtures.query (Some 3) (Some "completed"%string)))
  with
  | Some (TaskController.Matched l) => map (fun r => TaskModel.id (TaskModel.task r)) l
  | _ => []
  end = ["B"; "C"]%string
  /\ match TaskController.tasks_of
             (TaskController.getTasks Fixtures.one_completed (Some "u1"%string)
                (Fixtures.query None (Some "completed"%string)))
     with
     | Some (TaskController.Plain l) => map TaskModel.id l
     | _ => []
     end = ["A"]%string.
Proof. split; reflexivity. Qed.

End EnergyMatch.

(** ** Create and update *)

Section Points.

(** [create] stores the points of the values it stores. *)
Lemma create_points db new_id now data db' t :
  TaskModel.create db new_id now data = (db', TaskModel.Ok t) ->
  Spec.points_invariant t /\ In t db'.
Proof.
  unfold TaskModel.create.
  destruct (existsb _ db || negb _); intros H; inversion H; subst.
  split; [reflexivity | apply in_or_app; right; left; reflexivity].
Qed.

(** So does an [update] that carries both a priority and a non-zero
    energy requirement. *)
Lemma update_points_both db i userId data now db' t p e :
  TaskModel.u_priority data = Some p ->
  TaskModel.u_energy_requirement data = Some e ->
  e <> 0 ->
  TaskModel.update db i userId data now = (db', TaskModel.Ok t) ->
  TaskModel.priority t = p /\ TaskModel.energy_requirement t = e
  /\ TaskModel.points t = TaskModel.calculateBasePoints p e.
Proof.
  intros Hp He He0. unfold TaskModel.update.
  destruct (TaskModel.update_fields data) eqn:Hf.
  - discriminate.
  - rewrite <- Hf. clear Hf.
    destruct (negb _); [discriminate |].
    destruct (Sql.one _) as [t' |] eqn:Hone; [| discriminate].
    intros H. inversion H; subst; clear H.
    unfold Sql.one in Hone.
    destruct (filter _ _) as [| r [| ? ?]] eqn:Hfl; try discriminate.
    inversion Hone; subst; clear Hone.
    assert (Hin : In t (TaskModel.update_where i userId now
                          (fun t0 => fold_left TaskModel.assign (TaskModel.update_fields data) t0)
                          db)).
    { eapply proj1. apply (filter_In (TaskModel.owned i userId)). rewrite Hfl. now left. }
    unfold TaskModel.update_where in Hin. apply in_map_iff in Hin.
    destruct Hin as [t0 [Ht0 _]].
    assert (Hown : TaskModel.owned i userId t = true).
    { eapply proj2. apply (filter_In (TaskModel.owned i userId)). rewrite Hfl. now left. }
    destruct (TaskModel.owned i userId t0) eqn:Ho.
    + subst t. unfold TaskModel.update_fields. rewrite Hp, He.
      unfold TaskModel.push_if, Js.orZ.
      destruct (Z.eqb_spec e 0) as [? | _]; [contradiction |].
      rewrite !fold_left_app.
      destruct (TaskModel.u_due_date data), (TaskModel.u_estimated_duration data),
        (TaskModel.u_project_id data), (TaskModel.u_tags data); simpl;
        repeat split; reflexivity.
    + subst t0. congruence.
Qed.

(** The example tables are what [create] and [complete] build. *)
Example fixtures_built :
  Fixtures.one_task
  = fst (TaskModel.create [] "t1" Fixtures.today
           (Fixtures.new_task "u1" "report" (Some 3) (Some 5) None))
  /\ Fixtures.three_tasks
     = fst (TaskModel.create
              (fst (TaskModel.create
                      (fst (TaskModel.create [] "A" Fixtures.today
                              (Fixtures.new_task "u1" "a" (Some 5) (Some 3) None)))
                      "B" Fixtures.today
                      (Fixtures.new_task "u1" "b" (Some 5) (Some 3) (Some Fixtures.tomorrow))))
              "C" Fixtures.today
              (Fixtures.new_task "u1" "c" (Some 3) (Some 3) (Some Fixtures.today)))
  /\ Fixtures.one_completed
     = fst (TaskModel.complete Fixtures.three_tasks "A" "u1" None (Some 3) Fixtures.tomorrow).
Proof. repeat split; vm_compute; reflexivity. Qed.

(** C1. The points invariant does not survive [update].  A task created
    with priority 3 and energy requirement 5 holds 60 points.  Updating
    its priority alone to 4 stores the points of priority 4 and energy 3,
    which is 80, while the task still has energy requirement 5, for which
    the points are 120.  Updating its energy requirement alone to 1 leaves
    the 60 points in place, while the points of priority 3 and energy 1
    are 20. *)
Theorem update_breaks_points_invariant :
  Forall Spec.points_invariant Fixtures.one_task
  /\ (exists db' t,
         TaskModel.update Fixtures.one_task "t1" "u1" (Fixtures.change (Some 4) None)
           Fixtures.tomorrow = (db', TaskModel.Ok t)
         /\ In t db'
         /\ TaskModel.priority t = 4
         /\ TaskModel.energy_requirement t = 5
         /\ TaskModel.points t = 80
         /\ TaskModel.calculateBasePoints 4 5 = 120
         /\ ~ Spec.points_invariant t)
  /\ (exists db' t,
         TaskModel.update Fixtures.one_task "t1" "u1" (Fixtures.change None (Some 1))
           Fixtures.tomorrow = (db', TaskModel.Ok t)
         /\ In t db'
         /\ TaskModel.priority t = 3
         /\ TaskModel.energy_requirement t = 1
         /\ TaskModel.points t = 60
         /\ TaskModel.calculateBasePoints 3 1 = 20
         /\ ~ Spec.points_invariant t).
Proof.
  split; [| split].
  - repeat constructor.
  - eexists. eexists. split; [vm_compute; reflexivity |].
    split; [now left |].
    repeat (split; [reflexivity |]). discriminate.
  - eexists. eexists. split; [vm_compute; reflexivity |].
    split; [now left |].
    repeat (split; [reflexivity |]). discriminate.
Qed.

End Points.

(** ** Completion *)

Section Completion.

Lemma owned_iff i u t :
  TaskModel.owned i u t = true <-> TaskModel.id t = i /\ TaskModel.user_id t = u.
Proof.
  unfold TaskModel.owned. rewrite andb_true_iff, !String.eqb_eq. reflexivity.
Qed.

Lemma key_determines_row (db : TaskModel.Table) (a b : TaskModel.Task) :
  NoDup (map TaskModel.id db) -> In a db -> In b db ->
  TaskModel.id a = TaskModel.id b -> a = b.
Proof.
  induction db as [| c db IH]; simpl; [tauto |].
  intros Hnd [Ha | Ha] [Hb | Hb] Hid; inversion Hnd as [| ? ? Hc Hnd']; subst.
  - reflexivity.
  - exfalso. apply Hc. rewrite Hid. now apply in_map.
  - exfalso. apply Hc. rewrite <- Hid. now apply in_map.
  - now apply IH.
Qed.



Lemma findById_In (db : TaskModel.Table) i u t :
  TaskModel.findById db i u = Some t ->
  filter (TaskModel.owned i u) db = [t] /\ In t db /\ TaskModel.owned i u t = true.
Proof.
  unfold TaskModel.findById, Sql.one.
  destruct (filter _ db) as [| r [| ? ?]] eqn:Hf; try discriminate.
  intros H. inversion H; subst. split; [reflexivity |].
  apply filter_In. rewrite Hf. now left.
Qed.


(** The rows an [UPDATE ... RETURNING] gives back, when the assignment
    leaves the key and the owner alone. *)
Lemma filter_update_where i u now (f : TaskModel.Task -> TaskModel.Task) db :
  (forall t, TaskModel.id (f t) = TaskModel.id t) ->
  (forall t, TaskModel.user_id (f t) = TaskModel.user_id t) ->
  filter (TaskModel.owned i u) (TaskModel.update_where i u now f db)
  = map (fun t => TaskModel.set_updated_at now (f t)) (filter (TaskModel.owned i u) db).
Proof.
  intros Hid Hu. unfold TaskModel.update_where.
  induction db as [| c db IH]; simpl; [reflexivity |].
  destruct (TaskModel.owned i u c) eqn:Ho; simpl.
  - unfold TaskModel.owned at 1. simpl. rewrite Hid, Hu.
    fold (TaskModel.owned i u c). rewrite Ho. now rewrite IH.
  - rewrite Ho. exact IH.
Qed.

(** What [complete] does once [findById] has found the task. *)
Lemma complete_found db i u actualDuration currentEnergyLevel now t :
  TaskModel.findById db i u = Some t ->
  exists bonus,
    TaskModel.complete db i u actualDuration currentEnergyLevel now
    = (TaskModel.update_where i u now
         (fun t => TaskModel.set_actual_duration (Js.orNullZ actualDuration)
                     (TaskModel.set_completed_at (Some now)
                        (TaskModel.set_status "completed" t))) db,
       TaskModel.Ok {| TaskModel.completed_task := TaskOperations.completing actualDuration now t;
                       TaskModel.points_earned := TaskModel.points t + bonus;
                       TaskModel.result_bonus_points := bonus |})
    /\ bonus = match currentEnergyLevel with
               | Some level =>
                 if negb (level =? 0) && (TaskModel.energy_requirement t =? level)
                 then Js.Math_round (inject_Z (TaskModel.points t) * (1 # 4))
                 else 0
               | None => 0
               end.
Proof.
  intros Hf. unfold TaskModel.complete. rewrite Hf.
  apply findById_In in Hf. destruct Hf as [Hf _].
  rewrite filter_update_where by reflexivity. rewrite Hf. simpl.
  eexists. split; [reflexivity |].
  destruct currentEnergyLevel; reflexivity.
Qed.



(** The completion examples of the specification: a task of 40 points
    earns 10 more at its own energy level and nothing more without one. *)
Example complete_examples :
  map (fun level =>
         match snd (TaskModel.complete [Fixtures.sample_task] "t0" "u1" None level
                      Fixtures.today) with
         | TaskModel.Ok r => Some (TaskModel.result_bonus_points r, TaskModel.points_earned r)
         | TaskModel.Rejected _ => None
         end)
      [Some 3; None; Some 4]
  = [Some (10, 50); Some (0, 40); Some (0, 40)].
Proof. reflexivity. Qed.

Lemma assign_keeps (t : TaskModel.Task) (a : TaskModel.Assignment) :
  TaskModel.id (TaskModel.assign t a) = TaskModel.id t
  /\ TaskModel.user_id (TaskModel.assign t a) = TaskModel.user_id t
  /\ TaskModel.status (TaskModel.assign t a) = TaskModel.status t.
Proof. destruct a; repeat split; reflexivity. Qed.

Lemma fold_assign_keeps (fields : list TaskModel.Assignment) (t : TaskModel.Task) :
  TaskModel.id (fold_left TaskModel.assign fields t) = TaskModel.id t
  /\ TaskModel.user_id (fold_left TaskModel.assign fields t) = TaskModel.user_id t
  /\ TaskModel.status (fold_left TaskModel.assign fields t) = TaskModel.status t.
Proof.
  revert t. induction fields as [| a fields IH]; intros t; simpl; [tauto |].
  destruct (IH (TaskModel.assign t a)) as [H1 [H2 H3]].
  destruct (assign_keeps t a) as [K1 [K2 K3]].
  rewrite H1, H2, H3, K1, K2, K3. tauto.
Qed.

(** A row of the table after an [UPDATE] is a row of the table before it,
    written or not. *)
Lemma update_where_In i u now f db t' :
  In t' (TaskModel.update_where i u now f db) ->
  exists t0, In t0 db
    /\ (t' = t0 \/ (TaskModel.owned i u t0 = true /\ t' = TaskModel.set_updated_at now (f t0))).
Proof.
  unfold TaskModel.update_where. intros H. apply in_map_iff in H.
  destruct H as [t0 [Ht Hin]]. exists t0. split; [exact Hin |].
  destruct (TaskModel.owned i u t0); [right | left]; auto.
Qed.





End Completion.

(** ** Energy patterns *)

Section EnergyPattern.





(** The rows of the hourly query before they are ordered. *)
Lemma hourlyEnergy_perm db userId now :
  let rows := filter (EnergyModel.in_window userId now) db in
  Permutation (EnergyModel.hourlyEnergy db userId now)
    (map (fun h =>
            let g := filter (EnergyModel.from_hour h) rows in
            {| EnergyModel.hour := h;
               EnergyModel.avg_energy := Sql.avg (map EnergyModel.energy_level g);
               EnergyModel.count := Z.of_nat (List.length g) |})
         (EnergyModel.group_keys
            (map (fun l => EnergyModel.extract_hour (EnergyModel.logged_at l)) rows))).
Proof. apply order_by_perm. Qed.

Lemma hourlyEnergy_hours db userId now :
  let rows := filter (EnergyModel.in_window userId now) db in
  NoDup (map EnergyModel.hour (EnergyModel.hourlyEnergy db userId now))
  /\ forall h,
      In h (map EnergyModel.hour (EnergyModel.hourlyEnergy db userId now))
      <-> exists l, In l rows /\ EnergyModel.extract_hour (EnergyModel.logged_at l) = h.
Proof.
  intros rows.
  pose proof (Permutation_map EnergyModel.hour (hourlyEnergy_perm db userId now)) as Hp.
  cbv zeta in Hp. fold rows in Hp. rewrite map_map in Hp. simpl in Hp. rewrite map_id in Hp.
  split.
  - eapply Permutation_NoDup; [symmetry; exact Hp |]. apply NoDup_nodup.
  - intros h. split.
    + intros H. apply (Permutation_in _ Hp) in H.
      apply nodup_In, in_map_iff in H. destruct H as [l [Hl Hin]]. now exists l.
    + intros [l [Hin Hl]]. apply (Permutation_in _ (Permutation_sym Hp)).
      apply nodup_In, in_map_iff. now exists l.
Qed.





End EnergyPattern.

(** ** Insights *)

Section EnergyInsights.

Lemma includes_In (a : list Z) (x : Z) : EnergyModel.includes a x = true <-> In x a.
Proof.
  unfold EnergyModel.includes. rewrite existsb_exists. split.
  - intros [y [Hy He]]. apply Z.eqb_eq in He. now subst.
  - intros H. exists x. split; [exact H | apply Z.eqb_refl].
Qed.

Lemma average_below_3 (p : EnergyModel.EnergyPattern) :
  negb (Qle_bool 3 (EnergyModel.average_energy p)) = true
  <-> (EnergyModel.average_energy p < 3)%Q.
Proof.
  rewrite negb_true_iff. split.
  - intros H. apply Qnot_le_lt. intros Hle. apply Qle_bool_iff in Hle. congruence.
  - intros H. destruct (Qle_bool 3 (EnergyModel.average_energy p)) eqn:E; [| reflexivity].
    apply Qle_bool_iff in E. lra.
Qed.

(** C8. The insights of [getEnergyInsights] are three parts in this order,
    each there or not by its own condition alone: a 'peak_hours' insight of
    confidence 0.85 iff [peak_hours] is not empty; an 'energy_mismatch'
    insight of confidence 0.75 iff there is a latest log, the current hour
    is in [peak_hours] and the level of the latest log is below 4; a
    'low_average' insight of confidence 0.80 iff [average_energy] is below
    3.  A pattern of average 2.5 with no peak hours gives exactly the one
    insight 'low_average'. *)
Theorem getEnergyInsights_rules :
  (forall db userId now currentHour,
      let result := EnergyModel.getEnergyInsights db userId now currentHour in
      let p := EnergyModel.pattern result in
      EnergyModel.pattern result = EnergyModel.calculateEnergyPattern db userId now
      /\ EnergyModel.latest result = EnergyModel.getLatestEnergy db userId
      /\ exists first second third,
          EnergyModel.insights result = first ++ second ++ third
          /\ (EnergyModel.peak_hours p <> [] ->
              map Spec.kind first = [("peak_hours"%string, 85 # 100)])
          /\ (EnergyModel.peak_hours p = [] -> first = [])
          /\ ((exists l, EnergyModel.latest result = Some l
                         /\ In currentHour (EnergyModel.peak_hours p)
                         /\ EnergyModel.energy_level l < 4) ->
              map Spec.kind second = [("energy_mismatch"%string, 75 # 100)])
          /\ (~ (exists l, EnergyModel.latest result = Some l
                           /\ In currentHour (EnergyModel.peak_hours p)
                           /\ EnergyModel.energy_level l < 4) ->
              second = [])
          /\ ((EnergyModel.average_energy p < 3)%Q ->
              map Spec.kind third = [("low_average"%string, 8 # 10)])
          /\ (~ (EnergyModel.average_energy p < 3)%Q -> third = []))
  /\ (forall latest currentHour,
         map Spec.kind (EnergyModel.insights_for Fixtures.low_pattern latest currentHour)
         = [("low_average"%string, 8 # 10)])
  /\ (forall currentHour,
         let result := EnergyModel.getEnergyInsights Fixtures.low_logs "u3"
                         (Fixtures.today + Fixtures.hours 18) currentHour in
         (EnergyModel.average_energy (EnergyModel.pattern result) == 5 # 2)%Q
         /\ EnergyModel.peak_hours (EnergyModel.pattern result) = []
         /\ map Spec.kind (EnergyModel.insights result) = [("low_average"%string, 8 # 10)]).
Proof.
  split; [| split].
  - intros db userId now currentHour. cbv zeta. simpl.
    split; [reflexivity |]. split; [reflexivity |].
    set (p := EnergyModel.calculateEnergyPattern db userId now).
    set (latest := EnergyModel.getLatestEnergy db userId).
    exists (EnergyModel.push_peak_hours p []).
    exists (EnergyModel.push_energy_mismatch p latest currentHour []).
    exists (EnergyModel.push_low_average p []).
    split.
    + unfold EnergyModel.insights_for, EnergyModel.push_low_average,
        EnergyModel.push_energy_mismatch.
      destruct (negb (Qle_bool 3 (EnergyModel.average_energy p)));
        destruct latest as [l |];
        try destruct (EnergyModel.includes (EnergyModel.peak_hours p) currentHour
                      && (EnergyModel.energy_level l <? 4));
        simpl; rewrite ?app_nil_r, <- ?app_assoc; reflexivity.
    + unfold EnergyModel.push_peak_hours.
      split; [| split].
      * intros Hne. destruct (EnergyModel.peak_hours p); [contradiction | reflexivity].
      * intros ->. reflexivity.
      * unfold EnergyModel.push_energy_mismatch, EnergyModel.push_low_average.
        split; [| split; [| split]].
        -- intros [l [-> [Hin Hlt]]].
           apply includes_In in Hin. rewrite Hin.
           apply Z.ltb_lt in Hlt. rewrite Hlt. reflexivity.
        -- intros Hno. destruct latest as [l |]; [| reflexivity].
           destruct (EnergyModel.includes (EnergyModel.peak_hours p) currentHour) eqn:Hi;
             [| reflexivity].
           destruct (Z.ltb_spec (EnergyModel.energy_level l) 4) as [Hlt | _];
             [| reflexivity].
           exfalso. apply Hno. exists l. apply includes_In in Hi. tauto.
        -- intros Hlt. apply average_below_3 in Hlt. rewrite Hlt. reflexivity.
        -- intros Hge. rewrite <- average_below_3 in Hge.
           destruct (negb (Qle_bool 3 (EnergyModel.average_energy p)));
             [now contradiction Hge | reflexivity].
  - intros [l |] currentHour; reflexivity.
  - intros currentHour. cbv zeta. repeat split; reflexivity.
Qed.

Lemma getEnergyInsights_rules_witness :
  map Spec.kind
    (EnergyModel.insights
       (EnergyModel.getEnergyInsights Fixtures.energy_logs "u1"
          (Fixtures.today + Fixtures.hours 18) 9))
  = [("peak_hours"%string, 85 # 100); ("energy_mismatch"%string, 75 # 100)].
Proof.
  destruct (proj1 getEnergyInsights_rules Fixtures.energy_logs "u1"%string
              (Fixtures.today + Fixtures.hours 18) 9)
    as [_ [_ [first [second [third [Hi [H1 [_ [H2 [_ [_ H3]]]]]]]]]]].
  rewrite Hi, !map_app, H1, H2, H3.
  - reflexivity.
  - vm_compute. discriminate.
  - eexists. split; [vm_compute; reflexivity |].
    split; [vm_compute; tauto | vm_compute; reflexivity].
  - vm_compute. discriminate.
Defined.

(** The text of the first insight lists the hours. *)
Example peak_hours_message :
  map EnergyModel.message
    (EnergyModel.insights
       (EnergyModel.getEnergyInsights Fixtures.ranked_logs Fixtures.user_a
          (Fixtures.today + Fixtures.hours 18) 12))
  = ["Your peak energy hours are: 8, 9, 10:00"%string].
Proof. reflexivity. Qed.

End EnergyInsights.

(** ** Validation of an energy log *)

Section EnergyValidation.

Lemma number_int_min_max_Valid lo hi path v n :
  Zod.number_int_min_max lo hi path v = Zod.Valid n ->
  exists q, v = Some (Zod.JNumber q) /\ (q == inject_Z n)%Q /\ lo <= n <= hi.
Proof.
  unfold Zod.number_int_min_max.
  destruct v as [[| | q | | |] |]; try discriminate.
  destruct (Zod.is_integer q) eqn:Hi; [| discriminate].
  destruct (Qle_bool (inject_Z lo) q) eqn:Hlo; [| discriminate].
  destruct (Qle_bool q (inject_Z hi)) eqn:Hhi; [| discriminate].
  simpl. intros H. inversion H; subst; clear H.
  unfold Zod.is_integer in Hi. apply Qeq_bool_iff in Hi.
  apply Qle_bool_iff in Hlo, Hhi.
  exists q. split; [reflexivity |]. split; [symmetry; exact Hi |].
  rewrite <- Hi in Hlo, Hhi. rewrite <- Zle_Qle in Hlo, Hhi. lia.
Qed.

Lemma logEnergySchema_Valid body data :
  EnergyController.logEnergySchema body = Zod.Valid data ->
  Spec.valid_energy_level body.
Proof.
  unfold EnergyController.logEnergySchema.
  destruct body as [| | | | | fields]; try discriminate.
  destruct (Zod.number_int_min_max 1 5 "energy_level" (Zod.get fields "energy_level"))
    as [n | issues] eqn:He.
  - intros _. apply number_int_min_max_Valid in He. destruct He as [q [Hq [Hn Hr]]].
    exists fields, q, n. tauto.
  - destruct (Zod.array_string_optional _ _), (Zod.string_max_optional _ _ _); discriminate.
Qed.

(** The other way round, for a body that carries nothing else. *)
Lemma logEnergySchema_accepts (n : Z) :
  1 <= n <= 5 ->
  exists data,
    EnergyController.logEnergySchema (Fixtures.energy_body (inject_Z n)) = Zod.Valid data
    /\ EnergyController.energy_level data = n.
Proof.
  intros Hn.
  assert (H : n = 1 \/ n = 2 \/ n = 3 \/ n = 4 \/ n = 5) by lia.
  destruct H as [-> | [-> | [-> | [-> | ->]]]]; eexists; split; reflexivity.
Qed.

(** C9. A request to log energy whose [energy_level] is not an integer of
    1..5 leaves the table as it is and sends no statement to the
    database, whoever sends it; from an authenticated user it is answered
    with the validation failure (400), which names the field. *)
Theorem logEnergy_rejects_invalid_level db new_id now req :
  ~ Spec.valid_energy_level (EnergyController.body req) ->
  let out := EnergyController.logEnergy db new_id now req in
  EnergyController.table out = db
  /\ EnergyController.statements out = []
  /\ EnergyController.status (EnergyController.response out) <> 201
  /\ (Js.truthyS (EnergyController.userId req) = true ->
      exists details,
        EnergyController.response out = EnergyController.ValidationFailed details
        /\ EnergyController.status (EnergyController.response out) = 400
        /\ details <> []).
Proof.
  intros Hbad. cbv zeta. unfold EnergyController.logEnergy.
  destruct (EnergyController.userId req) as [u |] eqn:Hu.
  - destruct (Js.truthyS (Some u)) eqn:Ht; simpl.
    + destruct (EnergyController.logEnergySchema (EnergyController.body req))
        as [data | details] eqn:Hs.
      * exfalso. apply Hbad. eapply logEnergySchema_Valid. exact Hs.
      * simpl. repeat split; try discriminate.
        intros _. exists details. repeat split.
        unfold EnergyController.logEnergySchema in Hs.
        destruct (EnergyController.body req) as [| | | | | fields].
        1-5: inversion Hs; discriminate.
        destruct (Zod.number_int_min_max 1 5 "energy_level"
                    (Zod.get fields "energy_level")) as [n | issues] eqn:He.
        -- exfalso. apply Hbad. apply number_int_min_max_Valid in He.
           destruct He as [q [Hq [Hn Hr]]]. exists fields, q, n. tauto.
        -- assert (Hi : issues <> []).
           { unfold Zod.number_int_min_max in He.
             destruct (Zod.get fields "energy_level") as [[| | q | | |] |];
               try (inversion He; discriminate).
             destruct (_ && _ && _); inversion He; discriminate. }
           destruct (Zod.array_string_optional _ _), (Zod.string_max_optional _ _ _);
             inversion Hs; simpl;
             destruct issues; try contradiction; discriminate.
    + repeat split; try discriminate.
  - simpl. repeat split; try discriminate.
Qed.

Lemma logEnergy_rejects_invalid_level_witness :
  let out := EnergyController.logEnergy Fixtures.energy_logs "l13" Fixtures.tomorrow
               (Fixtures.energy_request (Some "u1"%string) 7) in
  EnergyController.table out = Fixtures.energy_logs
  /\ EnergyController.statements out = []
  /\ EnergyController.response out = EnergyController.ValidationFailed ["energy_level"%string].
Proof.
  assert (Hbad : ~ Spec.valid_energy_level
                     (EnergyController.body (Fixtures.energy_request (Some "u1"%string) 7))).
  { intros [fields [q [n [Hb [Hg [Hq Hn]]]]]].
    inversion Hb; subst. simpl in Hg. inversion Hg; subst.
    change 7%Q with (inject_Z 7) in Hq. apply (proj1 (inject_Z_injective _ _)) in Hq. lia. }
  destruct (logEnergy_rejects_invalid_level Fixtures.energy_logs "l13" Fixtures.tomorrow
              (Fixtures.energy_request (Some "u1"%string) 7) Hbad)
    as [Htable [Hstatements _]].
  cbv zeta. split; [exact Htable |]. split; [exact Hstatements |]. reflexivity.
Defined.

(** A level of the domain is logged; a fraction, a level out of range and
    a missing user are not. *)
Example logEnergy_examples :
  map (fun req =>
         let out := EnergyController.logEnergy [] "l1" Fixtures.today req in
         (EnergyController.status (EnergyController.response out),
          List.length (EnergyController.table out),
          List.length (EnergyController.statements out)))
      [ Fixtures.energy_request (Some "u1"%string) 4;
        Fixtures.energy_request (Some "u1"%string) (5 # 2);
        Fixtures.energy_request (Some "u1"%string) 0;
        Fixtures.energy_request (Some "u1"%string) 6;
        Fixtures.energy_request None 9 ]
  = [(201, 1%nat, 1%nat); (400, 0%nat, 0%nat); (400, 0%nat, 0%nat);
     (400, 0%nat, 0%nat); (401, 0%nat, 0%nat)].
Proof. reflexivity. Qed.

End EnergyValidation.

(** ** The table under the operations *)

Section TableInvariants.

Lemma fresh_id_not_owned (db : TaskModel.Table) i u :
  existsb (TaskModel.has_id i) db = false -> filter (TaskModel.owned i u) db = [].
Proof.
  induction db as [| c db IH]; simpl; [reflexivity |].
  intros H. apply orb_false_elim in H. destruct H as [Hc Hdb].
  unfold TaskModel.owned at 1. unfold TaskModel.has_id in Hc. rewrite Hc. simpl.
  now apply IH.
Qed.

Lemma has_id_In (db : TaskModel.Table) i :
  existsb (TaskModel.has_id i) db = true <-> In i (map TaskModel.id db).
Proof.
  rewrite existsb_exists, in_map_iff. unfold TaskModel.has_id.
  split; intros [t [H1 H2]]; exists t.
  - apply String.eqb_eq in H2. tauto.
  - rewrite H1. split; [exact H2 | apply String.eqb_refl].
Qed.

Lemma check_row_iff (t : TaskModel.Task) :
  TaskModel.check_row t = true
  <-> 1 <= TaskModel.energy_requirement t <= 5 /\ 1 <= TaskModel.priority t <= 5.
Proof.
  unfold TaskModel.check_row. rewrite !andb_true_iff, !Z.leb_le. tauto.
Qed.

(** An [UPDATE] that finds no row writes nothing. *)
Lemma update_where_none i u now f (db : TaskModel.Table) :
  filter (TaskModel.owned i u) db = [] -> TaskModel.update_where i u now f db = db.
Proof.
  unfold TaskModel.update_where.
  induction db as [| c db IH]; simpl; [reflexivity |].
  destruct (TaskModel.owned i u c); [discriminate |].
  intros H. now rewrite IH.
Qed.

Lemma update_where_ids i u now f (db : TaskModel.Table) :
  (forall t, TaskModel.id (f t) = TaskModel.id t) ->
  map TaskModel.id (TaskModel.update_where i u now f db) = map TaskModel.id db.
Proof.
  intros Hid. unfold TaskModel.update_where. rewrite map_map.
  apply map_ext. intros t. destruct (TaskModel.owned i u t); [apply Hid | reflexivity].
Qed.

(** What an accepted [create] has done. *)
Lemma create_Ok db new_id now data db' t :
  TaskModel.create db new_id now data = (db', TaskModel.Ok t) ->
  existsb (TaskModel.has_id new_id) db = false
  /\ db' = db ++ [t]
  /\ TaskModel.id t = new_id
  /\ TaskModel.user_id t = TaskModel.c_user_id data
  /\ TaskModel.status t = "pending"%string
  /\ TaskModel.completed_at t = None
  /\ TaskModel.check_row t = true
  /\ TaskModel.points t
     = TaskModel.calculateBasePoints (TaskModel.priority t) (TaskModel.energy_requirement t).
Proof.
  unfold TaskModel.create.
  destruct (existsb (TaskModel.has_id new_id) db) eqn:Hid; [discriminate |].
  match goal with |- context [negb (TaskModel.check_row ?r)] => set (row := r) end.
  destruct (TaskModel.check_row row) eqn:Hc; [| discriminate].
  simpl. intros H. inversion H; subst db' t; clear H.
  repeat split; try reflexivity. exact Hc.
Qed.

(** X1. A task that [create] has stored is the one [findById] returns for
    its id and owner: the new row is the last of the table, it is pending,
    not completed, within the CHECKs of the schema, and holds the base
    points of the priority and energy requirement it stores. *)
Theorem create_then_findById db new_id now data db' t :
  TaskModel.create db new_id now data = (db', TaskModel.Ok t) ->
  TaskModel.findById db' new_id (TaskModel.c_user_id data) = Some t
  /\ db' = db ++ [t]
  /\ TaskModel.id t = new_id
  /\ TaskModel.user_id t = TaskModel.c_user_id data
  /\ TaskModel.status t = "pending"%string
  /\ TaskModel.completed_at t = None
  /\ TaskModel.check_row t = true
  /\ TaskModel.points t
     = TaskModel.calculateBasePoints (TaskModel.priority t) (TaskModel.energy_requirement t).
Proof.
  intros Hc. destruct (create_Ok _ _ _ _ _ _ Hc) as [Hid [Hdb [Hi [Hu Hrest]]]].
  split; [| tauto].
  subst db'. unfold TaskModel.findById. rewrite filter_app.
  rewrite (fresh_id_not_owned db new_id _ Hid). simpl.
  unfold TaskModel.owned. rewrite Hi, Hu, !String.eqb_refl. reflexivity.
Qed.

Lemma create_then_findById_witness :
  exists t,
    TaskModel.findById
      (fst (TaskModel.create Fixtures.three_tasks "D" Fixtures.tomorrow
              (Fixtures.new_task "u2" "d" (Some 4) (Some 2) None)))
      "D" "u2" = Some t
    /\ TaskModel.points t = 60.
Proof.
  destruct (TaskModel.create Fixtures.three_tasks "D" Fixtures.tomorrow
              (Fixtures.new_task "u2" "d" (Some 4) (Some 2) None)) as [db' [t | e]] eqn:Hc;
    [| vm_compute in Hc; discriminate Hc].
  destruct (create_then_findById _ _ _ _ _ _ Hc) as [Hf [_ [_ [_ [_ [_ [_ Hp]]]]]]].
  exists t. split; [exact Hf |].
  vm_compute in Hc. inversion Hc. reflexivity.
Defined.

Lemma orZ_falsy (v : option Z) (d : Z) : Js.truthyZ v = false -> Js.orZ v d = d.
Proof.
  unfold Js.truthyZ, Js.orZ. destruct v as [z |]; [| reflexivity].
  destruct (z =? 0); [reflexivity | discriminate].
Qed.

(** X2. [create] is rejected when the id is already in the table, and
    when the priority or the energy requirement it would store (the one
    given, 3 when it is absent or 0) is outside 1..5; a rejected [create]
    leaves the table as it is.  An accepted [create] had a fresh id and
    has stored the priority and the energy requirement so obtained, both
    in 1..5: with neither of them given, or given as 0, the task is worth
    40 points. *)
Theorem create_rejections db new_id now data :
  let p := Js.orZ (TaskModel.c_priority data) 3 in
  let e := Js.orZ (TaskModel.c_energy_requirement data) 3 in
  (In new_id (map TaskModel.id db) \/ ~ (1 <= p <= 5) \/ ~ (1 <= e <= 5) ->
   exists err, TaskModel.create db new_id now data = (db, TaskModel.Rejected err))
  /\ (forall db' err,
         TaskModel.create db new_id now data = (db', TaskModel.Rejected err) -> db' = db)
  /\ (forall db' t,
         TaskModel.create db new_id now data = (db', TaskModel.Ok t) ->
         ~ In new_id (map TaskModel.id db)
         /\ TaskModel.priority t = p /\ 1 <= p <= 5
         /\ TaskModel.energy_requirement t = e /\ 1 <= e <= 5
         /\ (Js.truthyZ (TaskModel.c_priority data) = false ->
             Js.truthyZ (TaskModel.c_energy_requirement data) = false ->
             TaskModel.points t = 40)).
Proof.
  cbv zeta. unfold TaskModel.create.
  match goal with |- context [negb (TaskModel.check_row ?r)] => set (row := r) end.
  pose proof (has_id_In db new_id) as Hin.
  pose proof (check_row_iff row) as Hrow. simpl in Hrow.
  destruct (existsb (TaskModel.has_id new_id) db) eqn:Hid; simpl.
  - split; [| split].
    + intros _. now eexists.
    + intros db' err H. now inversion H.
    + intros db' t H. discriminate H.
  - assert (Hfresh : ~ In new_id (map TaskModel.id db))
      by (intros H; apply Hin in H; discriminate).
    destruct (TaskModel.check_row row) eqn:Hc; simpl.
    + destruct Hrow as [[He Hp] _]; [reflexivity |].
      split; [| split].
      * intros [H | [H | H]]; contradiction.
      * intros db' err H. discriminate H.
      * intros db' t H. inversion H; subst db' t; clear H. subst row. simpl.
        do 5 (split; [first [assumption | reflexivity] |]).
        intros Hp0 He0. rewrite (orZ_falsy _ 3 Hp0), (orZ_falsy _ 3 He0). reflexivity.
    + split; [| split].
      * intros _. now eexists.
      * intros db' err H. now inversion H.
      * intros db' t H. discriminate H.
Qed.

Lemma create_rejections_witness :
  exists err,
    TaskModel.create Fixtures.keyed_tasks Fixtures.task_c Fixtures.tomorrow
      (Fixtures.new_task Fixtures.user_a "plan" (Some 9) None None)
    = (Fixtures.keyed_tasks, TaskModel.Rejected err).
Proof.
  apply (proj1 (create_rejections Fixtures.keyed_tasks Fixtures.task_c Fixtures.tomorrow
                  (Fixtures.new_task Fixtures.user_a "plan" (Some 9) None None))).
  right. left. simpl. lia.
Defined.

End TableInvariants.

(** ** What the operations keep *)

Section OperationInvariants.

Lemma NoDup_filter_map {A B : Type} (g : A -> B) (f : A -> bool) (l : list A) :
  NoDup (map g l) -> NoDup (map g (filter f l)).
Proof.
  induction l as [| a l IH]; simpl; [trivial |].
  intros H. inversion H as [| ? ? Ha Hl]; subst.
  destruct (f a); simpl; [| now apply IH].
  constructor; [| now apply IH].
  intros Hin. apply Ha. apply in_map_iff in Hin. destruct Hin as [x [Hx Hin]].
  apply filter_In in Hin. rewrite <- Hx. apply in_map. tauto.
Qed.

Lemma update_keeps_valid_table db i u data now :
  Spec.valid_table db -> Spec.valid_table (fst (TaskModel.update db i u data now)).
Proof.
  intros [Hkey Hcheck]. unfold TaskModel.update.
  destruct (TaskModel.update_fields data) eqn:Hf; [now split |].
  rewrite <- Hf. clear Hf.
  set (f := fun t0 => fold_left TaskModel.assign (TaskModel.update_fields data) t0).
  destruct (forallb TaskModel.check_row
              (filter (TaskModel.owned i u) (TaskModel.update_where i u now f db)))
    eqn:Hall; simpl; [| now split].
  assert (Hv : Spec.valid_table (TaskModel.update_where i u now f db)).
  { split.
    - rewrite update_where_ids; [exact Hkey |].
      intros t. apply (fold_assign_keeps (TaskModel.update_fields data) t).
    - apply Forall_forall. intros t' Ht'.
      destruct (TaskModel.owned i u t') eqn:Ho.
      + rewrite forallb_forall in Hall. apply Hall. apply filter_In. tauto.
      + apply update_where_In in Ht'. destruct Ht' as [t0 [Hin [-> | [Hown ->]]]].
        * rewrite Forall_forall in Hcheck. now apply Hcheck.
        * exfalso. unfold TaskModel.owned in Ho, Hown. simpl in Ho.
          destruct (fold_assign_keeps (TaskModel.update_fields data) t0) as [K1 [K2 _]].
          unfold f in Ho. rewrite K1, K2 in Ho. congruence. }
  destruct (Sql.one _); exact Hv.
Qed.

Lemma complete_keeps_valid_table db i u dur lvl now :
  Spec.valid_table db -> Spec.valid_table (fst (TaskModel.complete db i u dur lvl now)).
Proof.
  intros [Hkey Hcheck].
  destruct (TaskModel.findById db i u) as [t |] eqn:Hf.
  - destruct (complete_found db i u dur lvl now t Hf) as [bonus [Hc _]].
    rewrite Hc. simpl. split.
    + rewrite update_where_ids; [exact Hkey | reflexivity].
    + apply Forall_forall. intros t' Ht'.
      apply update_where_In in Ht'. rewrite Forall_forall in Hcheck.
      destruct Ht' as [t0 [Hin [-> | [_ ->]]]]; [now apply Hcheck |].
      apply (Hcheck t0 Hin).
  - unfold TaskModel.complete. rewrite Hf. now split.
Qed.

(** X3. The constraints of the schema survive every call: on a table in
    which [id] is a key and every priority and energy requirement is in
    1..5, each of [create], [update], [complete] and [delete], accepted or
    rejected, leaves a table of the same kind. *)
Theorem run_keeps_valid_table now db op :
  Spec.valid_table db -> Spec.valid_table (TaskOperations.run now db op).
Proof.
  intros Hv.
  destruct op as [new_id data | i u data | i u dur lvl | i u]; simpl.
  - destruct (TaskModel.create db new_id now data) as [db' [t | e]] eqn:Hc.
    + destruct (create_Ok db new_id now data db' t Hc)
        as [Hex [-> [Hid [_ [_ [_ [Hrow _]]]]]]].
      destruct Hv as [Hkey Hcheck]. simpl. split.
      * rewrite map_app. simpl.
        apply (Permutation_NoDup (l := TaskModel.id t :: map TaskModel.id db)).
        -- rewrite <- Permutation_cons_append. reflexivity.
        -- constructor; [| exact Hkey].
           intros Hin. rewrite Hid in Hin. apply has_id_In in Hin. congruence.
      * apply Forall_app. split; [exact Hcheck | now constructor].
    + unfold TaskModel.create in Hc.
      destruct (_ || _); inversion Hc; subst. exact Hv.
  - now apply update_keeps_valid_table.
  - now apply complete_keeps_valid_table.
  - destruct Hv as [Hkey Hcheck]. split.
    + now apply NoDup_filter_map.
    + apply Forall_forall. intros t Ht. apply filter_In in Ht.
      rewrite Forall_forall in Hcheck. now apply Hcheck.
Qed.

Lemma run_keeps_valid_table_witness :
  Spec.valid_table
    (TaskOperations.run Fixtures.tomorrow Fixtures.three_tasks
       (TaskOperations.Update "A" "u1" (Fixtures.change (Some 2) (Some 4)))).
Proof.
  apply run_keeps_valid_table. split.
  - repeat constructor; simpl; intuition discriminate.
  - repeat constructor.
Defined.

(** X4. No call reaches the rows of another user: a row whose owner is
    not the caller is in the table after the call iff it was in the table
    before. *)
Theorem run_keeps_other_users_rows now db op t :
  TaskModel.user_id t <> TaskOperations.caller op ->
  (In t (TaskOperations.run now db op) <-> In t db).
Proof.
  intros Hu.
  assert (Hno : forall i, TaskModel.owned i (TaskOperations.caller op) t = false).
  { intros i. unfold TaskModel.owned.
    destruct (String.eqb_spec (TaskModel.user_id t) (TaskOperations.caller op));
      [contradiction | apply andb_false_r]. }
  assert (Hwhere : forall i f,
             (forall x, TaskModel.user_id (f x) = TaskModel.user_id x) ->
             In t (TaskModel.update_where i (TaskOperations.caller op) now f db) <-> In t db).
  { intros i f Hf. split.
    - intros H. apply update_where_In in H. destruct H as [t0 [Hin [-> | [Ho ->]]]];
        [exact Hin |].
      exfalso. apply Hu. simpl. rewrite Hf. apply owned_iff in Ho. tauto.
    - intros H. unfold TaskModel.update_where. apply in_map_iff. exists t.
      rewrite Hno. tauto. }
  destruct op as [new_id data | i u data | i u dur lvl | i u]; simpl in *.
  - unfold TaskModel.create. destruct (_ || _); simpl; [tauto |].
    rewrite in_app_iff. simpl. split; [| tauto].
    intros [H | [<- | []]]; [exact H |]. now contradiction Hu.
  - unfold TaskModel.update.
    destruct (TaskModel.update_fields data) eqn:Hfd; [tauto |].
    rewrite <- Hfd. clear Hfd. destruct (negb _); simpl; [tauto |].
    destruct (Sql.one _); simpl; apply Hwhere; intros x;
      apply (fold_assign_keeps (TaskModel.update_fields data) x).
  - destruct (TaskModel.findById db i u) as [found |] eqn:Hf.
    + destruct (complete_found db i u dur lvl now found Hf) as [bonus [Hc _]].
      rewrite Hc. simpl. apply Hwhere. reflexivity.
    + unfold TaskModel.complete. rewrite Hf. tauto.
  - rewrite filter_In, Hno. simpl. tauto.
Qed.

Lemma run_keeps_other_users_rows_witness :
  In Fixtures.sample_task
    (TaskOperations.run Fixtures.tomorrow [Fixtures.sample_task]
       (TaskOperations.Delete "t0" "u2")).
Proof.
  apply run_keeps_other_users_rows; [discriminate | now left].
Defined.

End OperationInvariants.

(** ** Update and delete *)

Section UpdateDelete.

Lemma update_fields_nil_iff (data : TaskModel.PartialCreateTaskData) :
  TaskModel.update_fields data = [] <-> Spec.names_no_column data.
Proof.
  unfold Spec.names_no_column, TaskModel.update_fields, TaskModel.push_if.
  destruct data as [uu up ut ud ue upr udd ued utg]; simpl.
  destruct ut, ud, ue, upr, udd, ued, up, utg; simpl;
    (split; [intros H; try discriminate H; repeat split; reflexivity
            | intros H; try reflexivity; exfalso; decompose [and] H; discriminate]).
Qed.

(** The columns of a row after the [SET] list of [update]. *)
Lemma update_fields_effect (data : TaskModel.PartialCreateTaskData) (t0 : TaskModel.Task) :
  let t := fold_left TaskModel.assign (TaskModel.update_fields data) t0 in
  TaskModel.priority t
  = match TaskModel.u_priority data with Some p => p | None => TaskModel.priority t0 end
  /\ TaskModel.energy_requirement t
     = match TaskModel.u_energy_requirement data with
       | Some e => e
       | None => TaskModel.energy_requirement t0
       end
  /\ TaskModel.points t
     = match TaskModel.u_priority data with
       | Some p =>
         TaskModel.calculateBasePoints p (Js.orZ (TaskModel.u_energy_requirement data) 3)
       | None => TaskModel.points t0
       end
  /\ TaskModel.completed_at t = TaskModel.completed_at t0
  /\ TaskModel.actual_duration t = TaskModel.actual_duration t0
  /\ TaskModel.created_at t = TaskModel.created_at t0.
Proof.
  unfold TaskModel.update_fields, TaskModel.push_if.
  destruct data as [uu up ut ud ue upr udd ued utg]; simpl.
  destruct ut, ud, ue, upr, udd, ued, up, utg; repeat split; reflexivity.
Qed.

(** What an accepted [update] has done. *)
Lemma update_Ok db i u data now db' t :
  TaskModel.update db i u data now = (db', TaskModel.Ok t) ->
  exists t0,
    filter (TaskModel.owned i u) db = [t0]
    /\ t = TaskModel.set_updated_at now
             (fold_left TaskModel.assign (TaskModel.update_fields data) t0)
    /\ db' = TaskModel.update_where i u now
               (fun x => fold_left TaskModel.assign (TaskModel.update_fields data) x) db.
Proof.
  unfold TaskModel.update.
  destruct (TaskModel.update_fields data) eqn:Hf; [discriminate |].
  rewrite <- Hf. clear Hf.
  destruct (negb _); [discriminate |].
  rewrite filter_update_where
    by (intros x; apply (fold_assign_keeps (TaskModel.update_fields data) x)).
  destruct (filter (TaskModel.owned i u) db) as [| t0 [| ? ?]]; simpl; try discriminate.
  intros H. inversion H; subst. exists t0. repeat split.
Qed.

(** X5. An accepted [update] has written exactly one row, the one with
    the id and owner.  It keeps the id, the owner, the status and the
    completion of that row and stamps [updated_at]; priority and energy
    requirement are the ones given, else the old ones; the points are the
    old ones unless a priority is given, and then they are the base points
    of that priority and of the energy requirement given with it, 3 when
    none is given or it is 0, whatever energy requirement the row has. *)
Theorem update_result db i u data now db' t :
  TaskModel.update db i u data now = (db', TaskModel.Ok t) ->
  exists t0,
    TaskModel.findById db i u = Some t0
    /\ TaskModel.findById db' i u = Some t
    /\ List.length db' = List.length db
    /\ TaskModel.id t = TaskModel.id t0
    /\ TaskModel.user_id t = TaskModel.user_id t0
    /\ TaskModel.status t = TaskModel.status t0
    /\ TaskModel.completed_at t = TaskModel.completed_at t0
    /\ TaskModel.updated_at t = now
    /\ TaskModel.priority t
       = match TaskModel.u_priority data with Some p => p | None => TaskModel.priority t0 end
    /\ TaskModel.energy_requirement t
       = match TaskModel.u_energy_requirement data with
         | Some e => e
         | None => TaskModel.energy_requirement t0
         end
    /\ TaskModel.points t
       = match TaskModel.u_priority data with
         | Some p =>
           TaskModel.calculateBasePoints p (Js.orZ (TaskModel.u_energy_requirement data) 3)
         | None => TaskModel.points t0
         end.
Proof.
  intros H. apply update_Ok in H. destruct H as [t0 [Hf [Ht Hdb]]].
  exists t0.
  destruct (fold_assign_keeps (TaskModel.update_fields data) t0) as [K1 [K2 K3]].
  destruct (update_fields_effect data t0) as [E1 [E2 [E3 [E4 _]]]].
  split; [unfold TaskModel.findById; now rewrite Hf |].
  split.
  { unfold TaskModel.findById. subst db'.
    rewrite filter_update_where
      by (intros x; apply (fold_assign_keeps (TaskModel.update_fields data) x)).
    rewrite Hf. simpl. now subst t. }
  split; [subst db'; unfold TaskModel.update_where; apply length_map |].
  subst t. simpl. repeat split; assumption.
Qed.

Lemma update_result_witness :
  exists t,
    snd (TaskModel.update Fixtures.three_tasks "C" "u1" (Fixtures.change (Some 5) None)
           Fixtures.tomorrow) = TaskModel.Ok t
    /\ TaskModel.points t = 150
    /\ TaskModel.status t = "pending"%string.
Proof.
  destruct (TaskModel.update Fixtures.three_tasks "C" "u1" (Fixtures.change (Some 5) None)
              Fixtures.tomorrow) as [db' [t | e]] eqn:Hu;
    [| vm_compute in Hu; discriminate Hu].
  destruct (update_result _ _ _ _ _ _ _ Hu)
    as [t0 [Hf [_ [_ [_ [_ [Hs [_ [_ [_ [_ Hp]]]]]]]]]]].
  exists t. split; [reflexivity |]. split; [exact Hp |].
  rewrite Hs. vm_compute in Hf. inversion Hf. reflexivity.
Defined.

(** X6. [update] is rejected, and the table left as it is, when the
    payload names no column (the statement has an empty [SET] list) and
    when it names one but no task has the id and owner ([db.one] gets no
    row). *)
Theorem update_rejections db i u data now :
  (Spec.names_no_column data ->
   TaskModel.update db i u data now = (db, TaskModel.Rejected TaskModel.SyntaxError))
  /\ (~ Spec.names_no_column data -> ~ Spec.stored db i u ->
      TaskModel.update db i u data now
      = (db, TaskModel.Rejected TaskModel.QueryResultError)).
Proof.
  split.
  - intros H. apply update_fields_nil_iff in H. unfold TaskModel.update. now rewrite H.
  - intros Hsome Hno. rewrite <- update_fields_nil_iff in Hsome.
    assert (Hnone : filter (TaskModel.owned i u) db = []).
    { destruct (filter (TaskModel.owned i u) db) as [| x l] eqn:Hf; [reflexivity |].
      exfalso. apply Hno. exists x.
      assert (Hx : In x (filter (TaskModel.owned i u) db)) by (rewrite Hf; now left).
      apply filter_In in Hx. destruct Hx as [Hin Ho]. apply owned_iff in Ho. tauto. }
    unfold TaskModel.update.
    destruct (TaskModel.update_fields data) eqn:Hfd; [contradiction |].
    rewrite <- Hfd. rewrite (update_where_none i u now _ db Hnone), Hnone. reflexivity.
Qed.

Lemma update_rejections_witness :
  TaskModel.update Fixtures.three_tasks "A" "u1" (Fixtures.change None None) Fixtures.tomorrow
  = (Fixtures.three_tasks, TaskModel.Rejected TaskModel.SyntaxError)
  /\ TaskModel.update Fixtures.three_tasks "A" "u2" (Fixtures.change (Some 1) None)
       Fixtures.tomorrow
     = (Fixtures.three_tasks, TaskModel.Rejected TaskModel.QueryResultError).
Proof.
  split.
  - apply (proj1 (update_rejections _ _ _ _ _)). repeat split.
  - apply (proj2 (update_rejections _ _ _ _ _)).
    + intros [_ [_ [_ [H _]]]]. discriminate H.
    + intros [t [Hin [Hi Hu]]]. simpl in Hin.
      destruct Hin as [<- | [<- | [<- | []]]]; discriminate.
Defined.

Lemma filter_owned_deleted i u (db : TaskModel.Table) :
  filter (TaskModel.owned i u) (filter (fun t => negb (TaskModel.owned i u t)) db) = [].
Proof.
  induction db as [| c db IH]; simpl; [reflexivity |].
  destruct (TaskModel.owned i u c) eqn:Ho; simpl; [exact IH |].
  rewrite Ho. exact IH.
Qed.

Lemma filter_deleted_twice i u (db : TaskModel.Table) :
  filter (fun t => negb (TaskModel.owned i u t))
    (filter (fun t => negb (TaskModel.owned i u t)) db)
  = filter (fun t => negb (TaskModel.owned i u t)) db.
Proof.
  induction db as [| c db IH]; simpl; [reflexivity |].
  destruct (TaskModel.owned i u c) eqn:Ho; simpl; [exact IH |].
  rewrite Ho. simpl. now rewrite IH.
Qed.

(** X7. A [delete] that the database has carried out answers true iff a
    task with the id and owner was stored; it has removed the rows with
    that id and owner and no other, so that [findById] finds nothing
    afterwards; and a second [delete], carried out as well, answers false
    and changes nothing. *)
Theorem delete_spec db i u db' deleted :
  TaskModel.delete db i u = (db', TaskModel.Ok deleted) ->
  (deleted = true <-> Spec.stored db i u)
  /\ (forall t, In t db' <-> In t db /\ ~ (TaskModel.id t = i /\ TaskModel.user_id t = u))
  /\ TaskModel.findById db' i u = None
  /\ (forall db'' again,
         TaskModel.delete db' i u = (db'', TaskModel.Ok again) ->
         again = false /\ db'' = db').
Proof.
  unfold TaskModel.delete. intros H. inversion H; subst db' deleted; clear H.
  assert (Hlen : (0 <? Z.of_nat (List.length (filter (TaskModel.owned i u) db))) = true
                 <-> Spec.stored db i u).
  { unfold Spec.stored. split.
    - destruct (filter (TaskModel.owned i u) db) as [| x l] eqn:Hf; [discriminate |].
      intros _. exists x.
      assert (Hx : In x (filter (TaskModel.owned i u) db)) by (rewrite Hf; now left).
      apply filter_In in Hx. destruct Hx as [Hin Ho]. apply owned_iff in Ho. tauto.
    - intros [t [Hin Ho]]. apply owned_iff in Ho.
      assert (Hx : In t (filter (TaskModel.owned i u) db)) by (apply filter_In; tauto).
      destruct (filter (TaskModel.owned i u) db); [contradiction |].
      simpl List.length. apply Z.ltb_lt. lia. }
  pose proof (filter_owned_deleted i u db) as Hgone.
  split; [| split; [| split]].
  - exact Hlen.
  - intros t. rewrite filter_In, negb_true_iff, <- owned_iff.
    destruct (TaskModel.owned i u t); split; intros [H1 H2]; split; congruence.
  - unfold TaskModel.findById. now rewrite Hgone.
  - intros db'' again H. rewrite Hgone, filter_deleted_twice in H.
    inversion H. split; reflexivity.
Qed.

Lemma delete_spec_witness :
  exists db',
    TaskModel.delete Fixtures.keyed_tasks Fixtures.task_a Fixtures.user_a
    = (db', TaskModel.Ok true)
    /\ TaskModel.findById db' Fixtures.task_a Fixtures.user_a = None
    /\ List.length db' = 1%nat.
Proof.
  destruct (TaskModel.delete Fixtures.keyed_tasks Fixtures.task_a Fixtures.user_a)
    as [db' [deleted | err]] eqn:Hd; [| discriminate Hd].
  destruct (delete_spec _ _ _ _ _ Hd) as [Hstored [_ [Hnone _]]].
  exists db'. split; [| split; [exact Hnone |]].
  - f_equal. f_equal. apply Hstored.
    exists (nth 0 Fixtures.keyed_tasks Fixtures.sample_task).
    split; [now left | split; reflexivity].
  - inversion Hd. reflexivity.
Defined.

End UpdateDelete.

(** ** Completion and the lists *)

Section CompletionAndLists.

Lemma match_conditions_pending userId filters t :
  TaskModel.holds (TaskModel.match_conditions userId filters) t = true ->
  TaskModel.user_id t = userId /\ TaskModel.status t = "pending"%string.
Proof.
  unfold TaskModel.holds, TaskModel.match_conditions. simpl.
  intros H. apply andb_prop in H. destruct H as [Hu H].
  apply andb_prop in H. destruct H as [Hs _].
  apply String.eqb_eq in Hu, Hs. tauto.
Qed.

(** What an accepted [complete] has found. *)
Lemma complete_Ok db i u dur lvl now db' r :
  TaskModel.complete db i u dur lvl now = (db', TaskModel.Ok r) ->
  exists t, TaskModel.findById db i u = Some t.
Proof.
  unfold TaskModel.complete.
  destruct (TaskModel.findById db i u) as [t |]; [now exists t | discriminate].
Qed.

(** A row after an [UPDATE]: an old row the statement did not match, or
    the new value of one it matched. *)
Lemma update_where_In_cases i u now f db t' :
  In t' (TaskModel.update_where i u now f db) ->
  exists t0, In t0 db
    /\ ((TaskModel.owned i u t0 = false /\ t' = t0)
        \/ (TaskModel.owned i u t0 = true /\ t' = TaskModel.set_updated_at now (f t0))).
Proof.
  unfold TaskModel.update_where. intros H. apply in_map_iff in H.
  destruct H as [t0 [Ht Hin]]. exists t0. split; [exact Hin |].
  destruct (TaskModel.owned i u t0); [right | left]; auto.
Qed.

(** X8. A task that [complete] has completed is found again by
    [findById], with the status 'completed', and, [id] being a key, it is
    in no list of [getTasksWithEnergyMatch] any more, for no level and no
    filters. *)
Theorem complete_then_lookup db i u dur lvl now db' r :
  NoDup (map TaskModel.id db) ->
  TaskModel.complete db i u dur lvl now = (db', TaskModel.Ok r) ->
  TaskModel.findById db' i u = Some (TaskModel.completed_task r)
  /\ TaskModel.status (TaskModel.completed_task r) = "completed"%string
  /\ forall userId level filters,
      ~ In i (map (fun m => TaskModel.id (TaskModel.task m))
                (TaskModel.getTasksWithEnergyMatch db' userId level filters)).
Proof.
  intros Hkey Hc. destruct (complete_Ok _ _ _ _ _ _ _ _ Hc) as [t Hf].
  destruct (complete_found db i u dur lvl now t Hf) as [bonus [Hc' _]].
  rewrite Hc in Hc'. inversion Hc'; subst db' r; clear Hc'.
  destruct (findById_In db i u t Hf) as [Hfl [Hin Ho]].
  split; [| split].
  - unfold TaskModel.findById. rewrite filter_update_where by reflexivity.
    rewrite Hfl. reflexivity.
  - reflexivity.
  - intros userId level filters Hi. apply in_map_iff in Hi.
    destruct Hi as [m [Hid Hm]]. apply getTasksWithEnergyMatch_In in Hm.
    destruct Hm as [t' [Hin' [Hcond [Ht' _]]]].
    apply match_conditions_pending in Hcond. destruct Hcond as [_ Hst].
    rewrite Ht' in Hid. apply update_where_In_cases in Hin'.
    destruct Hin' as [t0 [Hin0 [[Hno ->] | [_ ->]]]].
    + assert (Hti : TaskModel.id t = i) by (apply owned_iff in Ho; tauto).
      assert (t0 = t) by (apply (key_determines_row db); congruence).
      subst t0. congruence.
    + discriminate Hst.
Qed.

Lemma complete_then_lookup_witness :
  ~ In "A"%string
      (map (fun m => TaskModel.id (TaskModel.task m))
         (TaskModel.getTasksWithEnergyMatch Fixtures.one_completed "u1" 3 None)).
Proof.
  destruct (TaskModel.complete Fixtures.three_tasks "A" "u1" None (Some 3) Fixtures.tomorrow)
    as [db' [r | e]] eqn:Hc; [| vm_compute in Hc; discriminate Hc].
  assert (Hkey : NoDup (map TaskModel.id Fixtures.three_tasks))
    by (repeat constructor; simpl; intuition discriminate).
  destruct (complete_then_lookup _ _ _ _ _ _ _ _ Hkey Hc) as [_ [_ Hnot]].
  assert (Hdb : db' = Fixtures.one_completed)
    by (vm_compute in Hc; inversion Hc; reflexivity).
  rewrite <- Hdb. apply Hnot.
Defined.



End CompletionAndLists.

(** ** Statistics *)

Section Statistics.







Lemma filter_length_le {A : Type} (f : A -> bool) (l : list A) :
  (List.length (filter f l) <= List.length l)%nat.
Proof.
  induction l as [| x l IH]; simpl; [lia |]. destruct (f x); simpl; lia.
Qed.

Lemma filter_and_length_le {A : Type} (f g : A -> bool) (l : list A) :
  (List.length (filter (fun x => f x && g x) l) <= List.length (filter f l))%nat.
Proof.
  induction l as [| x l IH]; simpl; [lia |].
  destruct (f x), (g x); simpl; lia.
Qed.

(** X11. The numbers of [getTaskStats] hang together: the completions of
    the week are among the completed tasks, pending and completed tasks
    together are at most the tasks of the user, [total_points] is [NULL]
    exactly when nothing is completed, and tasks of other users count for
    nothing. *)
Theorem getTaskStats_consistent db u now :
  let s := TaskModel.getTaskStats db u now in
  let mine := filter (fun t => String.eqb (TaskModel.user_id t) u) db in
  0 <= TaskModel.completed_this_week s <= TaskModel.completed_count s
  /\ 0 <= TaskModel.pending_count s
  /\ TaskModel.pending_count s + TaskModel.completed_count s <= Z.of_nat (List.length mine)
  /\ (TaskModel.total_points s = None <-> TaskModel.completed_count s = 0)
  /\ (forall other,
         Forall (fun t => TaskModel.user_id t <> u) other ->
         TaskModel.getTaskStats (db ++ other) u now = s).
Proof.
  cbv zeta. unfold TaskModel.getTaskStats. simpl.
  set (mine := filter (fun t => String.eqb (TaskModel.user_id t) u) db).
  unfold TaskModel.count_where.
  split; [| split; [| split; [| split]]].
  - pose proof (filter_and_length_le TaskModel.is_completed
                  (TaskModel.completed_since (now - 604800000)) mine). lia.
  - lia.
  - assert (H : (List.length (filter TaskModel.is_pending mine)
                 + List.length (filter TaskModel.is_completed mine)
                 <= List.length mine)%nat); [| lia].
    clear. induction mine as [| x l IH]; simpl; [lia |].
    unfold TaskModel.is_pending at 1. unfold TaskModel.is_completed at 1.
    destruct (String.eqb_spec (TaskModel.status x) "pending") as [-> | _]; simpl;
      [| destruct (String.eqb (TaskModel.status x) "completed"); simpl]; lia.
  - destruct (filter TaskModel.is_completed mine); simpl List.length;
      split; try discriminate; try reflexivity; lia.
  - intros other Hother. rewrite filter_app.
    assert (Hnone : filter (fun t => String.eqb (TaskModel.user_id t) u) other = []).
    { induction Hother as [| x l Hx Hl IH]; simpl; [reflexivity |].
      destruct (String.eqb_spec (TaskModel.user_id x) u); [contradiction | exact IH]. }
    rewrite Hnone, app_nil_r. reflexivity.
Qed.

Lemma getTaskStats_consistent_witness :
  TaskModel.getTaskStats (Fixtures.one_completed ++ [Fixtures.sample_task]) "u2"
    Fixtures.tomorrow
  = TaskModel.getTaskStats Fixtures.one_completed "u2" Fixtures.tomorrow.
Proof.
  apply (proj2 (proj2 (proj2 (proj2
           (getTaskStats_consistent Fixtures.one_completed "u2" Fixtures.tomorrow))))).
  repeat constructor. discriminate.
Defined.

End Statistics.

(** ** The task lists *)

Section TaskLists.

Lemma task_order_ranked (a b : TaskModel.Task) :
  Sql.leb TaskModel.task_order a b = true <-> Spec.task_ranked a b.
Proof.
  unfold Sql.leb, TaskModel.task_order, Sql.lex, Sql.desc_Z, Spec.task_ranked.
  pose proof (asc_nulls_last_due_before (TaskModel.due_date a) (TaskModel.due_date b)) as Hd.
  destruct (Z.compare_spec (TaskModel.priority b) (TaskModel.priority a)) as [Hp | Hp | Hp].
  - destruct (Sql.asc_nulls_last _ _); split; intros H; try reflexivity; try discriminate.
    + right. split; [congruence | apply Hd; discriminate].
    + right. split; [congruence | apply Hd; discriminate].
    + exfalso. destruct H as [H | [_ H]]; [lia |]. apply Hd in H. congruence.
  - split; [intros _; now left | reflexivity].
  - split; [discriminate | intros [H | [H _]]; lia].
Qed.

Lemma task_order_total (a b : TaskModel.Task) :
  Sql.leb TaskModel.task_order a b = false -> Sql.leb TaskModel.task_order b a = true.
Proof.
  intros H. apply task_order_ranked.
  assert (Hn : ~ Spec.task_ranked a b) by (rewrite <- task_order_ranked; congruence).
  unfold Spec.task_ranked in *.
  destruct (Z_lt_le_dec (TaskModel.priority a) (TaskModel.priority b)); [now left |].
  destruct (Z_lt_le_dec (TaskModel.priority b) (TaskModel.priority a)); [tauto |].
  right. split; [lia |].
  destruct (TaskModel.due_date a), (TaskModel.due_date b); simpl in *; try tauto.
  - destruct (Z_le_gt_dec z0 z); [assumption |]. exfalso. apply Hn. right. split; lia.
  - exfalso. apply Hn. right. split; [lia | trivial].
Qed.

Lemma task_order_trans (a b c : TaskModel.Task) :
  Sql.leb TaskModel.task_order a b = true ->
  Sql.leb TaskModel.task_order b c = true ->
  Sql.leb TaskModel.task_order a c = true.
Proof.
  rewrite !task_order_ranked. unfold Spec.task_ranked.
  intros [H1 | [E1 D1]] [H2 | [E2 D2]]; try (left; lia).
  right. split; [lia |].
  destruct (TaskModel.due_date a), (TaskModel.due_date b), (TaskModel.due_date c);
    simpl in *; try tauto; lia.
Qed.

Lemma firstn_incl {A : Type} (n : nat) (l : list A) (x : A) :
  In x (firstn n l) -> In x l.
Proof.
  intros H. rewrite <- (firstn_skipn n l). apply in_or_app. now left.
Qed.

Lemma skipn_incl {A : Type} (n : nat) (l : list A) (x : A) :
  In x (skipn n l) -> In x l.
Proof.
  intros H. rewrite <- (firstn_skipn n l). apply in_or_app. now right.
Qed.

Lemma StronglySorted_skipn {A : Type} (R : A -> A -> Prop) (n : nat) (l : list A) :
  StronglySorted R l -> StronglySorted R (skipn n l).
Proof.
  revert l. induction n as [| n IH]; intros l H; [exact H |].
  destruct l as [| x l]; [exact H |]. simpl. apply IH. now inversion H.
Qed.

Lemma StronglySorted_firstn {A : Type} (R : A -> A -> Prop) (n : nat) (l : list A) :
  StronglySorted R l -> StronglySorted R (firstn n l).
Proof.
  revert l. induction n as [| n IH]; intros l H; [constructor |].
  destruct l as [| x l]; [constructor |]. simpl.
  inversion H as [| ? ? Hl Hx]; subst. constructor; [now apply IH |].
  rewrite Forall_forall in *. intros y Hy. apply Hx. eapply firstn_incl. exact Hy.
Qed.

Lemma In_page {A : Type} (limit offset : nat) (l : list A) (x : A) :
  In x (firstn limit (skipn offset l)) -> In x l.
Proof.
  intros H. apply (skipn_incl offset). eapply firstn_incl. exact H.
Qed.

(** X12. [getUserTasks] returns tasks of the table that belong to the
    user and, when a status filter is given, have that status (the filter
    that [getTasksWithEnergyMatch] leaves out); the list is sorted by
    priority descending, then due date ascending with no due date last;
    and it has at most [limit] entries. *)
Theorem getUserTasks_spec db userId filters limit offset :
  Forall (fun t =>
            In t db
            /\ TaskModel.user_id t = userId
            /\ (forall s, TaskModel.filter_status filters = Some s -> s <> EmptyString ->
                          TaskModel.status t = s))
         (TaskModel.getUserTasks db userId filters limit offset)
  /\ StronglySorted Spec.task_ranked (TaskModel.getUserTasks db userId filters limit offset)
  /\ (List.length (TaskModel.getUserTasks db userId filters limit offset) <= limit)%nat.
Proof.
  unfold TaskModel.getUserTasks. split; [| split].
  - apply Forall_forall. intros t Ht. apply In_page, order_by_In, filter_In in Ht.
    destruct Ht as [Hin Hc]. split; [exact Hin |].
    unfold TaskModel.holds, TaskModel.user_conditions in Hc.
    rewrite forallb_app in Hc. apply andb_prop in Hc. destruct Hc as [Hu Hc].
    simpl in Hu. rewrite andb_true_r in Hu. apply String.eqb_eq in Hu.
    split; [exact Hu |].
    intros s Hs Hne. rewrite forallb_app in Hc. apply andb_prop in Hc.
    destruct Hc as [Hst _]. rewrite Hs in Hst. simpl in Hst.
    destruct (String.eqb_spec s EmptyString); [contradiction |].
    simpl in Hst. rewrite andb_true_r in Hst. now apply String.eqb_eq in Hst.
  - apply StronglySorted_firstn, StronglySorted_skipn.
    eapply StronglySorted_weaken;
      [| apply (order_by_sorted TaskModel.task_order task_order_total task_order_trans)].
    intros a b. apply task_order_ranked.
  - apply firstn_le_length.
Qed.

Lemma getUserTasks_spec_witness :
  map TaskModel.id
    (TaskModel.getUserTasks Fixtures.one_completed "u1"
       (Some (Fixtures.filters_with_status (Some "completed"%string))) 10 0)
  = ["A"%string]
  /\ Forall (fun t => TaskModel.status t = "completed"%string)
       (TaskModel.getUserTasks Fixtures.one_completed "u1"
          (Some (Fixtures.filters_with_status (Some "completed"%string))) 10 0).
Proof.
  split; [reflexivity |].
  eapply Forall_impl;
    [| apply (proj1 (getUserTasks_spec Fixtures.one_completed "u1"
                       (Some (Fixtures.filters_with_status (Some "completed"%string)))
                       10 0))].
  intros t [_ [_ H]]. apply H; [reflexivity | discriminate].
Defined.

Lemma project_condition (fp : option string) (t : TaskModel.Task) :
  forallb (fun c : TaskModel.Task -> bool => c t)
    (if Js.truthyS fp
     then match fp with
          | Some p => [fun x => TaskModel.eq_string_column (TaskModel.project_id x) p]
          | None => []
          end
     else []) = true
  <-> forall p, fp = Some p -> p <> EmptyString -> TaskModel.project_id t = Some p.
Proof.
  destruct fp as [p |]; simpl; [| split; [discriminate | reflexivity]].
  destruct (String.eqb_spec p EmptyString) as [-> | Hp]; simpl.
  - split; [| reflexivity]. intros _ q Hq Hne. inversion Hq. congruence.
  - rewrite andb_true_r. unfold TaskModel.eq_string_column. split.
    + intros H q Hq _. inversion Hq; subst q.
      destruct (TaskModel.project_id t) as [c |]; [| discriminate].
      apply String.eqb_eq in H. now subst.
    + intros H. rewrite (H p eq_refl Hp). apply String.eqb_refl.
Qed.

Lemma priority_condition (fp : option Z) (t : TaskModel.Task) :
  forallb (fun c : TaskModel.Task -> bool => c t)
    (if Js.truthyZ fp
     then match fp with
          | Some p => [fun x => TaskModel.priority x =? p]
          | None => []
          end
     else []) = true
  <-> forall p, fp = Some p -> p <> 0 -> TaskModel.priority t = p.
Proof.
  destruct fp as [p |]; simpl; [| split; [discriminate | reflexivity]].
  destruct (Z.eqb_spec p 0) as [-> | Hp]; simpl.
  - split; [| reflexivity]. intros _ q Hq Hne. inversion Hq. congruence.
  - rewrite andb_true_r, Z.eqb_eq. split.
    + intros H q Hq _. inversion Hq. congruence.
    + intros H. now apply H.
Qed.

(** X13. [getTasksWithEnergyMatch] loses and repeats nothing: the tasks
    of its rows are, up to order, the tasks of the table that belong to
    the user, are pending, are of the project of the filter when one is
    given and not empty, and have the priority of the filter when one is
    given and not 0. *)
Theorem getTasksWithEnergyMatch_complete db userId level filters :
  exists selected,
    Permutation
      (map TaskModel.task (TaskModel.getTasksWithEnergyMatch db userId level filters))
      (filter selected db)
    /\ forall t,
        selected t = true
        <-> TaskModel.user_id t = userId
            /\ TaskModel.status t = "pending"%string
            /\ (forall p, TaskModel.filter_project_id filters = Some p -> p <> EmptyString ->
                          TaskModel.project_id t = Some p)
            /\ (forall p, TaskModel.filter_priority filters = Some p -> p <> 0 ->
                          TaskModel.priority t = p).
Proof.
  exists (TaskModel.holds (TaskModel.match_conditions userId filters)). split.
  - unfold TaskModel.getTasksWithEnergyMatch. rewrite map_map. simpl.
    rewrite (Permutation_map TaskModel.row_task (order_by_perm TaskModel.match_order _)).
    rewrite map_map. simpl. rewrite map_id. reflexivity.
  - intros t. unfold TaskModel.holds, TaskModel.match_conditions.
    rewrite !forallb_app, !andb_true_iff, project_condition, priority_condition.
    simpl. rewrite andb_true_r, andb_true_iff, !String.eqb_eq. tauto.
Qed.

Lemma getTasksWithEnergyMatch_complete_witness :
  Permutation
    (map TaskModel.id
       (map TaskModel.task
          (TaskModel.getTasksWithEnergyMatch Fixtures.one_completed "u1" 1 None)))
    ["B"; "C"]%string.
Proof.
  destruct (getTasksWithEnergyMatch_complete Fixtures.one_completed "u1" 1 None)
    as [selected [Hperm Hsel]].
  rewrite (Permutation_map TaskModel.id Hperm).
  assert (Hf : filter selected Fixtures.one_completed
               = filter (fun t => String.eqb (TaskModel.status t) "pending")
                   Fixtures.one_completed).
  { apply filter_ext_in. intros t Ht.
    destruct (selected t) eqn:E.
    - apply Hsel in E. destruct E as [_ [-> _]]. reflexivity.
    - destruct (String.eqb_spec (TaskModel.status t) "pending") as [Hs | Hs];
        [| reflexivity].
      assert (Ht' : selected t = true); [| congruence].
      apply Hsel. simpl in Ht. destruct Ht as [<- | [<- | [<- | []]]];
        try discriminate Hs; repeat split; try reflexivity; intros; discriminate. }
  rewrite Hf. reflexivity.
Defined.

End TaskLists.

(** ** The energy log *)

Section EnergyLogs.

Lemma by_logged_at_desc_le (a b : EnergyModel.EnergyLog) :
  Sql.leb EnergyModel.by_logged_at_desc a b = true
  <-> EnergyModel.logged_at b <= EnergyModel.logged_at a.
Proof.
  unfold Sql.leb, EnergyModel.by_logged_at_desc, Sql.desc_Z.
  destruct (Z.compare_spec (EnergyModel.logged_at b) (EnergyModel.logged_at a));
    split; intros; try reflexivity; try discriminate; lia.
Qed.

Lemma by_logged_at_asc_le (a b : EnergyModel.EnergyLog) :
  Sql.leb EnergyModel.by_logged_at_asc a b = true
  <-> EnergyModel.logged_at a <= EnergyModel.logged_at b.
Proof.
  unfold Sql.leb, EnergyModel.by_logged_at_asc.
  destruct (Z.compare_spec (EnergyModel.logged_at a) (EnergyModel.logged_at b));
    split; intros; try reflexivity; try discriminate; lia.
Qed.

(** The logs of a user, newest first. *)
Lemma newest_first_sorted (l : list EnergyModel.EnergyLog) :
  StronglySorted (fun a b => EnergyModel.logged_at b <= EnergyModel.logged_at a)
    (Sql.order_by EnergyModel.by_logged_at_desc l).
Proof.
  eapply StronglySorted_weaken; [| apply (order_by_sorted EnergyModel.by_logged_at_desc)].
  - intros a b. apply by_logged_at_desc_le.
  - intros a b H. apply by_logged_at_desc_le.
    assert (~ EnergyModel.logged_at b <= EnergyModel.logged_at a)
      by (rewrite <- by_logged_at_desc_le; congruence).
    lia.
  - intros a b c. rewrite !by_logged_at_desc_le. lia.
Qed.

Lemma oldest_first_sorted (l : list EnergyModel.EnergyLog) :
  StronglySorted (fun a b => EnergyModel.logged_at a <= EnergyModel.logged_at b)
    (Sql.order_by EnergyModel.by_logged_at_asc l).
Proof.
  eapply StronglySorted_weaken; [| apply (order_by_sorted EnergyModel.by_logged_at_asc)].
  - intros a b. apply by_logged_at_asc_le.
  - intros a b H. apply by_logged_at_asc_le.
    assert (~ EnergyModel.logged_at a <= EnergyModel.logged_at b)
      by (rewrite <- by_logged_at_asc_le; congruence).
    lia.
  - intros a b c. rewrite !by_logged_at_asc_le. lia.
Qed.

(** [getLatestEnergy] is the head of the logs of the user, newest first. *)
Lemma getLatestEnergy_head db userId :
  EnergyModel.getLatestEnergy db userId
  = hd_error (Sql.order_by EnergyModel.by_logged_at_desc
                (filter (fun l => String.eqb (EnergyModel.user_id l) userId) db)).
Proof.
  unfold EnergyModel.getLatestEnergy.
  destruct (Sql.order_by _ _) as [| x l]; reflexivity.
Qed.

Lemma getLatestEnergy_Some db userId l :
  EnergyModel.getLatestEnergy db userId = Some l ->
  In l db
  /\ EnergyModel.user_id l = userId
  /\ forall l', In l' db -> EnergyModel.user_id l' = userId ->
                EnergyModel.logged_at l' <= EnergyModel.logged_at l.
Proof.
  rewrite getLatestEnergy_head. intros H.
  pose proof (newest_first_sorted
                (filter (fun x => String.eqb (EnergyModel.user_id x) userId) db)) as Hs.
  assert (Hmem : forall x,
             In x (Sql.order_by EnergyModel.by_logged_at_desc
                     (filter (fun x => String.eqb (EnergyModel.user_id x) userId) db))
             <-> In x db /\ EnergyModel.user_id x = userId).
  { intros x. rewrite order_by_In, filter_In, String.eqb_eq. reflexivity. }
  destruct (Sql.order_by _ _) as [| x rest]; [discriminate |].
  inversion H; subst x; clear H.
  destruct (proj1 (Hmem l) (or_introl eq_refl)) as [Hin Hu].
  split; [exact Hin |]. split; [exact Hu |].
  intros l' Hin' Hu'.
  assert (Hl' : In l' (l :: rest)) by (apply Hmem; tauto).
  clear Hin'. destruct Hl' as [<- | Hin']; [lia |].
  inversion Hs as [| ? ? _ Hall]; subst. rewrite Forall_forall in Hall. now apply Hall.
Qed.

(** X14. [getLatestEnergy] answers [null] exactly when the user has no
    log; otherwise its answer is a log of that user, and no log of the
    user is newer. *)
Theorem getLatestEnergy_spec db userId :
  (EnergyModel.getLatestEnergy db userId = None
   <-> forall l, In l db -> EnergyModel.user_id l <> userId)
  /\ forall l,
      EnergyModel.getLatestEnergy db userId = Some l ->
      In l db
      /\ EnergyModel.user_id l = userId
      /\ forall l', In l' db -> EnergyModel.user_id l' = userId ->
                    EnergyModel.logged_at l' <= EnergyModel.logged_at l.
Proof.
  split; [| apply getLatestEnergy_Some].
  rewrite getLatestEnergy_head.
  assert (Hmem : forall x,
             In x (Sql.order_by EnergyModel.by_logged_at_desc
                     (filter (fun x => String.eqb (EnergyModel.user_id x) userId) db))
             <-> In x db /\ EnergyModel.user_id x = userId).
  { intros x. rewrite order_by_In, filter_In, String.eqb_eq. reflexivity. }
  destruct (Sql.order_by _ _) as [| x rest]; simpl.
  - split; [| reflexivity]. intros _ l Hin Hu. apply (Hmem l). tauto.
  - split; [discriminate |]. intros H. exfalso.
    destruct (proj1 (Hmem x) (or_introl eq_refl)) as [Hin Hu]. exact (H x Hin Hu).
Qed.

Lemma getLatestEnergy_spec_witness :
  exists l,
    EnergyModel.getLatestEnergy Fixtures.energy_logs "u1" = Some l
    /\ EnergyModel.id l = "l9"%string
    /\ EnergyModel.logged_at (Fixtures.log "l3" "u1" 5 (Fixtures.today + Fixtures.hours 10))
       <= EnergyModel.logged_at l.
Proof.
  destruct (EnergyModel.getLatestEnergy Fixtures.energy_logs "u1") as [l |] eqn:Hl;
    [| vm_compute in Hl; discriminate Hl].
  destruct (proj2 (getLatestEnergy_spec Fixtures.energy_logs "u1") l Hl) as [_ [_ Hmax]].
  exists l. split; [reflexivity |]. split.
  - vm_compute in Hl. inversion Hl. reflexivity.
  - apply Hmax; [right; right; now left | reflexivity].
Defined.

(** The one row that a call of the handler answered with 201 has added. *)
Lemma logEnergy_logged db new_id now req l :
  EnergyController.response (EnergyController.logEnergy db new_id now req)
  = EnergyController.EnergyLogged l ->
  EnergyController.table (EnergyController.logEnergy db new_id now req) = db ++ [l]
  /\ EnergyModel.logged_at l = now.
Proof.
  unfold EnergyController.logEnergy.
  destruct (EnergyController.userId req) as [u |]; [| discriminate].
  destruct (negb (Js.truthyS (Some u))); [discriminate |].
  destruct (EnergyController.logEnergySchema (EnergyController.body req)) as [data | details];
    [| discriminate].
  simpl. intros H. inversion H; subst l; clear H. split; reflexivity.
Qed.

(** A row that is newer than every log its user has is the latest one
    once it is in the table. *)
Lemma getLatestEnergy_appended db row :
  (forall l, In l db -> EnergyModel.user_id l = EnergyModel.user_id row ->
             EnergyModel.logged_at l < EnergyModel.logged_at row) ->
  EnergyModel.getLatestEnergy (db ++ [row]) (EnergyModel.user_id row) = Some row
  /\ forall other, other <> EnergyModel.user_id row ->
                   EnergyModel.getLatestEnergy (db ++ [row]) other
                   = EnergyModel.getLatestEnergy db other.
Proof.
  intros Hnew. split.
  - destruct (EnergyModel.getLatestEnergy (db ++ [row]) (EnergyModel.user_id row))
      as [l |] eqn:Hl.
    + apply getLatestEnergy_Some in Hl. destruct Hl as [Hin [Hu Hmax]].
      apply in_app_or in Hin. destruct Hin as [Hin | [<- | []]]; [| reflexivity].
      exfalso. specialize (Hnew l Hin Hu).
      assert (Hrow : EnergyModel.logged_at row <= EnergyModel.logged_at l).
      { apply Hmax; [apply in_or_app; right; now left | reflexivity]. }
      lia.
    + exfalso. rewrite getLatestEnergy_head in Hl.
      assert (Hin : In row (Sql.order_by EnergyModel.by_logged_at_desc
                              (filter (fun l => String.eqb (EnergyModel.user_id l)
                                                  (EnergyModel.user_id row))
                                 (db ++ [row])))).
      { apply order_by_In, filter_In. split; [apply in_or_app; right; now left |].
        apply String.eqb_refl. }
      destruct (Sql.order_by _ _); [contradiction | discriminate].
  - intros other Hother. unfold EnergyModel.getLatestEnergy.
    rewrite filter_app. simpl.
    destruct (String.eqb_spec (EnergyModel.user_id row) other) as [E | _];
      [now contradiction Hother |].
    now rewrite app_nil_r.
Qed.

(** X15. A log that the handler [logEnergy] reports as stored, at a time
    later than every log its user has, is what [getLatestEnergy] answers
    next for that user; for every other user the answer is what it was. *)
Theorem logEnergy_then_latest db new_id now req l :
  EnergyController.response (EnergyController.logEnergy db new_id now req)
  = EnergyController.EnergyLogged l ->
  (forall l', In l' db -> EnergyModel.user_id l' = EnergyModel.user_id l ->
              EnergyModel.logged_at l' < now) ->
  let db' := EnergyController.table (EnergyController.logEnergy db new_id now req) in
  EnergyModel.getLatestEnergy db' (EnergyModel.user_id l) = Some l
  /\ forall other, other <> EnergyModel.user_id l ->
                   EnergyModel.getLatestEnergy db' other
                   = EnergyModel.getLatestEnergy db other.
Proof.
  intros Hlogged Hnew. cbv zeta.
  destruct (logEnergy_logged _ _ _ _ _ Hlogged) as [-> Hnow].
  apply getLatestEnergy_appended. rewrite Hnow. exact Hnew.
Qed.

Lemma logEnergy_then_latest_witness :
  exists l,
    EnergyController.response
      (EnergyController.logEnergy Fixtures.keyed_logs Fixtures.log_b Fixtures.tomorrow
         (Fixtures.energy_request (Some Fixtures.user_a) 4))
    = EnergyController.EnergyLogged l
    /\ EnergyModel.getLatestEnergy
         (EnergyController.table
            (EnergyController.logEnergy Fixtures.keyed_logs Fixtures.log_b Fixtures.tomorrow
               (Fixtures.energy_request (Some Fixtures.user_a) 4)))
         Fixtures.user_a
       = Some l
    /\ EnergyModel.energy_level l = 4.
Proof.
  eexists. split; [reflexivity |]. split; [| reflexivity].
  apply (logEnergy_then_latest Fixtures.keyed_logs Fixtures.log_b Fixtures.tomorrow
           (Fixtures.energy_request (Some Fixtures.user_a) 4) _ eq_refl).
  intros l' [<- | []] _. reflexivity.
Defined.

(** X16. [getUserEnergyLogs] returns logs of the user only, newest first,
    at most [limit] of them; and the first entry of the first page is as
    new as the answer of [getLatestEnergy], and there is one iff there is
    the other. *)
Theorem getUserEnergyLogs_spec db userId limit offset :
  Forall (fun l => In l db /\ EnergyModel.user_id l = userId)
    (EnergyModel.getUserEnergyLogs db userId limit offset)
  /\ StronglySorted (fun a b => EnergyModel.logged_at b <= EnergyModel.logged_at a)
       (EnergyModel.getUserEnergyLogs db userId limit offset)
  /\ (List.length (EnergyModel.getUserEnergyLogs db userId limit offset) <= limit)%nat
  /\ option_map EnergyModel.logged_at
       (hd_error (EnergyModel.getUserEnergyLogs db userId (S limit) 0))
     = option_map EnergyModel.logged_at (EnergyModel.getLatestEnergy db userId).
Proof.
  unfold EnergyModel.getUserEnergyLogs. split; [| split; [| split]].
  - apply Forall_forall. intros l Hl. apply In_page, order_by_In, filter_In in Hl.
    rewrite String.eqb_eq in Hl. exact Hl.
  - apply StronglySorted_firstn, StronglySorted_skipn, newest_first_sorted.
  - apply firstn_le_length.
  - rewrite getLatestEnergy_head. simpl skipn.
    destruct (Sql.order_by _ _); reflexivity.
Qed.

Lemma getUserEnergyLogs_spec_witness :
  option_map EnergyModel.logged_at
    (hd_error (EnergyModel.getUserEnergyLogs Fixtures.energy_logs "u1" 1 0))
  = Some (Fixtures.today + Fixtures.hours 17).
Proof.
  rewrite (proj2 (proj2 (proj2 (getUserEnergyLogs_spec Fixtures.energy_logs "u1" 0 0)))).
  reflexivity.
Defined.

(** X17. [getEnergyByDateRange] returns, oldest first and each once, the
    logs of the user whose time is within the two dates, both included;
    with the start after the end it returns nothing. *)
Theorem getEnergyByDateRange_spec db userId startDate endDate :
  Permutation (EnergyModel.getEnergyByDateRange db userId startDate endDate)
    (filter (EnergyModel.in_range userId startDate endDate) db)
  /\ (forall l,
         In l (EnergyModel.getEnergyByDateRange db userId startDate endDate)
         <-> In l db /\ EnergyModel.user_id l = userId
             /\ startDate <= EnergyModel.logged_at l <= endDate)
  /\ StronglySorted (fun a b => EnergyModel.logged_at a <= EnergyModel.logged_at b)
       (EnergyModel.getEnergyByDateRange db userId startDate endDate)
  /\ (endDate < startDate ->
      EnergyModel.getEnergyByDateRange db userId startDate endDate = []).
Proof.
  unfold EnergyModel.getEnergyByDateRange.
  assert (Hmem : forall l,
             In l (Sql.order_by EnergyModel.by_logged_at_asc
                     (filter (EnergyModel.in_range userId startDate endDate) db))
             <-> In l db /\ EnergyModel.user_id l = userId
                 /\ startDate <= EnergyModel.logged_at l <= endDate).
  { intros l. rewrite order_by_In, filter_In. unfold EnergyModel.in_range.
    rewrite !andb_true_iff, String.eqb_eq, !Z.leb_le. tauto. }
  split; [apply order_by_perm |]. split; [exact Hmem |].
  split; [apply oldest_first_sorted |].
  intros Hlt.
  destruct (Sql.order_by _ _) as [| x rest]; [reflexivity |].
  exfalso. destruct (proj1 (Hmem x) (or_introl eq_refl)) as [_ [_ H]]. lia.
Qed.

Lemma getEnergyByDateRange_spec_witness :
  map EnergyModel.id
    (EnergyModel.getEnergyByDateRange Fixtures.energy_logs "u1"
       (Fixtures.today + Fixtures.hours 9) (Fixtures.today + Fixtures.hours 11))
  = ["l1"; "l3"; "l4"]%string
  /\ EnergyModel.getEnergyByDateRange Fixtures.energy_logs "u1"
       (Fixtures.today + Fixtures.hours 11) (Fixtures.today + Fixtures.hours 9)
     = [].
Proof.
  split; [reflexivity |].
  apply (proj2 (proj2 (proj2 (getEnergyByDateRange_spec Fixtures.energy_logs "u1"
                                (Fixtures.today + Fixtures.hours 11)
                                (Fixtures.today + Fixtures.hours 9))))).
  reflexivity.
Defined.

End EnergyLogs.

(** ** The pattern and its insights *)

Section PatternFacts.

Lemma NoDup_firstn {A : Type} (n : nat) (l : list A) : NoDup l -> NoDup (firstn n l).
Proof.
  revert l. induction n as [| n IH]; intros l H; [constructor |].
  destruct l as [| x l]; [constructor |]. simpl.
  inversion H as [| ? ? Hx Hl]; subst. constructor; [| now apply IH].
  intros Hin. apply Hx. eapply firstn_incl. exact Hin.
Qed.

Lemma NoDup_skipn {A : Type} (n : nat) (l : list A) : NoDup l -> NoDup (skipn n l).
Proof.
  revert l. induction n as [| n IH]; intros l H; [exact H |].
  destruct l as [| x l]; [exact H |]. simpl. apply IH. now inversion H.
Qed.

Lemma slice_last_length {A : Type} (n : nat) (l : list A) :
  (List.length (Js.slice_last n l) <= n)%nat.
Proof. unfold Js.slice_last. rewrite length_skipn. lia. Qed.

Lemma hour_determines_entry (ranking : list EnergyModel.HourlyEnergy) a b :
  NoDup (map EnergyModel.hour ranking) -> In a ranking -> In b ranking ->
  EnergyModel.hour a = EnergyModel.hour b -> a = b.
Proof.
  induction ranking as [| c l IH]; simpl; [tauto |].
  intros Hnd [Ha | Ha] [Hb | Hb] Hh; inversion Hnd as [| ? ? Hc Hl]; subst.
  - reflexivity.
  - exfalso. apply Hc. rewrite Hh. now apply in_map.
  - exfalso. apply Hc. rewrite <- Hh. now apply in_map.
  - now apply IH.
Qed.

Lemma extract_hour_range (t : Z) : 0 <= EnergyModel.extract_hour t < 24.
Proof. unfold EnergyModel.extract_hour. apply Z.mod_pos_bound. lia. Qed.

(** The two selections of a pattern: both empty, or cut from the
    ranking. *)
Lemma pattern_selections db userId now :
  let p := EnergyModel.calculateEnergyPattern db userId now in
  let ranking := EnergyModel.hourlyEnergy db userId now in
  (EnergyModel.peak_hours p = [] /\ EnergyModel.low_hours p = [])
  \/ (EnergyModel.peak_hours p
      = firstn 3 (map EnergyModel.hour
                    (filter (fun r => Qle_bool 4 (EnergyModel.avg_energy r)) ranking))
      /\ EnergyModel.low_hours p
         = Js.slice_last 3
             (map EnergyModel.hour
                (filter (fun r => Qle_bool (EnergyModel.avg_energy r) 2) ranking))).
Proof.
  cbv zeta. unfold EnergyModel.calculateEnergyPattern.
  destruct (filter (EnergyModel.in_window userId now) db); [left | right];
    split; reflexivity.
Qed.

(** The members of the two selections. *)
Lemma peak_hours_In db userId now h :
  In h (EnergyModel.peak_hours (EnergyModel.calculateEnergyPattern db userId now)) ->
  exists r, In r (EnergyModel.hourlyEnergy db userId now)
            /\ EnergyModel.hour r = h /\ (4 <= EnergyModel.avg_energy r)%Q.
Proof.
  destruct (pattern_selections db userId now) as [[-> _] | [-> _]]; [intros [] |].
  intros H. apply firstn_incl, in_map_iff in H.
  destruct H as [r [Hh Hr]]. apply filter_In in Hr. destruct Hr as [Hr Ha].
  exists r. apply Qle_bool_iff in Ha. tauto.
Qed.

Lemma low_hours_In db userId now h :
  In h (EnergyModel.low_hours (EnergyModel.calculateEnergyPattern db userId now)) ->
  exists r, In r (EnergyModel.hourlyEnergy db userId now)
            /\ EnergyModel.hour r = h /\ (EnergyModel.avg_energy r <= 2)%Q.
Proof.
  destruct (pattern_selections db userId now) as [[_ ->] | [_ ->]]; [intros [] |].
  unfold Js.slice_last. intros H. apply skipn_incl, in_map_iff in H.
  destruct H as [r [Hh Hr]]. apply filter_In in Hr. destruct Hr as [Hr Ha].
  exists r. apply Qle_bool_iff in Ha. tauto.
Qed.

(** X18. The peak hours and the low hours of a pattern are hours of the
    day, 0 to 23; each list has at most 3 entries and none twice; and no
    hour is both a peak hour and a low hour. *)
Theorem pattern_hours_sane db userId now :
  let p := EnergyModel.calculateEnergyPattern db userId now in
  Forall (fun h => 0 <= h < 24) (EnergyModel.peak_hours p)
  /\ Forall (fun h => 0 <= h < 24) (EnergyModel.low_hours p)
  /\ (List.length (EnergyModel.peak_hours p) <= 3)%nat
  /\ (List.length (EnergyModel.low_hours p) <= 3)%nat
  /\ NoDup (EnergyModel.peak_hours p)
  /\ NoDup (EnergyModel.low_hours p)
  /\ forall h, In h (EnergyModel.peak_hours p) -> ~ In h (EnergyModel.low_hours p).
Proof.
  cbv zeta.
  destruct (hourlyEnergy_hours db userId now) as [Hnd Hhours].
  assert (Hrange : forall r, In r (EnergyModel.hourlyEnergy db userId now) ->
                             0 <= EnergyModel.hour r < 24).
  { intros r Hr.
    destruct (proj1 (Hhours (EnergyModel.hour r)) (in_map _ _ _ Hr)) as [l [_ <-]].
    apply extract_hour_range. }
  split; [| split; [| split; [| split; [| split; [| split]]]]].
  - apply Forall_forall. intros h Hh. apply peak_hours_In in Hh.
    destruct Hh as [r [Hr [<- _]]]. now apply Hrange.
  - apply Forall_forall. intros h Hh. apply low_hours_In in Hh.
    destruct Hh as [r [Hr [<- _]]]. now apply Hrange.
  - destruct (pattern_selections db userId now) as [[-> _] | [-> _]]; [simpl; lia |].
    apply firstn_le_length.
  - destruct (pattern_selections db userId now) as [[_ ->] | [_ ->]]; [simpl; lia |].
    apply slice_last_length.
  - destruct (pattern_selections db userId now) as [[-> _] | [-> _]]; [constructor |].
    apply NoDup_firstn, NoDup_filter_map, Hnd.
  - destruct (pattern_selections db userId now) as [[_ ->] | [_ ->]]; [constructor |].
    apply NoDup_skipn, NoDup_filter_map, Hnd.
  - intros h Hp Hl. apply peak_hours_In in Hp. apply low_hours_In in Hl.
    destruct Hp as [r [Hr [Hh Ha]]]. destruct Hl as [r' [Hr' [Hh' Ha']]].
    assert (r = r') by (apply (hour_determines_entry _ r r' Hnd); congruence).
    subst r'. lra.
Qed.

Lemma pattern_hours_sane_witness :
  ~ In 10 (EnergyModel.low_hours
             (EnergyModel.calculateEnergyPattern Fixtures.energy_logs "u1"
                (Fixtures.today + Fixtures.hours 18))).
Proof.
  apply (proj2 (proj2 (proj2 (proj2 (proj2 (proj2
           (pattern_hours_sane Fixtures.energy_logs "u1"
              (Fixtures.today + Fixtures.hours 18)))))))).
  assert (Hpeak : EnergyModel.peak_hours
                    (EnergyModel.calculateEnergyPattern Fixtures.energy_logs "u1"
                       (Fixtures.today + Fixtures.hours 18)) = [10; 8; 9])
    by (vm_compute; reflexivity).
  rewrite Hpeak. left. reflexivity.
Defined.

Lemma sum_bounds (levels : list Z) :
  Forall (fun x => 1 <= x <= 5) levels ->
  Z.of_nat (List.length levels) <= Sql.sum levels <= 5 * Z.of_nat (List.length levels).
Proof.
  unfold Sql.sum. induction 1 as [| x l Hx Hl IH]; simpl fold_right; [simpl; lia |].
  change (List.length (x :: l)) with (S (List.length l)). lia.
Qed.

Lemma avg_bounds (levels : list Z) :
  levels <> [] -> Forall (fun x => 1 <= x <= 5) levels ->
  (1 <= Sql.avg levels <= 5)%Q.
Proof.
  intros Hne Hall. pose proof (sum_bounds levels Hall) as [Hlo Hhi].
  assert (Hpos : (0 < inject_Z (Z.of_nat (List.length levels)))%Q).
  { change 0%Q with (inject_Z 0). rewrite <- Zlt_Qlt.
    destruct levels; [contradiction |].
    change (List.length (z :: levels)) with (S (List.length levels)). lia. }
  unfold Sql.avg. split.
  - apply Qle_shift_div_l; [exact Hpos |]. rewrite Qmult_1_l. now rewrite <- Zle_Qle.
  - apply Qle_shift_div_r; [exact Hpos |].
    change 5%Q with (inject_Z 5). rewrite <- inject_Z_mult, <- Zle_Qle. exact Hhi.
Qed.

(** X19. When every logged level is one of 1..5, as the schema and the
    validation of the controller require, the average of a pattern is
    between 1 and 5, the default of 3 included, and so is the mean of each
    hour of its ranking. *)
Theorem average_energy_bounds db userId now :
  Spec.valid_logs db ->
  (1 <= EnergyModel.average_energy (EnergyModel.calculateEnergyPattern db userId now) <= 5)%Q
  /\ Forall (fun r => (1 <= EnergyModel.avg_energy r <= 5)%Q)
       (EnergyModel.hourlyEnergy db userId now).
Proof.
  intros Hvalid.
  assert (Hrows : Forall (fun l => 1 <= EnergyModel.energy_level l <= 5)
                    (filter (EnergyModel.in_window userId now) db)).
  { apply Forall_forall. intros l Hl. apply filter_In in Hl.
    unfold Spec.valid_logs in Hvalid. rewrite Forall_forall in Hvalid.
    now apply Hvalid. }
  split.
  - unfold EnergyModel.calculateEnergyPattern.
    destruct (filter (EnergyModel.in_window userId now) db) as [| l0 rest] eqn:Hf; simpl.
    + split; discriminate.
    + apply avg_bounds; [discriminate |].
      change (EnergyModel.energy_level l0 :: map EnergyModel.energy_level rest)
        with (map EnergyModel.energy_level (l0 :: rest)).
      apply Forall_map. exact Hrows.
  - eapply Permutation_Forall; [symmetry; apply hourlyEnergy_perm |].
    cbv zeta. apply Forall_forall. intros r Hr.
    apply in_map_iff in Hr. destruct Hr as [h [<- Hh]]. simpl.
    apply nodup_In, in_map_iff in Hh. destruct Hh as [l [Hl Hin]].
    apply avg_bounds.
    + assert (Hg : In l (filter (EnergyModel.from_hour h)
                           (filter (EnergyModel.in_window userId now) db))).
      { apply filter_In. split; [exact Hin |]. unfold EnergyModel.from_hour.
        rewrite Hl. apply Z.eqb_refl. }
      destruct (filter (EnergyModel.from_hour h) _); [contradiction | discriminate].
    + apply Forall_map, Forall_forall. intros x Hx. apply filter_In in Hx.
      rewrite Forall_forall in Hrows. apply Hrows. tauto.
Qed.

Lemma average_energy_bounds_witness :
  (1 <= EnergyModel.average_energy
          (EnergyModel.calculateEnergyPattern Fixtures.energy_logs "u1"
             (Fixtures.today + Fixtures.hours 18)) <= 5)%Q.
Proof.
  apply average_energy_bounds. unfold Spec.valid_logs, Fixtures.energy_logs.
  repeat constructor; simpl; lia.
Defined.

End PatternFacts.

(** ** Insights, cleanup and the handlers *)

Section InsightsAndHandlers.

(** X20. [getEnergyInsights] gives at most three insights; an
    'energy_mismatch' insight never comes without the 'peak_hours'
    insight, which is then the first one; and a user without a log in the
    last 30 days gets no insight at all, whatever the latest log is. *)
Theorem insights_shape db userId now currentHour :
  let result := EnergyModel.getEnergyInsights db userId now currentHour in
  let kinds := map EnergyModel.type (EnergyModel.insights result) in
  (List.length kinds <= 3)%nat
  /\ (In "energy_mismatch"%string kinds -> hd_error kinds = Some "peak_hours"%string)
  /\ (filter (EnergyModel.in_window userId now) db = [] ->
      EnergyModel.insights result = []).
Proof.
  cbv zeta. unfold EnergyModel.getEnergyInsights. simpl.
  split; [| split].
  - unfold EnergyModel.insights_for, EnergyModel.push_low_average,
      EnergyModel.push_energy_mismatch, EnergyModel.push_peak_hours.
    destruct (negb _); destruct (EnergyModel.getLatestEnergy db userId) as [l |];
      destruct (0 <? _); try destruct (_ && _); simpl; lia.
  - set (p := EnergyModel.calculateEnergyPattern db userId now).
    unfold EnergyModel.insights_for, EnergyModel.push_low_average,
      EnergyModel.push_energy_mismatch, EnergyModel.push_peak_hours.
    destruct (EnergyModel.peak_hours p) as [| h hs] eqn:Hp.
    + simpl. destruct (negb _); destruct (EnergyModel.getLatestEnergy db userId);
        simpl; intuition discriminate.
    + intros _. change (0 <? Z.of_nat (List.length (h :: hs)))
        with (0 <? Z.pos (Pos.of_succ_nat (List.length hs))). simpl.
      destruct (negb _); destruct (EnergyModel.getLatestEnergy db userId);
        try destruct (_ && _); reflexivity.
  - intros Hnone. unfold EnergyModel.calculateEnergyPattern. rewrite Hnone.
    unfold EnergyModel.insights_for, EnergyModel.push_low_average,
      EnergyModel.push_energy_mismatch, EnergyModel.push_peak_hours. simpl.
    destruct (EnergyModel.getLatestEnergy db userId); reflexivity.
Qed.

Lemma insights_shape_witness :
  EnergyModel.insights
    (EnergyModel.getEnergyInsights Fixtures.energy_logs "u1"
       (Fixtures.today + Fixtures.hours 24 * 60) 9) = [].
Proof.
  apply (proj2 (proj2 (insights_shape Fixtures.energy_logs "u1"
                         (Fixtures.today + Fixtures.hours 24 * 60) 9))).
  reflexivity.
Defined.

Lemma filter_filter_implied {A : Type} (f g : A -> bool) (l : list A) :
  (forall x, f x = true -> g x = true) -> filter f (filter g l) = filter f l.
Proof.
  intros H. induction l as [| x l IH]; simpl; [reflexivity |].
  destruct (g x) eqn:Hg; simpl.
  - destruct (f x); now rewrite IH.
  - destruct (f x) eqn:Hf; [| exact IH]. apply H in Hf. congruence.
Qed.

(** X21. [cleanupOldLogs] answers the number of logs it removes, which
    are the logs older than [daysToKeep] days, of every user.  With
    [daysToKeep] at least 30, as with its default of 90, no later
    [calculateEnergyPattern] can tell the difference; and a second cleanup
    at the same time removes nothing. *)
Theorem cleanupOldLogs_spec db cleaned daysToKeep :
  let db' := fst (EnergyModel.cleanupOldLogs db cleaned daysToKeep) in
  let removed := snd (EnergyModel.cleanupOldLogs db cleaned daysToKeep) in
  (forall l, In l db'
             <-> In l db
                 /\ cleaned - daysToKeep * EnergyModel.ms_per_day <= EnergyModel.logged_at l)
  /\ removed = Z.of_nat (List.length db) - Z.of_nat (List.length db')
  /\ EnergyModel.cleanupOldLogs db' cleaned daysToKeep = (db', 0)
  /\ (30 <= daysToKeep ->
      forall userId now, cleaned <= now ->
        EnergyModel.calculateEnergyPattern db' userId now
        = EnergyModel.calculateEnergyPattern db userId now).
Proof.
  cbv zeta. unfold EnergyModel.cleanupOldLogs. simpl.
  split; [| split; [| split]].
  - intros l. rewrite filter_In, negb_true_iff. unfold EnergyModel.is_old.
    rewrite Z.ltb_ge. reflexivity.
  - assert (H : (List.length (filter (EnergyModel.is_old cleaned daysToKeep) db)
                 + List.length (filter (fun l => negb (EnergyModel.is_old cleaned daysToKeep l)) db)
                 = List.length db)%nat); [| lia].
    induction db as [| x l IH]; simpl; [reflexivity |].
    destruct (EnergyModel.is_old cleaned daysToKeep x); simpl; lia.
  - f_equal.
    + apply filter_filter_implied. trivial.
    + assert (H : filter (EnergyModel.is_old cleaned daysToKeep)
                    (filter (fun l => negb (EnergyModel.is_old cleaned daysToKeep l)) db)
                  = []); [| now rewrite H].
      induction db as [| x l IH]; simpl; [reflexivity |].
      destruct (EnergyModel.is_old cleaned daysToKeep x) eqn:Ho; simpl; [exact IH |].
      now rewrite Ho.
  - intros Hdays userId now Hnow.
    assert (Hw : filter (EnergyModel.in_window userId now)
                   (filter (fun l => negb (EnergyModel.is_old cleaned daysToKeep l)) db)
                 = filter (EnergyModel.in_window userId now) db).
    { apply filter_filter_implied. intros l Hl.
      unfold EnergyModel.in_window in Hl. apply andb_prop in Hl. destruct Hl as [_ Hl].
      apply Z.ltb_lt in Hl. apply negb_true_iff. unfold EnergyModel.is_old.
      apply Z.ltb_ge. unfold EnergyModel.ms_per_day, EnergyModel.ms_per_hour in *. lia. }
    unfold EnergyModel.calculateEnergyPattern, EnergyModel.hourlyEnergy.
    rewrite Hw. reflexivity.
Qed.

Lemma cleanupOldLogs_spec_witness :
  snd (EnergyModel.cleanupOldLogs Fixtures.energy_logs (Fixtures.today + Fixtures.hours 18) 30)
  = 1
  /\ EnergyModel.calculateEnergyPattern
       (fst (EnergyModel.cleanupOldLogs Fixtures.energy_logs
               (Fixtures.today + Fixtures.hours 18) 30))
       "u1" (Fixtures.today + Fixtures.hours 18)
     = EnergyModel.calculateEnergyPattern Fixtures.energy_logs "u1"
         (Fixtures.today + Fixtures.hours 18).
Proof.
  split; [reflexivity |].
  apply (proj2 (proj2 (proj2 (cleanupOldLogs_spec Fixtures.energy_logs
                                (Fixtures.today + Fixtures.hours 18) 30)))); lia.
Defined.

Lemma string_max_optional_Valid n path v s :
  Zod.string_max_optional n path v = Zod.Valid (Some s) -> (String.length s <= n)%nat.
Proof.
  unfold Zod.string_max_optional.
  destruct v as [[| | | s' | |] |]; try discriminate.
  destruct (Nat.leb_spec (String.length s') n) as [Hle | _]; [| discriminate].
  intros Heq. inversion Heq. now subst.
Qed.

(** X22. A log that the handler [logEnergy] reports as stored is the one
    row it has added: for the user of the request, at the time of the
    call, with a level of 1..5 and a note of at most 500 characters.  So
    no request, accepted or not, can bring a level outside 1..5 into the
    table. *)
Theorem logEnergy_accepted db new_id now req :
  (forall l,
      EnergyController.response (EnergyController.logEnergy db new_id now req)
      = EnergyController.EnergyLogged l ->
      EnergyController.table (EnergyController.logEnergy db new_id now req) = db ++ [l]
      /\ EnergyController.userId req = Some (EnergyModel.user_id l)
      /\ EnergyModel.id l = new_id
      /\ EnergyModel.logged_at l = now
      /\ 1 <= EnergyModel.energy_level l <= 5
      /\ (forall n, EnergyModel.notes l = Some n -> (String.length n <= 500)%nat))
  /\ (Spec.valid_logs db ->
      Spec.valid_logs (EnergyController.table (EnergyController.logEnergy db new_id now req))).
Proof.
  unfold EnergyController.logEnergy.
  destruct (EnergyController.userId req) as [u |] eqn:Hu;
    [| split; [discriminate | trivial]].
  destruct (negb (Js.truthyS (Some u))); [split; [discriminate | trivial] |].
  destruct (EnergyController.logEnergySchema (EnergyController.body req))
    as [data | details] eqn:Hs; [| split; [discriminate | trivial]].
  assert (Hlevel : 1 <= EnergyController.energy_level data <= 5
                   /\ forall n, EnergyController.notes data = Some n ->
                                (String.length n <= 500)%nat).
  { unfold EnergyController.logEnergySchema in Hs.
    destruct (EnergyController.body req) as [| | | | | fields]; try discriminate.
    destruct (Zod.number_int_min_max 1 5 "energy_level" (Zod.get fields "energy_level"))
      as [e |] eqn:He; [| discriminate].
    destruct (Zod.array_string_optional "mood_tags" (Zod.get fields "mood_tags"))
      as [m |] eqn:Hm; [| discriminate].
    destruct (Zod.string_max_optional 500 "notes" (Zod.get fields "notes"))
      as [n |] eqn:Hn; [| discriminate].
    inversion Hs; subst data; clear Hs. simpl.
    apply number_int_min_max_Valid in He. destruct He as [q [_ [_ Hr]]].
    split; [exact Hr |]. intros s ->.
    now apply string_max_optional_Valid in Hn. }
  destruct Hlevel as [Hlevel Hnotes]. simpl. split.
  - intros l H. inversion H; subst l; clear H. simpl.
    repeat split; try reflexivity; try lia.
    intros n. unfold Js.orNullS. destruct (Js.truthyS _); [apply Hnotes | discriminate].
  - intros Hv. apply Forall_app. split; [exact Hv |]. constructor; [| constructor].
    exact Hlevel.
Qed.

Lemma logEnergy_accepted_witness :
  Spec.valid_logs
    (EnergyController.table
       (EnergyController.logEnergy Fixtures.low_logs "l3" Fixtures.tomorrow
          (Fixtures.energy_request (Some "u3"%string) 5))).
Proof.
  apply logEnergy_accepted. unfold Spec.valid_logs, Fixtures.low_logs.
  repeat constructor; simpl; lia.
Defined.

End InsightsAndHandlers.

(** ** The handlers of one task *)

Section TaskHandlers.

Lemma number_int_positive_optional_Valid path v n :
  Zod.number_int_positive_optional path v = Zod.Valid (Some n) -> 0 < n.
Proof.
  unfold Zod.number_int_positive_optional.
  destruct v as [[| | q | | |] |]; try discriminate.
  destruct (Zod.is_integer q) eqn:Hi; [| discriminate].
  destruct (Qle_bool q 0) eqn:Hq; [discriminate |].
  simpl. intros H. inversion H; subst n; clear H.
  unfold Zod.is_integer in Hi. apply Qeq_bool_iff in Hi.
  assert (Hpos : ~ (q <= 0)%Q) by (intros Hle; apply Qle_bool_iff in Hle; congruence).
  rewrite <- Hi in Hpos. change 0%Q with (inject_Z 0) in Hpos.
  rewrite <- Zle_Qle in Hpos. lia.
Qed.

Lemma completeTaskSchema_Valid body d :
  TaskController.completeTaskSchema body = Zod.Valid d ->
  (forall n, TaskController.current_energy_level d = Some n -> 1 <= n <= 5)
  /\ (forall n, TaskController.actual_duration d = Some n -> 0 < n).
Proof.
  unfold TaskController.completeTaskSchema.
  destruct body as [| | | | | fields]; try discriminate.
  destruct (Zod.number_int_positive_optional "actual_duration"
              (Zod.get fields "actual_duration")) as [a |] eqn:Ha; [| discriminate].
  destruct (Zod.number_int_min_max_optional 1 5 "current_energy_level"
              (Zod.get fields "current_energy_level")) as [e |] eqn:He; [| discriminate].
  intros H. inversion H; subst d; clear H. simpl. split.
  - intros n ->. unfold Zod.number_int_min_max_optional in He.
    destruct (Zod.get fields "current_energy_level") as [v |]; [| discriminate].
    destruct (Zod.number_int_min_max 1 5 "current_energy_level" (Some v))
      as [m |] eqn:Hm; [| discriminate].
    inversion He; subst m. apply number_int_min_max_Valid in Hm.
    destruct Hm as [q [_ [_ Hr]]]. exact Hr.
  - intros n ->. now apply number_int_positive_optional_Valid in Ha.
Qed.

(** X23. The handler [complete].  It never answers 404: for a task that
    [findById] does not find it answers 500, 'Failed to complete task',
    and leaves the table as it is, as it does on every answer other than
    the completion.  A completion it reports is of the task found for the
    id and the user of the request; [points_earned] is the points of that
    task plus [bonus_points], [energy_match_bonus] says whether the bonus
    is above 0, and a bonus other than 0 is a quarter of the points,
    rounded, for a [current_energy_level] of the body that equals the
    energy requirement of the task. *)
Theorem complete_handler db now req :
  TaskController.reply_status (fst (TaskController.complete db now req)) <> 404
  /\ ((forall t pe bp flag,
          fst (TaskController.complete db now req) <> TaskController.Completed t pe bp flag) ->
      snd (TaskController.complete db now req) = db)
  /\ (forall u d,
         TaskController.userId req = Some u -> u <> EmptyString ->
         TaskController.completeTaskSchema (TaskController.body req) = Zod.Valid d ->
         TaskModel.findById db (TaskController.param_id req) u = None ->
         TaskController.complete db now req
         = (TaskController.Failed "Failed to complete task", db))
  /\ (forall t pe bp flag,
         fst (TaskController.complete db now req) = TaskController.Completed t pe bp flag ->
         exists u t0 d,
           TaskController.userId req = Some u
           /\ TaskController.completeTaskSchema (TaskController.body req) = Zod.Valid d
           /\ TaskModel.findById db (TaskController.param_id req) u = Some t0
           /\ TaskModel.id t = TaskModel.id t0
           /\ TaskModel.status t = "completed"%string
           /\ TaskModel.completed_at t = Some now
           /\ pe = TaskModel.points t0 + bp
           /\ flag = (0 <? bp)
           /\ (bp <> 0 ->
               TaskController.current_energy_level d = Some (TaskModel.energy_requirement t0)
               /\ bp = Js.Math_round (inject_Z (TaskModel.points t0) * (1 # 4)))).
Proof.
  unfold TaskController.complete.
  destruct (TaskController.userId req) as [u |] eqn:Hu;
    [| repeat split; try discriminate; try reflexivity; intros; discriminate].
  destruct (Js.truthyS (Some u)) eqn:Htruthy; simpl negb; cbv iota.
  2: { repeat split; try discriminate; try reflexivity.
       intros u' d Hu' Hne. exfalso. inversion Hu'; subst u'. simpl in Htruthy.
       destruct (String.eqb_spec u EmptyString); [contradiction | discriminate]. }
  destruct (TaskController.completeTaskSchema (TaskController.body req))
    as [d | details] eqn:Hs;
    [| repeat split; try discriminate; try reflexivity; intros; discriminate].
  destruct (TaskModel.findById db (TaskController.param_id req) u) as [t0 |] eqn:Hf.
  - destruct (complete_found db (TaskController.param_id req) u
                (TaskController.actual_duration d)
                (TaskController.current_energy_level d) now t0 Hf) as [bonus [Hc Hb]].
    rewrite Hc. simpl. split; [discriminate |]. split; [| split].
    + intros Hnot. exfalso. eapply Hnot. reflexivity.
    + intros u' d' Hu' _ _ Hnone. inversion Hu'; subst u'. congruence.
    + intros t pe bp flag H. inversion H; subst t pe bp flag; clear H.
      exists u, t0, d. do 8 (split; [first [reflexivity | assumption] |]).
      intros Hbonus. rewrite Hb in *.
      destruct (TaskController.current_energy_level d) as [level |]; [| congruence].
      destruct (negb (level =? 0)); simpl in *; [| congruence].
      destruct (Z.eqb_spec (TaskModel.energy_requirement t0) level);
        [split; [congruence | reflexivity] | contradiction].
  - unfold TaskModel.complete. rewrite Hf. simpl.
    split; [discriminate |]. split; [reflexivity |]. split; [reflexivity |].
    intros; discriminate.
Qed.

Lemma complete_handler_witness :
  TaskController.complete Fixtures.three_tasks Fixtures.tomorrow
    {| TaskController.userId := Some "u1"%string;
       TaskController.param_id := "missing";
       TaskController.body := Zod.JObject [] |}
  = (TaskController.Failed "Failed to complete task", Fixtures.three_tasks).
Proof.
  eapply (proj1 (proj2 (proj2 (complete_handler Fixtures.three_tasks Fixtures.tomorrow _)))).
  - reflexivity.
  - discriminate.
  - reflexivity.
  - reflexivity.
Defined.

(** X24. The handlers [getById] and [delete] keep to the tasks of the
    user of the request: a task that [getById] shows is a task of the
    table with the id of the request and that user as its owner; [delete]
    answers that it deleted only when such a task was stored; and after a
    [delete], whatever it answered, [getById] for the same request shows
    no task.  Where the user of the request owns no task of that id,
    [getById] answers 404, and [delete] removes nothing and answers 404,
    or 500 when the database rejects the statement. *)
Theorem task_handlers_ownership db req :
  (forall t,
      TaskController.getById db req = TaskController.Found t ->
      In t db
      /\ TaskModel.id t = TaskController.param_id req
      /\ TaskController.userId req = Some (TaskModel.user_id t))
  /\ (fst (TaskController.delete db req) = TaskController.Deleted ->
      exists u, TaskController.userId req = Some u
                /\ Spec.stored db (TaskController.param_id req) u)
  /\ (forall t,
         TaskController.getById (snd (TaskController.delete db req)) req
         <> TaskController.Found t)
  /\ (forall u,
         TaskController.userId req = Some u -> u <> EmptyString ->
         ~ Spec.stored db (TaskController.param_id req) u ->
         TaskController.getById db req = TaskController.NotFound
         /\ snd (TaskController.delete db req) = db
         /\ (TaskController.reply_status (fst (TaskController.delete db req)) = 404
             \/ TaskController.reply_status (fst (TaskController.delete db req)) = 500)).
Proof.
  unfold TaskController.getById, TaskController.delete.
  destruct (TaskController.userId req) as [u |] eqn:Hu;
    [| split; [| split; [| split]]; simpl; intros; discriminate].
  destruct (Js.truthyS (Some u)) eqn:Htruthy; simpl negb; cbv iota.
  2: { split; [| split; [| split]]; simpl; try (intros; discriminate).
       intros u' Hu' Hne. exfalso. inversion Hu'; subst u'. simpl in Htruthy.
       destruct (String.eqb_spec u EmptyString); [contradiction | discriminate]. }
  pose proof (delete_facts := filter_owned_deleted (TaskController.param_id req) u db).
  split; [| split; [| split]].
  - intros t H.
    destruct (TaskModel.findById db (TaskController.param_id req) u) as [t' |] eqn:Hf;
      [| discriminate].
    inversion H; subst t'. apply findById_In in Hf. destruct Hf as [_ [Hin Ho]].
    apply owned_iff in Ho. destruct Ho as [Hi Hown]. rewrite Hown. tauto.
  - unfold TaskModel.delete. simpl.
    destruct (filter (TaskModel.owned (TaskController.param_id req) u) db) as [| x l] eqn:Hfl;
      [discriminate |].
    intros _. exists u. split; [reflexivity |]. exists x.
    assert (Hx : In x (filter (TaskModel.owned (TaskController.param_id req) u) db))
      by (rewrite Hfl; now left).
    apply filter_In in Hx. destruct Hx as [Hin Ho]. apply owned_iff in Ho. tauto.
  - intros t. unfold TaskModel.delete. simpl.
    assert (Hnone : TaskModel.findById
                      (filter (fun x => negb (TaskModel.owned (TaskController.param_id req) u x))
                         db) (TaskController.param_id req) u = None)
      by (unfold TaskModel.findById; now rewrite delete_facts).
    destruct (0 <? _); simpl; rewrite Hnone; discriminate.
  - intros u' Hu' _ Hno. inversion Hu'; subst u'.
    assert (Hnone : filter (TaskModel.owned (TaskController.param_id req) u) db = []).
    { destruct (filter (TaskModel.owned (TaskController.param_id req) u) db) as [| x l] eqn:Hfl;
        [reflexivity |].
      exfalso. apply Hno. exists x.
      assert (Hx : In x (filter (TaskModel.owned (TaskController.param_id req) u) db))
        by (rewrite Hfl; now left).
      apply filter_In in Hx. destruct Hx as [Hin Ho]. apply owned_iff in Ho. tauto. }
    unfold TaskModel.findById, TaskModel.delete. rewrite Hnone. simpl.
    split; [reflexivity |]. split; [| now left].
    clear - Hnone. induction db as [| c db IH]; simpl in *; [reflexivity |].
    destruct (TaskModel.owned (TaskController.param_id req) u c); [discriminate |].
    simpl. f_equal. now apply IH.
Qed.

Lemma task_handlers_ownership_witness :
  TaskController.getById Fixtures.keyed_tasks
    {| TaskController.userId := Some Fixtures.user_b;
       TaskController.param_id := Fixtures.task_a;
       TaskController.body := Zod.JNull |}
  = TaskController.NotFound
  /\ snd (TaskController.delete Fixtures.keyed_tasks
            {| TaskController.userId := Some Fixtures.user_b;
               TaskController.param_id := Fixtures.task_a;
               TaskController.body := Zod.JNull |})
     = Fixtures.keyed_tasks.
Proof.
  destruct (task_handlers_ownership Fixtures.keyed_tasks
              {| TaskController.userId := Some Fixtures.user_b;
                 TaskController.param_id := Fixtures.task_a;
                 TaskController.body := Zod.JNull |}) as [_ [_ [_ H]]].
  destruct (H Fixtures.user_b eq_refl) as [Hget [Hdel _]].
  - discriminate.
  - intros [t [Hin [_ Hu]]]. simpl in Hin.
    destruct Hin as [<- | [<- | []]]; discriminate.
  - split; [exact Hget | exact Hdel].
Defined.

End TaskHandlers.

(** ** The handler that creates a task *)

Section CreateTaskHandler.

Variable is_uuid : string -> bool.
Variable is_datetime : string -> bool.
Variable Date_parse : string -> Z.

Lemma number_int_min_max_optional_Valid lo hi path v n :
  Zod.number_int_min_max_optional lo hi path v = Zod.Valid (Some n) -> lo <= n <= hi.
Proof.
  unfold Zod.number_int_min_max_optional.
  destruct v as [x |]; [| discriminate].
  destruct (Zod.number_int_min_max lo hi path (Some x)) as [m |] eqn:Hm; [| discriminate].
  intros H. inversion H; subst m. apply number_int_min_max_Valid in Hm.
  destruct Hm as [q [_ [_ Hr]]]. exact Hr.
Qed.

Lemma createTaskSchema_Valid body d :
  TaskController.createTaskSchema is_uuid is_datetime body = Zod.Valid d ->
  (forall n, TaskController.in_priority d = Some n -> 1 <= n <= 5)
  /\ (forall n, TaskController.in_energy_requirement d = Some n -> 1 <= n <= 5)
  /\ (1 <= String.length (TaskController.in_title d) <= 500)%nat.
Proof.
  unfold TaskController.createTaskSchema.
  destruct body as [| | | | | fields]; try discriminate.
  destruct (Zod.string_min_max 1 500 "title" (Zod.get fields "title")) as [t |] eqn:Ht;
    [| discriminate].
  destruct (Zod.string_max_optional 2000 "description" _) as [ds |]; [| discriminate].
  destruct (Zod.number_int_min_max_optional 1 5 "energy_requirement" _) as [e |] eqn:He;
    [| discriminate].
  destruct (Zod.number_int_min_max_optional 1 5 "priority" _) as [p |] eqn:Hp;
    [| discriminate].
  destruct (Zod.string_format_optional is_uuid "project_id" _) as [j |]; [| discriminate].
  destruct (Zod.string_format_optional is_datetime "due_date" _) as [u |]; [| discriminate].
  destruct (Zod.number_int_positive_optional "estimated_duration" _) as [n |];
    [| discriminate].
  intros H. inversion H; subst d; clear H. simpl.
  split; [| split].
  - intros n' ->. now apply number_int_min_max_optional_Valid in Hp.
  - intros n' ->. now apply number_int_min_max_optional_Valid in He.
  - unfold Zod.string_min_max in Ht.
    destruct (Zod.get fields "title") as [[| | | s | |] |]; try discriminate.
    destruct (Nat.leb_spec 1 (String.length s)); [| discriminate].
    destruct (Nat.leb_spec (String.length s) 500); [| discriminate].
    inversion Ht; subst. lia.
Qed.

Lemma orZ_in_range (v : option Z) :
  (forall n, v = Some n -> 1 <= n <= 5) -> 1 <= Js.orZ v 3 <= 5.
Proof.
  intros H. unfold Js.orZ. destruct v as [n |]; [| lia].
  destruct (Z.eqb_spec n 0); [lia | now apply H].
Qed.

(** X25. What the validation of the handler [create] lets through breaks
    neither a CHECK of the table nor the length of its title column: for a
    request with a user and a body that passes [createTaskSchema], the
    priority and the energy requirement to be stored are in 1..5 (3 where
    the body gives none) and the title has 1 to 500 characters.  Such a
    request is answered 201 or 500.  The task of a 201 is the new last row
    of the table; it belongs to the user of the request, is pending, and
    holds that priority, that energy requirement and the base points of
    the two.  A 500, 'Failed to create task', is the answer when the
    database rejects the row, as it does for an id that is in the table
    already, and leaves the table as it is.  A body that does not pass is
    answered 400 and changes nothing. *)
Theorem create_handler db new_id now req u :
  TaskController.userId req = Some u -> u <> EmptyString ->
  (forall details,
      TaskController.createTaskSchema is_uuid is_datetime (TaskController.body req)
      = Zod.Invalid details ->
      TaskController.create is_uuid is_datetime Date_parse db new_id now req
      = (TaskController.ValidationFailed details, db))
  /\ (forall d,
         TaskController.createTaskSchema is_uuid is_datetime (TaskController.body req)
         = Zod.Valid d ->
         1 <= Js.orZ (TaskController.in_priority d) 3 <= 5
         /\ 1 <= Js.orZ (TaskController.in_energy_requirement d) 3 <= 5
         /\ (1 <= String.length (TaskController.in_title d) <= 500)%nat
         /\ (In new_id (map TaskModel.id db) ->
             TaskController.create is_uuid is_datetime Date_parse db new_id now req
             = (TaskController.Failed "Failed to create task", db))
         /\ (forall t db',
                TaskController.create is_uuid is_datetime Date_parse db new_id now req
                = (TaskController.Created t, db') ->
                db' = db ++ [t]
                /\ TaskModel.id t = new_id
                /\ TaskModel.user_id t = u
                /\ TaskModel.title t = TaskController.in_title d
                /\ TaskModel.status t = "pending"%string
                /\ TaskModel.priority t = Js.orZ (TaskController.in_priority d) 3
                /\ TaskModel.energy_requirement t
                   = Js.orZ (TaskController.in_energy_requirement d) 3
                /\ TaskModel.points t
                   = TaskModel.calculateBasePoints (TaskModel.priority t)
                       (TaskModel.energy_requirement t))
         /\ (forall r db',
                TaskController.create is_uuid is_datetime Date_parse db new_id now req
                = (r, db') ->
                (forall t, r <> TaskController.Created t) ->
                r = TaskController.Failed "Failed to create task" /\ db' = db)).
Proof.
  intros Hu Hne. unfold TaskController.create. rewrite Hu.
  assert (Htruthy : Js.truthyS (Some u) = true).
  { simpl. destruct (String.eqb_spec u EmptyString); [contradiction | reflexivity]. }
  rewrite Htruthy. simpl negb. cbv iota.
  split.
  - intros details ->. reflexivity.
  - intros d Hd. rewrite Hd.
    destruct (createTaskSchema_Valid _ _ Hd) as [Hp [He Ht]].
    apply orZ_in_range in Hp. apply orZ_in_range in He.
    split; [exact Hp |]. split; [exact He |]. split; [exact Ht |].
    unfold TaskModel.create.
    match goal with |- context [negb (TaskModel.check_row ?r)] => set (row := r) end.
    assert (Hrow : TaskModel.check_row row = true)
      by (apply check_row_iff; subst row; simpl; tauto).
    rewrite Hrow. simpl negb. rewrite orb_false_r.
    pose proof (has_id_In db new_id) as Hin.
    destruct (existsb (TaskModel.has_id new_id) db).
    + split; [reflexivity |]. split; [intros t db' H; discriminate H |].
      intros r db' H _. inversion H. split; reflexivity.
    + split; [intros H; apply Hin in H; discriminate |]. split.
      * intros t db' H. inversion H; subst t db'; clear H. subst row. simpl.
        repeat split; reflexivity.
      * intros r db' H Hnot. inversion H; subst r db'; clear H.
        exfalso. eapply Hnot. reflexivity.
Qed.

End CreateTaskHandler.

Lemma create_handler_witness :
  TaskController.create (fun _ => true) (fun _ => true) (fun _ => 0)
    Fixtures.keyed_tasks Fixtures.task_c Fixtures.tomorrow
    {| TaskController.userId := Some Fixtures.user_a;
       TaskController.param_id := "";
       TaskController.body :=
         Zod.JObject [("title"%string, Zod.JString "plan");
                      ("priority"%string, Zod.JNumber 9)] |}
  = (TaskController.ValidationFailed ["priority"%string], Fixtures.keyed_tasks).
Proof.
  apply (create_handler (fun _ => true) (fun _ => true) (fun _ => 0)
           Fixtures.keyed_tasks Fixtures.task_c Fixtures.tomorrow
           {| TaskController.userId := Some Fixtures.user_a;
              TaskController.param_id := "";
              TaskController.body :=
                Zod.JObject [("title"%string, Zod.JString "plan");
                             ("priority"%string, Zod.JNumber 9)] |}
           Fixtures.user_a eq_refl).
  - discriminate.
  - reflexivity.
Defined.
